(** * dfuzzer: the fuzzing core (src/fuzz.c)

    A shallow embedding of the functions of [fuzz.c] and the properties of
    its argument catalog, format-string composer, liveness probe and
    per-method test loop.

    Conventions.
    - A C [int] is a [Z] kept in range by [wrap_int]; the [char] counter
      [df_except_counter] by [wrap_char] (a signed 8-bit [char], as on
      x86 Linux).  A [long] has 64 bits; the [%d] of [sscanf] converts
      with [strtol] and cuts the [long] to an [int], as the C library of
      Linux does.
    - A C string is a [string]; [strlen] is its length.  Format strings are
      kept as the source writes them (escape sequences unexpanded).
    - The module's file-scope variables are the fields of [fuzz_state],
      threaded explicitly.
    - Everything the module asks of its surroundings (allocator, random
      generator, bus proxy, shell, /proc) is an explicit oracle argument.
    - Output calls ([df_debug], [df_verbose], [df_fail], [FULL_LOG]) are
      recorded, in program order, as a list of [event]s. *)

From Stdlib Require Import ZArith List String Ascii Bool Lia.
Import ListNotations.

Set Warnings "-register-all".

Local Open Scope string_scope.
Local Open Scope list_scope.
Local Open Scope Z_scope.

(** ** Machine integers *)

Module CInt.

Definition INT_MAX : Z := 2147483647.
Definition INT_MIN : Z := -2147483648.

(** Two's complement reduction to a 32-bit [int]. *)
Definition wrap_int (z : Z) : Z := (z + 2147483648) mod 4294967296 - 2147483648.

(** Two's complement reduction to a signed 8-bit [char]. *)
Definition wrap_char (z : Z) : Z := (z + 128) mod 256 - 128.

Definition in_int (z : Z) : Prop := INT_MIN <= z <= INT_MAX.

(** The range of a 64-bit [long] (the LP64 data model of Linux). *)
Definition LONG_MAX : Z := 9223372036854775807.
Definition LONG_MIN : Z := -9223372036854775808.

End CInt.
Import CInt.

(** ** C strings *)

Definition strlen (s : string) : Z := Z.of_nat (String.length s).

(** [strstr haystack needle]: the suffix of [haystack] that starts at the
    first occurrence of [needle], [None] for a NULL result. *)
Fixpoint strstr (haystack needle : string) : option string :=
  if String.prefix needle haystack then Some haystack
  else match haystack with
       | EmptyString => None
       | String _ rest => strstr rest needle
       end.

Definition strcmp_eq (a b : string) : bool := String.eqb a b.

(** The characters of a string. *)
Definition chars (s : string) : list ascii := list_ascii_of_string s.

(** ** Heap blocks owned through a single pointer

    [Live v] points to an allocated block holding [v]; [Freed] is the same
    pointer value after the block was handed to [free] (dangling). *)

Inductive heap_ptr (A : Type) : Type :=
| NULL
| Live (v : A)
| Freed.
Arguments NULL {A}.
Arguments Live {A} v.
Arguments Freed {A}.

(** What a sequence of [free] calls can do. *)
Inductive mem_outcome (A : Type) : Type :=
| Done (a : A)
| DoubleFree.
Arguments Done {A} a.
Arguments DoubleFree {A}.

(** [free(p)]: a no-op on NULL, releases a live block, and is a double free
    on a block already released. *)
Definition free {A : Type} (p : heap_ptr A) : mem_outcome (heap_ptr A) :=
  match p with
  | NULL => Done NULL
  | Live _ => Done Freed
  | Freed => DoubleFree
  end.

(** ** GVariant values *)

Inductive gvalue : Type :=
| VByte (u : Z)
| VBool (b : bool)
| VInt16 (i : Z)
| VUInt16 (u : Z)
| VInt32 (i : Z)
| VUInt32 (u : Z)
| VInt64 (i : Z)
| VUInt64 (u : Z)
| VDouble (bits : Z)
| VString (s : string)
| VObjPath (s : string)
| VSignature (s : string)
| VVariant (inner : gvalue)
| VHandle (fd : Z)
| VTuple (items : list gvalue).

(** A GVariant instance: its type string and its value. *)
Record GVariant : Type := mkGVariant {
  gv_type : string;
  gv_value : gvalue
}.

(** ** The argument catalog (struct df_signature, struct df_sig_list) *)

(** The fields are the ones fuzz.c reads and writes ([sig], [var], [next]
    and [df_method_name], [args], [fuzz_on_str_len], [list]). *)
Record df_signature : Type := mk_sig {
  sig : string;                 (* D-Bus signature of the argument *)
  var : option GVariant         (* generated value, None for NULL *)
}.

(** The linked list [df_list.list] is the Rocq list [nodes]: the [next]
    pointers are the list order and [df_last] is its last element. *)
Record df_sig_list : Type := mk_list {
  df_method_name : heap_ptr string;
  args : Z;
  fuzz_on_str_len : Z;
  nodes : list df_signature
}.

(** The file-scope variables of fuzz.c. *)
Record fuzz_state : Type := mk_state {
  df_list : df_sig_list;
  df_unsupported_sig : Z;
  df_unsupported_sig_str : option string;
  df_except_counter : Z
}.

(** Static storage is zero-initialised. *)
Definition initial_state : fuzz_state :=
  {| df_list := {| df_method_name := NULL; args := 0; fuzz_on_str_len := 0;
                   nodes := [] |};
     df_unsupported_sig := 0;
     df_unsupported_sig_str := None;
     df_except_counter := 0 |}.

Definition set_list (st : fuzz_state) (l : df_sig_list) : fuzz_state :=
  {| df_list := l;
     df_unsupported_sig := df_unsupported_sig st;
     df_unsupported_sig_str := df_unsupported_sig_str st;
     df_except_counter := df_except_counter st |}.

Definition set_nodes (st : fuzz_state) (ns : list df_signature) : fuzz_state :=
  set_list st {| df_method_name := df_method_name (df_list st);
                 args := args (df_list st);
                 fuzz_on_str_len := fuzz_on_str_len (df_list st);
                 nodes := ns |}.

Definition set_except_counter (st : fuzz_state) (c : Z) : fuzz_state :=
  {| df_list := df_list st;
     df_unsupported_sig := df_unsupported_sig st;
     df_unsupported_sig_str := df_unsupported_sig_str st;
     df_except_counter := c |}.

Definition signatures (st : fuzz_state) : list string :=
  map sig (nodes (df_list st)).

(** ** Output calls *)

Inductive ansi : Type := ansi_cr | ansi_red | ansi_green | ansi_blue
                       | ansi_yellow | ansi_bold | ansi_normal.

(** An argument of a printf-style call. *)
Inductive arg : Type :=
| AStr (s : string)
| AInt (z : Z)
| ADouble (bits : Z)
| ANull                        (* a NULL char pointer *)
| AUndef                       (* an object that was never written *)
| AAnsi (c : ansi).

Inductive event : Type :=
| df_debug (fmt : string) (a : list arg)
| df_verbose (fmt : string) (a : list arg)
| df_fail (fmt : string) (a : list arg)
| FULL_LOG (fmt : string) (a : list arg)
| perror (s : string)
| sleep (seconds : Z)
| g_dbus_proxy_call_sync (method : heap_ptr string) (value : GVariant).

(** ** Building the catalog *)

(** [df_fuzz_add_method(name)]; [strdup_ok] tells whether [strdup]
    succeeds. *)
Definition df_fuzz_add_method (name : option string) (strdup_ok : bool)
    (st : fuzz_state) : list event * Z * fuzz_state :=
  match name with
  | None => ([df_debug "Passing NULL argument to function.\n" []], -1, st)
  | Some n =>
      let l := df_list st in
      if strdup_ok then
        ([], 0,
         set_list st {| df_method_name := Live n; args := 0;
                        fuzz_on_str_len := 0; nodes := [] |})
      else
        ([df_fail "Error: Could not allocate memory for method name.\n" []],
         -1,
         set_list st {| df_method_name := NULL; args := args l;
                        fuzz_on_str_len := fuzz_on_str_len l;
                        nodes := nodes l |})
  end.

(** [df_fuzz_add_method_arg(signature)]; [malloc_ok] and [strdup_ok] tell
    whether the two allocations succeed. *)
Definition df_fuzz_add_method_arg (signature : option string)
    (malloc_ok strdup_ok : bool) (st : fuzz_state)
    : list event * Z * fuzz_state :=
  match signature with
  | None => ([], 0, st)
  | Some sg =>
      if negb malloc_ok then
        ([df_fail "Error: Could not allocate memory for struct df_signature.\n" []],
         -1, st)
      else
        let l := df_list st in
        let args' := wrap_int (args l + 1) in
        if negb strdup_ok then
          ([df_fail "Error: Could not allocate memory for argument signature.\n" []],
           -1,
           set_list st {| df_method_name := df_method_name l; args := args';
                          fuzz_on_str_len := fuzz_on_str_len l;
                          nodes := nodes l |})
        else
          let s := {| sig := sg; var := None |} in
          let flag :=
            match strstr sg "s", strstr sg "v" with
            | None, None => fuzz_on_str_len l
            | _, _ => 1
            end in
          ([], 0,
           set_list st {| df_method_name := df_method_name l; args := args';
                          fuzz_on_str_len := flag;
                          nodes := nodes l ++ [s] |})
  end.

Definition df_list_args_count (st : fuzz_state) : Z := args (df_list st).

(** One call of [df_fuzz_add_method_arg] with its allocator answers. *)
Record add_call : Type := mk_add_call {
  ac_signature : option string;
  ac_malloc_ok : bool;
  ac_strdup_ok : bool
}.

(** A sequence of [df_fuzz_add_method_arg] calls (return codes dropped). *)
Fixpoint add_method_args (calls : list add_call) (st : fuzz_state) : fuzz_state :=
  match calls with
  | [] => st
  | c :: rest =>
      add_method_args rest
        (snd (df_fuzz_add_method_arg (ac_signature c) (ac_malloc_ok c)
                                     (ac_strdup_ok c) st))
  end.

(** ** Releasing the catalog *)

(** The [while] loop of [df_fuzz_clean_method]: every node and its
    signature string are freed, head first; the number of nodes freed is
    returned with the emptied list. *)
Fixpoint free_nodes (l : list df_signature) (freed : nat)
    : nat * list df_signature :=
  match l with
  | [] => (freed, [])
  | _ :: tmp => free_nodes tmp (S freed)
  end.

(** [df_fuzz_clean_method()]: the outcome and the number of argument nodes
    it freed. *)
Definition df_fuzz_clean_method (st : fuzz_state) : mem_outcome (nat * fuzz_state) :=
  let l := df_list st in
  match free (df_method_name l) with
  | DoubleFree => DoubleFree
  | Done p =>
      let '(freed, rest) := free_nodes (nodes l) 0 in
      Done (freed,
            set_list st {| df_method_name := p; args := args l;
                           fuzz_on_str_len := fuzz_on_str_len l;
                           nodes := rest |})
  end.

(** Two releases in sequence. *)
Definition clean_twice (st : fuzz_state) : mem_outcome (nat * fuzz_state) :=
  match df_fuzz_clean_method st with
  | DoubleFree => DoubleFree
  | Done (_, st1) => df_fuzz_clean_method st1
  end.

(** ** Constants of dfuzzer.h, fuzz.h and rand.h

    The headers that define them are not part of the module; the functions
    take them as a parameter. *)

Record constants : Type := mk_constants {
  MAX_EXCEPTIONS : Z;     (* tolerated exceptions per method *)
  MAXFMT : Z;             (* maximum length of the format string *)
  MINLEN : Z;             (* minimum buffer size of the generator *)
  MAX_BUF_LEN : Z         (* default buffer size of the generator *)
}.

(** ** df_fuzz_write_log *)

Definition name_arg (p : heap_ptr string) : arg :=
  match p with
  | Live n => AStr n
  | NULL => ANull
  | Freed => AUndef
  end.

(** [g_variant_get(s->var, s->sig, &x)] for the numeric codes: the stored
    number, or an unwritten object when there is no such value. *)
Definition g_variant_get_num (v : option GVariant) : arg :=
  match option_map gv_value v with
  | Some (VByte z) | Some (VInt16 z) | Some (VUInt16 z) | Some (VInt32 z)
  | Some (VUInt32 z) | Some (VInt64 z) | Some (VUInt64 z)
  | Some (VHandle z) => AInt z
  | _ => AUndef
  end.

Definition g_variant_get_bool (v : option GVariant) : arg :=
  match option_map gv_value v with
  | Some (VBool b) => AStr (if b then "true" else "false")
  | _ => AUndef
  end.

Definition g_variant_get_double (v : option GVariant) : arg :=
  match option_map gv_value v with
  | Some (VDouble d) => ADouble d
  | _ => AUndef
  end.

(** For 's', 'o' and 'g': [str] starts as NULL. *)
Definition g_variant_get_str (v : option GVariant) : option string :=
  match option_map gv_value v with
  | Some (VString s) | Some (VObjPath s) | Some (VSignature s) => Some s
  | _ => None
  end.

(** [*ptr & 0xff] *)
Definition byte_of_char (c : ascii) : Z := Z.land (Z.of_nat (nat_of_ascii c)) 255.

Definition log_string (str : option string) : list event :=
  match str with
  | Some s =>
      df_fail " [length: %zu B]-- '%s'\n" [AInt (strlen s); AStr s]
      :: map (fun c => FULL_LOG "%02x" [AInt (byte_of_char c)]) (chars s)
  | None => []
  end ++ [FULL_LOG ";" []].

(** The [switch (s->sig[0])] of df_fuzz_write_log: [None] for the default
    case.  In the 'v' case the call passes [var] itself (NULL), not its
    address, so nothing is stored and the else branch is taken. *)
Definition write_log_value (c : ascii) (v : option GVariant)
    : option (list event) :=
  match c with
  | "y"%char => let u := g_variant_get_num v in
      Some [df_fail "-- '%u'\n" [u]; FULL_LOG "%u;" [u]]
  | "b"%char => let b := g_variant_get_bool v in
      Some [df_fail "-- '%s'\n" [b]; FULL_LOG "%s" [b]]
  | "n"%char => let i := g_variant_get_num v in
      Some [df_fail "-- '%d'\n" [i]; FULL_LOG "%d;" [i]]
  | "q"%char => let u := g_variant_get_num v in
      Some [df_fail "-- '%u'\n" [u]; FULL_LOG "%u;" [u]]
  | "i"%char => let i := g_variant_get_num v in
      Some [df_fail "-- '%d'\n" [i]; FULL_LOG "%d;" [i]]
  | "h"%char | "u"%char => let u := g_variant_get_num v in
      Some [df_fail "-- '%u'\n" [u]; FULL_LOG "%u;" [u]]
  | "x"%char => let i := g_variant_get_num v in
      Some [df_fail "-- '%li'\n" [i]; FULL_LOG "%li" [i]]
  | "t"%char => let u := g_variant_get_num v in
      Some [df_fail "-- '%lu'\n" [u]; FULL_LOG "%lu" [u]]
  | "d"%char => let d := g_variant_get_double v in
      Some [df_fail "-- '%lg'\n" [d]; FULL_LOG "%lg;" [d]]
  | "s"%char | "o"%char | "g"%char => Some (log_string (g_variant_get_str v))
  | "v"%char =>
      Some [df_fail "-- 'unable to deconstruct GVariant instance'\n" []]
  | _ => None
  end.

Fixpoint write_log_loop (s : list df_signature) : list event * Z :=
  match s with
  | [] => ([], 0)
  | x :: next =>
      let len := wrap_int (strlen (sig x)) in
      if len <=? 0 then
        ([df_fail "No argument signature\n" []; FULL_LOG "\n" []], -1)
      else if len =? 1 then
        let head := [df_fail "    --" []; df_fail "%s" [AStr (sig x)];
                     FULL_LOG "%s;" [AStr (sig x)]] in
        match sig x with
        | String c _ =>
            match write_log_value c (var x) with
            | Some ev =>
                let '(rest, r) := write_log_loop next in
                (head ++ ev ++ rest, r)
            | None =>
                (head ++ [df_fail "Unknown argument signature '%s'\n"
                                  [AStr (sig x)]], -1)
            end
        | EmptyString => (head, -1)    (* not reached: len = 1 *)
        end
      else
        ([df_debug "Not yet implemented in df_fuzz_write_log()\n" []], 0)
  end.

Definition df_fuzz_write_log (st : fuzz_state) : list event * Z :=
  let '(ev, r) := write_log_loop (nodes (df_list st)) in
  (FULL_LOG "%s;" [name_arg (df_method_name (df_list st))] :: ev, r).

(** ** df_exec_cmd_check *)

(** The answers of the system calls of one health check. *)
Record cmd_env : Type := mk_cmd_env {
  open_devnull_ok : bool;
  dup_stdout_ok : bool;
  dup_stderr_ok : bool;
  dup2_stdout_ok : bool;
  dup2_stderr_ok : bool;
  system_status : Z;            (* the value system(cmd) returns *)
  restore_stdout_ok : bool;
  restore_stderr_ok : bool
}.

Definition WEXITSTATUS (status : Z) : Z := Z.shiftr (Z.land status 65280) 8.

Definition df_exec_cmd_check (cmd : option string) (e : cmd_env)
    : list event * Z :=
  match cmd with
  | None => ([], 0)
  | Some _ =>
      if negb (open_devnull_ok e) then ([perror "open"], -1)
      else if negb (dup_stdout_ok e) then ([], -1)
      else if negb (dup_stderr_ok e) then ([], -1)
      else if negb (dup2_stdout_ok e) then ([], -1)
      else if negb (dup2_stderr_ok e) then ([], -1)
      else
        let status := system_status e in
        if negb (restore_stdout_ok e) then ([], -1)
        else if negb (restore_stderr_ok e) then ([], -1)
        else if status =? -1 then ([], status)
        else ([], WEXITSTATUS status)
  end.

(** ** df_check_if_exited *)

Definition ENOENT : Z := 2.
Definition ENOTDIR : Z := 20.
Definition EACCES : Z := 13.

Definition newline : ascii := "010"%char.

(** [isspace] in the C locale. *)
Definition isspace (c : ascii) : bool :=
  let n := nat_of_ascii c in
  (Nat.eqb n 32 || (Nat.leb 9 n && Nat.leb n 13))%bool.

Definition isdigit (c : ascii) : bool :=
  let n := nat_of_ascii c in (Nat.leb 48 n && Nat.leb n 57)%bool.

Fixpoint skip_spaces (s : string) : string :=
  match s with
  | String c rest => if isspace c then skip_spaces rest else s
  | EmptyString => s
  end.

(** Ordinary characters of a format must match the input exactly. *)
Fixpoint match_literal (lit s : string) : option string :=
  match lit with
  | EmptyString => Some s
  | String a lit' =>
      match s with
      | String b s' => if Ascii.eqb a b then match_literal lit' s' else None
      | EmptyString => None
      end
  end.

(** The longest run of decimal digits at the head of [s]; [None] when
    there is no digit. *)
Fixpoint read_digits (s : string) (acc : option Z) : option Z :=
  match s with
  | String c rest =>
      if isdigit c then
        read_digits rest
          (Some (10 * match acc with Some a => a | None => 0 end
                 + (Z.of_nat (nat_of_ascii c) - 48)))
      else acc
  | EmptyString => acc
  end.

(** [strtol] on a sign and a run of digits of value [z]: the value
    itself, or LONG_MAX or LONG_MIN when it lies outside the range of
    [long]. *)
Definition strtol (z : Z) : Z := Z.max LONG_MIN (Z.min LONG_MAX z).

(** The [%d] conversion as the C library makes it: blanks, an optional
    sign, digits; the number is converted by [strtol] and the [long] it
    gives is stored into an [int]. *)
Definition scan_d (s : string) : option Z :=
  match skip_spaces s with
  | String "-"%char rest =>
      option_map (fun z => wrap_int (strtol (- z))) (read_digits rest None)
  | String "+"%char rest =>
      option_map (fun z => wrap_int (strtol z)) (read_digits rest None)
  | rest => option_map (fun z => wrap_int (strtol z)) (read_digits rest None)
  end.

(** [sscanf(line, "CoreDumping: %d", &dumping) == 1]: [Some dumping] when
    the conversion is made, [None] for every other return value. *)
Definition sscanf_CoreDumping (line : string) : option Z :=
  match match_literal "CoreDumping:" line with
  | Some rest => scan_d (skip_spaces rest)
  | None => None
  end.

(** How reading a stream stops: at its end, or on an error that sets the
    stream's error indicator. *)
Inductive stream_end : Type := EndOfFile | ReadError.

(** An opened status record: the bytes that can be read and how reading
    stops after them. *)
Record status_file : Type := mk_status_file {
  content : string;
  at_end : stream_end
}.

(** What [fopen("/proc/<pid>/status", "r")] gives. *)
Inductive fopen_result : Type :=
| FopenFails (errno : Z)
| Opened (f : status_file).

(** The lines successive [getline] calls return: each with its newline; a
    last line without one is returned at end of file and lost on a read
    error.  Every line returned has at least one character. *)
Fixpoint getlines (s : string) (line : string) (e : stream_end) : list string :=
  match s with
  | EmptyString =>
      match line, e with
      | EmptyString, _ => []
      | _, EndOfFile => [line]
      | _, ReadError => []
      end
  | String c rest =>
      if Ascii.eqb c newline
      then (line ++ String c EmptyString)%string :: getlines rest EmptyString e
      else getlines rest (line ++ String c EmptyString)%string e
  end.

(** How the [while (getline(...) > 0)] loop is left. *)
Inductive scan_exit : Type :=
| ScanReturn (r : Z)      (* return from inside the loop *)
| ScanBreak               (* break *)
| ScanEnd.                (* getline gave no further line *)

Fixpoint scan_status (lines : list string) : scan_exit :=
  match lines with
  | [] => ScanEnd
  | line :: rest =>
      match sscanf_CoreDumping line with
      | Some dumping => if dumping >? 0 then ScanReturn 0 else ScanBreak
      | None => scan_status rest
      end
  end.

(** [ferror(f)] after the loop: set only when a [getline] call failed on a
    read error. *)
Definition ferror_after (x : scan_exit) (e : stream_end) : bool :=
  match x, e with
  | ScanEnd, ReadError => true
  | _, _ => false
  end.

(** [df_check_if_exited(pid)]: [None] when [assert(pid > 0)] fails. *)
Definition df_check_if_exited (pid : Z) (proc : Z -> fopen_result) : option Z :=
  if negb (pid >? 0) then None
  else
    match proc pid with
    | FopenFails errno =>
        if ((errno =? ENOENT) || (errno =? ENOTDIR))%bool then Some 0
        else Some (-1)
    | Opened f =>
        let x := scan_status (getlines (content f) EmptyString (at_end f)) in
        match x with
        | ScanReturn r => Some r
        | _ => if ferror_after x (at_end f) then Some 0 else Some 1
        end
    end.

(** ** df_fuzz_create_fmt_string *)

(** [memcpy(ptr, s->sig, len)]: the first [len] bytes of the signature. *)
Definition memcpy (src : string) (len : Z) : string :=
  substring 0 (Z.to_nat len) src.

(** The [while] loop: [None] when it returns -1; otherwise [total_len]
    at its end.  In both cases the bytes written so far. *)
Fixpoint fmt_loop (n : Z) (s : list df_signature) (total_len : Z)
    (written : string) : option Z * string :=
  match s with
  | [] => (Some total_len, written)
  | x :: next =>
      let len := wrap_int (strlen (sig x)) in
      let total_len := wrap_int (total_len + wrap_int (len + 1)) in
      if total_len >? wrap_int (n - 3) then (None, written)
      else fmt_loop n next total_len
             (written ++ "@" ++ memcpy (sig x) len)%string
  end.

(** [df_fuzz_create_fmt_string(&fmt, n)]: the events, the return value and
    the bytes written to the buffer, from its start. *)
Definition df_fuzz_create_fmt_string (st : fuzz_state) (n : Z)
    : list event * Z * string :=
  let too_small :=
    [df_debug "Format string is too small to consume all signatures\n" []] in
  match fmt_loop n (nodes (df_list st)) (wrap_int (0 + 1)) "(" with
  | (None, written) => (too_small, -1, written)
  | (Some total_len, written) =>
      if total_len >? wrap_int (n - 3) then (too_small, -1, written)
      else ([], 0, (written ++ ")" ++ String zero EmptyString)%string)
  end.

(** ** df_fuzz_create_list_variants *)

(** What the random module and [g_variant_new] answer when one argument
    slot asks them: the value of each [df_rand_*] function ([None] where
    the function returns -1), and whether [g_variant_new] gives NULL. *)
Record rand_draws : Type := mk_rand_draws {
  df_rand_guint8 : Z;
  df_rand_gboolean : bool;
  df_rand_gint16 : Z;
  df_rand_guint16 : Z;
  df_rand_gint32 : Z;
  df_rand_guint32 : Z;
  df_rand_gint64 : Z;
  df_rand_guint64 : Z;
  df_rand_gdouble : Z;
  df_rand_string : option string;
  df_rand_dbus_objpath_string : option string;
  df_rand_dbus_signature_string : option string;
  df_rand_GVariant : option gvalue;
  df_rand_unixFD : Z;
  g_variant_new_null : bool
}.

Definition g_variant_new (d : rand_draws) (sg : string) (v : gvalue)
    : option GVariant :=
  if g_variant_new_null d then None
  else Some {| gv_type := sg; gv_value := v |}.

(** What one slot does in the [switch (s->sig[0])]. *)
Inductive slot_result : Type :=
| SlotError (ev : list event)          (* return -1 *)
| SlotVar (v : option GVariant).       (* s->var = ...; break *)

Definition generate_value (c : ascii) (sg : string) (d : rand_draws)
    : slot_result :=
  match c with
  | "y"%char => SlotVar (g_variant_new d sg (VByte (df_rand_guint8 d)))
  | "b"%char => SlotVar (g_variant_new d sg (VBool (df_rand_gboolean d)))
  | "n"%char => SlotVar (g_variant_new d sg (VInt16 (df_rand_gint16 d)))
  | "q"%char => SlotVar (g_variant_new d sg (VUInt16 (df_rand_guint16 d)))
  | "i"%char => SlotVar (g_variant_new d sg (VInt32 (df_rand_gint32 d)))
  | "u"%char => SlotVar (g_variant_new d sg (VUInt32 (df_rand_guint32 d)))
  | "x"%char => SlotVar (g_variant_new d sg (VInt64 (df_rand_gint64 d)))
  | "t"%char => SlotVar (g_variant_new d sg (VUInt64 (df_rand_guint64 d)))
  | "d"%char => SlotVar (g_variant_new d sg (VDouble (df_rand_gdouble d)))
  | "s"%char =>
      match df_rand_string d with
      | None => SlotError [df_debug "In df_rand_string()\n" []]
      | Some buf => SlotVar (g_variant_new d sg (VString buf))
      end
  | "o"%char =>
      match df_rand_dbus_objpath_string d with
      | None => SlotError [df_debug "In df_rand_dbus_objpath_string()\n" []]
      | Some obj => SlotVar (g_variant_new d sg (VObjPath obj))
      end
  | "g"%char =>
      match df_rand_dbus_signature_string d with
      | None => SlotError [df_debug "In df_rand_dbus_signature_string()\n" []]
      | Some s => SlotVar (g_variant_new d sg (VSignature s))
      end
  | "v"%char =>
      match df_rand_GVariant d with
      | None => SlotError [df_debug "In df_rand_GVariant()\n" []]
      | Some v => SlotVar (g_variant_new d sg (VVariant v))
      end
  | "h"%char => SlotVar (g_variant_new d sg (VHandle (df_rand_unixFD d)))
  | _ => SlotError [df_debug "Unknown argument signature '%s'\n" [AStr sg]]
  end.

(** [for (s = df_list.list; s && s->var; s = s->next)]: unref and clear
    the values from the head of the list up to the first empty slot. *)
Fixpoint release_vars (l : list df_signature) : list df_signature :=
  match l with
  | [] => []
  | s :: next =>
      match var s with
      | None => l
      | Some _ => {| sig := sig s; var := None |} :: release_vars next
      end
  end.

(** The result of the walk over the list. *)
Record variants_result : Type := mk_variants_result {
  vr_events : list event;
  vr_ret : Z;
  vr_nodes : list df_signature;            (* the list afterwards *)
  vr_unsupported : option string           (* a new df_unsupported_sig_str *)
}.

(** The [while (s != NULL)] loop; [before] are the slots already walked
    (with their new values), [i] the position of the next slot, [rand i]
    the answers given to slot [i]. *)
Fixpoint list_variants_loop (name : heap_ptr string) (rand : nat -> rand_draws)
    (before s : list df_signature) (i : nat) : variants_result :=
  match s with
  | [] => mk_variants_result [] 0 before None
  | x :: next =>
      let len := wrap_int (strlen (sig x)) in
      if len <=? 0 then
        mk_variants_result
          [df_debug "df_fuzz_create_list_variants(): No argument signature\n" []]
          (-1) (before ++ s) None
      else if len =? 1 then
        match sig x with
        | String c _ =>
            match generate_value c (sig x) (rand i) with
            | SlotError ev => mk_variants_result ev (-1) (before ++ s) None
            | SlotVar None =>
                mk_variants_result
                  [df_fail
                     "Error: Failed to construct GVariant for '%s' signatureof method '%s'\n"
                     [AStr (sig x); name_arg name]]
                  (-1) (before ++ {| sig := sig x; var := None |} :: next) None
            | SlotVar (Some v) =>
                list_variants_loop name rand
                  (before ++ [{| sig := sig x; var := Some v |}]) next (S i)
            end
        | EmptyString =>                 (* not reached: len = 1 *)
            mk_variants_result [] (-1) (before ++ s) None
        end
      else
        mk_variants_result [] 1 (release_vars (before ++ s)) (Some (sig x))
  end.

(** [df_fuzz_create_list_variants()] *)
Definition df_fuzz_create_list_variants (rand : nat -> rand_draws)
    (st : fuzz_state) : list event * Z * fuzz_state :=
  let r := list_variants_loop (df_method_name (df_list st)) rand []
             (nodes (df_list st)) 0 in
  let st1 := set_nodes st (vr_nodes r) in
  (vr_events r, vr_ret r,
   match vr_unsupported r with
   | Some s =>
       {| df_list := df_list st1;
          df_unsupported_sig := df_unsupported_sig st1;
          df_unsupported_sig_str := Some s;
          df_except_counter := df_except_counter st1 |}
   | None => st1
   end).

(** ** df_fuzz_create_variant *)

(** The environment of one loop iteration. *)
Inductive call_reply : Type :=
| NoResponse (remote_error : option string) (message : string)
    (* NULL response: what g_dbus_error_get_remote_error gives, and
       error->message once stripped *)
| Response (type_string : string).

Record iteration : Type := mk_iteration {
  it_rand : nat -> rand_draws;
  it_malloc_fmt_ok : bool;          (* malloc(MAXFMT + 1) *)
  it_ffi_prep_ok : bool;            (* ffi_prep_cif(...) == FFI_OK *)
  it_still_floating : bool;         (* g_variant_is_floating(val) *)
  it_reply : call_reply;            (* g_dbus_proxy_call_sync *)
  it_cmd : cmd_env;                 (* the health check *)
  it_proc : Z -> fopen_result       (* /proc at the liveness check *)
}.

(** The values handed to [g_variant_new]: those of the first
    [df_list.args] slots. *)
Definition tuple_items (st : fuzz_state) : list gvalue :=
  flat_map (fun s => match var s with
                     | Some v => [gv_value v]
                     | None => []
                     end)
           (firstn (Z.to_nat (args (df_list st))) (nodes (df_list st))).

Definition tuple_type (st : fuzz_state) : string :=
  ("(" ++ String.concat "" (signatures st) ++ ")")%string.

Definition df_fuzz_create_variant (K : constants) (it : iteration)
    (st : fuzz_state) : list event * option GVariant * fuzz_state :=
  let '(ev1, ret, st1) := df_fuzz_create_list_variants (it_rand it) st in
  if ret =? -1 then
    (ev1 ++ [df_debug "Error in df_fuzz_create_list_variants()\n" []], None, st1)
  else if ret =? 1 then
    (ev1, None,
     {| df_list := df_list st1;
        df_unsupported_sig := wrap_int (df_unsupported_sig st1 + 1);
        df_unsupported_sig_str := df_unsupported_sig_str st1;
        df_except_counter := df_except_counter st1 |})
  else if negb (it_malloc_fmt_ok it) then
    (ev1 ++ [df_fail "Error: Could not allocate memory for format string.\n" []],
     None, st1)
  else
    let '(ev2, r, fmt) :=
      df_fuzz_create_fmt_string st1 (wrap_int (MAXFMT K + 1)) in
    if r =? -1 then
      (ev1 ++ ev2 ++ [df_fail "Error: Unable to create format string.\n" [];
                      df_debug "Error in df_fuzz_create_fmt_string()\n" []],
       None, st1)
    else if negb (it_ffi_prep_ok it) then
      (ev1 ++ ev2 ++ [df_fail "ffi_prep_cif() failed on initializing cif.\n" []],
       None, st1)
    else if it_still_floating it then
      (ev1 ++ ev2 ++
       [df_fail
          "Error: Unable to convert GVariant from floating to normal reference\n(for method '%s()'.\n"
          [name_arg (df_method_name (df_list st1))]],
       None, st1)
    else
      (ev1 ++ ev2,
       Some {| gv_type := tuple_type st1; gv_value := VTuple (tuple_items st1) |},
       st1).

(** ** df_fuzz_call_method *)

Definition df_fuzz_call_method (value : GVariant) (void_method : Z)
    (reply : call_reply) (st : fuzz_state) : list event * Z * fuzz_state :=
  let name := df_method_name (df_list st) in
  let call := g_dbus_proxy_call_sync name value in
  let skip_timeout :=
    df_verbose "%s  %sSKIP%s %s - timeout reached\n"
      [AAnsi ansi_cr; AAnsi ansi_blue; AAnsi ansi_normal; name_arg name] in
  let exception message :=
    ([call;
      df_debug "%s  EXCE %s - D-Bus exception thrown: %.60s\n"
        [AAnsi ansi_cr; name_arg name; AStr message]],
     0, set_except_counter st (wrap_char (df_except_counter st + 1))) in
  let rest message :=
    match strstr message "Timeout" with
    | Some _ => ([call; skip_timeout], 2, st)
    | None => exception message
    end in
  match reply with
  | NoResponse dbus_error message =>
      match dbus_error with
      | Some e =>
          if strcmp_eq e "org.freedesktop.DBus.Error.NoReply" then
            ([call], -1, st)
          else if strcmp_eq e "org.freedesktop.DBus.Error.Timeout" then
            ([call; sleep 10], -1, st)
          else if (strcmp_eq e "org.freedesktop.DBus.Error.AccessDenied"
                   || strcmp_eq e "org.freedesktop.DBus.Error.AuthFailed")%bool
          then
            ([call;
              df_verbose "%s  %sSKIP%s %s - raised exception '%s'\n"
                [AAnsi ansi_cr; AAnsi ansi_blue; AAnsi ansi_normal;
                 name_arg name; AStr e]],
             2, st)
          else rest message
      | None => rest message
      end
  | Response fmt =>
      if ((negb (void_method =? 0)) && negb (strcmp_eq fmt "()"))%bool then
        ([call;
          df_fail "%s  %sFAIL%s %s - void method returns '%s' instead of '()'\n"
            [AAnsi ansi_cr; AAnsi ansi_red; AAnsi ansi_normal; name_arg name;
             AStr fmt]],
         1, st)
      else ([call], 0, st)
  end.

(** ** df_fuzz_test_method *)

(** How a call of df_fuzz_test_method ends: with a return value, or at a
    failed assertion or a NULL dereference. *)
Inductive completion : Type :=
| Returns (code : Z)
| Aborts.

(** The debug loop [for (; j < df_list.args; j++, s = s->next)]: its events,
    and [false] when [s] runs out before [j] reaches [df_list.args] (a NULL
    dereference). *)
Fixpoint debug_signatures (s : list df_signature) (j nargs : Z)
    : list event * bool :=
  if j <? nargs then
    match s with
    | [] => ([], false)
    | x :: next =>
        let '(ev, ok) := debug_signatures next (wrap_int (j + 1)) nargs in
        (df_debug (if j <? wrap_int (nargs - 1) then "%s, " else "%s")
                  [AStr (sig x)] :: ev, ok)
    end
  else ([], true).

(** The ways out of the loop body. *)
Inductive body_exit : Type :=
| BReturn (code : Z)             (* return *)
| BAbort                         (* failed assertion *)
| BBreak (ret execr : Z)         (* break *)
| BNext (ret execr : Z).         (* the end of the body is reached *)

(** What the function leaves behind: its events, the values
    [df_except_counter] took (after every call of df_fuzz_call_method and
    after every reset), and the file-scope variables. *)
Record effects : Type := mk_effects {
  events : list event;
  counter_values : list Z;
  state : fuzz_state
}.

Section TestMethod.

Variable K : constants.
Variables (obj intf : string) (pid void_method : Z).
Variable execute_cmd : option string.
Variable logfile : bool.

Definition method_name (st : fuzz_state) : arg :=
  name_arg (df_method_name (df_list st)).

(** The body of [while (df_rand_continue(...))]. *)
Definition loop_body (it : iteration) (st : fuzz_state) : body_exit * effects :=
  let '(ev1, value, st1) := df_fuzz_create_variant K it st in
  match value with
  | None =>
      if negb (df_unsupported_sig st1 =? 0) then
        (BReturn 0,
         mk_effects
           (ev1 ++
            [df_debug "  unsupported argument by dfuzzer: " [];
             df_debug "%s\n" [match df_unsupported_sig_str st1 with
                              | Some s => AStr s
                              | None => ANull
                              end];
             df_verbose "%s  %sSKIP%s %s - advanced signatures not yet implemented\n"
               [AAnsi ansi_cr; AAnsi ansi_blue; AAnsi ansi_normal;
                method_name st1]])
           []
           {| df_list := df_list st1;
              df_unsupported_sig := 0;
              df_unsupported_sig_str := None;
              df_except_counter := df_except_counter st1 |})
      else
        (BReturn (-1),
         mk_effects
           (ev1 ++
            [df_debug "Call of df_fuzz_create_variant() returned NULL pointer\n" []])
           [] st1)
  | Some value =>
      let '(ev2, ret, st2) :=
        df_fuzz_call_method value void_method (it_reply it) st1 in
      let seen := [df_except_counter st2] in
      let '(ev3, execr) := df_exec_cmd_check execute_cmd (it_cmd it) in
      let ev := ev1 ++ ev2 ++ ev3 in
      if execr <? 0 then
        (BReturn (-1),
         mk_effects (ev ++ [df_fail "df_exec_cmd_check() failed: %m" []]) seen st2)
      else if execr >? 0 then
        (BBreak ret execr,
         mk_effects
           (ev ++
            [df_fail "%s  %sFAIL%s %s - '%s' returned %s%d%s\n"
               [AAnsi ansi_cr; AAnsi ansi_red; AAnsi ansi_normal; method_name st2;
                match execute_cmd with Some c => AStr c | None => ANull end;
                AAnsi ansi_red; AInt execr; AAnsi ansi_normal]])
           seen st2)
      else
        match df_check_if_exited pid (it_proc it) with
        | None => (BAbort, mk_effects ev seen st2)
        | Some r =>
            if r <? 0 then
              (BReturn (-1),
               mk_effects
                 (ev ++ [df_fail "Error while reading process' stat file: %m" []])
                 seen st2)
            else if r =? 0 then
              (BBreak (-1) execr,
               mk_effects
                 (ev ++
                  [df_fail "%s  %sFAIL%s %s - process %d exited\n"
                     [AAnsi ansi_cr; AAnsi ansi_red; AAnsi ansi_normal;
                      method_name st2; AInt pid]])
                 seen st2)
            else if ret =? 2 then (BReturn 0, mk_effects ev seen st2)
            else if ret >? 0 then (BBreak ret execr, mk_effects ev seen st2)
            else
              let ev' :=
                ev ++ [FULL_LOG "%s;%s;" [AStr intf; AStr obj]]
                   ++ (if logfile then fst (df_fuzz_write_log st2) else [])
                   ++ [FULL_LOG "Success\n" []] in
              if df_except_counter st2 =? MAX_EXCEPTIONS K then
                (BBreak ret execr,
                 mk_effects ev' (seen ++ [0]) (set_except_counter st2 0))
              else (BNext ret execr, mk_effects ev' seen st2)
        end
  end.

(** How the loop is left: by a return or an abort inside the body, or to
    the statement after it, with the locals [ret] and [execr]. *)
Inductive loop_exit : Type :=
| LReturn (code : Z)
| LAbort
| LAfter (ret execr : Z).

(** The [while] loop.  [script] holds the environment of every iteration
    that df_rand_continue lets start; when it is used up, df_rand_continue
    returns 0. *)
Fixpoint test_loop (script : list iteration) (st : fuzz_state) (ret execr : Z)
    : loop_exit * effects :=
  match script with
  | [] => (LAfter ret execr, mk_effects [] [] st)
  | it :: rest =>
      let '(x, e) := loop_body it st in
      match x with
      | BReturn code => (LReturn code, e)
      | BAbort => (LAbort, e)
      | BBreak ret' execr' => (LAfter ret' execr', e)
      | BNext ret' execr' =>
          let '(x', e') := test_loop rest (state e) ret' execr' in
          (x', mk_effects (events e ++ events e')
                          (counter_values e ++ counter_values e') (state e'))
      end
  end.

(** The statements after the loop, [fail_label] included. *)
Definition after_loop (name : string) (buf_size : Z) (buf_size_flg : bool)
    (ret execr : Z) (st : fuzz_state) : Z * list event :=
  if (negb (ret =? 0) || negb (execr =? 0))%bool then
    let on_input :=
      if negb (ret =? 1) then
        [df_fail "   on input:\n" []; FULL_LOG "%s;%s;" [AStr intf; AStr obj]]
        ++ fst (df_fuzz_write_log st)
      else [] in
    let reproducer :=
      [df_fail "   reproducer: %sdfuzzer -v -n %s -o %s -i %s -t %s"
         [AAnsi ansi_yellow; AStr name; AStr obj; AStr intf; method_name st]]
      ++ (if buf_size_flg then [df_fail " -b %ld" [AInt buf_size]] else [])
      ++ match execute_cmd with
         | Some c => [df_fail " -e '%s'" [AStr c]]
         | None => []
         end
      ++ [df_fail "%s\n" [AAnsi ansi_normal]] in
    if ret =? 1 then (2, on_input ++ reproducer)
    else if execr >? 0 then
      (4, on_input ++ reproducer ++ [FULL_LOG "Command execution error\n" []])
    else (1, on_input ++ reproducer ++ [FULL_LOG "Crash\n" []])
  else
    (0, [df_verbose "%s  %sPASS%s %s\n"
           [AAnsi ansi_cr; AAnsi ansi_green; AAnsi ansi_normal; method_name st]]).

(** [df_fuzz_test_method(buf_size, name, obj, intf, pid, void_method,
    execute_cmd)] run against [script]. *)
Definition df_fuzz_test_method (buf_size : Z) (name : string)
    (script : list iteration) (st : fuzz_state) : completion * effects :=
  let '(dbg, ok) := debug_signatures (nodes (df_list st)) 0 (args (df_list st)) in
  let header :=
    [df_debug "  Method: %s%s" [AAnsi ansi_bold; method_name st];
     df_debug "(" []] ++ dbg in
  if negb ok then (Aborts, mk_effects header [] st)
  else
    let header :=
      header ++ [df_debug ")%s\n" [AAnsi ansi_normal];
                 df_verbose "  %s..." [method_name st]] in
    let buf_size_flg := negb (buf_size =? 0) in
    let buf_size := if buf_size <? MINLEN K then MAX_BUF_LEN K else buf_size in
    let '(x, e) := test_loop script st 0 0 in
    match x with
    | LReturn code =>
        (Returns code,
         mk_effects (header ++ events e) (counter_values e) (state e))
    | LAbort =>
        (Aborts, mk_effects (header ++ events e) (counter_values e) (state e))
    | LAfter ret execr =>
        let '(code, ev) :=
          after_loop name buf_size buf_size_flg ret execr (state e) in
        (Returns code,
         mk_effects (header ++ events e ++ ev) (counter_values e) (state e))
    end.

End TestMethod.

Definition verdict (r : completion * effects) : completion := fst r.
Definition output (r : completion * effects) : list event := events (snd r).
Definition final_state (r : completion * effects) : fuzz_state := state (snd r).

(** ** Vocabulary of the properties *)

(** The signature contains the character [c]. *)
Definition has_char (c : ascii) (sg : string) : Prop := In c (chars sg).

(** What the flag [fuzz_on_str_len] records about a signature: an 's' or a
    'v' somewhere in it. *)
Definition has_s_or_v (sg : string) : Prop :=
  has_char "s"%char sg \/ has_char "v"%char sg.

(** The signature is a string-like type (string, object path, signature)
    or the variant type. *)
Definition string_like_or_variant (sg : string) : Prop :=
  sg = "s" \/ sg = "o" \/ sg = "g" \/ sg = "v".

(** What the flag records, as an invariant of the catalog. *)
Definition flag_inv (st : fuzz_state) : Prop :=
  (fuzz_on_str_len (df_list st) = 1 <-> Exists has_s_or_v (signatures st))
  /\ (fuzz_on_str_len (df_list st) = 0 \/ fuzz_on_str_len (df_list st) = 1).

(** The catalog is the same but for the generated values: method name,
    argument count, flag and signatures. *)
Definition same_catalog (st st' : fuzz_state) : Prop :=
  df_method_name (df_list st') = df_method_name (df_list st)
  /\ args (df_list st') = args (df_list st)
  /\ fuzz_on_str_len (df_list st') = fuzz_on_str_len (df_list st)
  /\ signatures st' = signatures st.

(** The argument count agrees with the list, as it does when no
    allocation failed while the catalog was built. *)
Definition catalog_ok (st : fuzz_state) : Prop :=
  args (df_list st) = Z.of_nat (List.length (nodes (df_list st)))
  /\ args (df_list st) <= INT_MAX.

(** The sum of the tagged signature lengths. *)
Definition tagged_length (l : list df_signature) : Z :=
  fold_right Z.add 0 (map (fun s => 1 + strlen (sig s)) l).

(** The length of the composed type descriptor: the opening parenthesis,
    one tag character and the signature of every argument, the closing
    parenthesis and the terminator. *)
Definition descriptor_length (l : list df_signature) : Z :=
  1 + fold_right Z.add 0 (map (fun s => 1 + strlen (sig s)) l) + 1 + 1.

(** The descriptor as far as the arguments [l]: "(" and "@sig" for each. *)
Definition open_descriptor (l : list df_signature) : string :=
  fold_left (fun w s => (w ++ "@" ++ sig s)%string) l "(".

(** The complete descriptor, with its terminator. *)
Definition full_descriptor (l : list df_signature) : string :=
  (open_descriptor l ++ ")" ++ String zero EmptyString)%string.

(** The lines [getline] returns from an opened status record. *)
Definition status_lines (f : status_file) : list string :=
  getlines (content f) EmptyString (at_end f).

(** The line carries no core-dump indicator that [sscanf] converts. *)
Definition no_indicator (line : string) : Prop :=
  sscanf_CoreDumping line = None.

(** Every iteration of [pre] reaches the end of the loop body; the state
    in which the next iteration starts. *)
Fixpoint run_through (K : constants) (obj intf : string) (pid void_method : Z)
    (execute_cmd : option string) (logfile : bool)
    (pre : list iteration) (st : fuzz_state) : option fuzz_state :=
  match pre with
  | [] => Some st
  | it :: rest =>
      match loop_body K obj intf pid void_method execute_cmd logfile it st with
      | (BNext _ _, e) =>
          run_through K obj intf pid void_method execute_cmd logfile rest (state e)
      | _ => None
      end
  end.

(** The output of df_fuzz_test_method up to the start of the iteration
    that follows the iterations [pre]: the debug header and the events of
    [pre]. *)
Definition output_before (K : constants) (obj intf : string)
    (pid void_method : Z) (execute_cmd : option string) (logfile : bool)
    (pre : list iteration) (st : fuzz_state) : list event :=
  [df_debug "  Method: %s%s" [AAnsi ansi_bold; method_name st];
   df_debug "(" []]
  ++ fst (debug_signatures (nodes (df_list st)) 0 (args (df_list st)))
  ++ [df_debug ")%s\n" [AAnsi ansi_normal];
      df_verbose "  %s..." [method_name st]]
  ++ events (snd (test_loop K obj intf pid void_method execute_cmd logfile
                            pre st 0 0)).

Definition is_FULL_LOG (e : event) : bool :=
  match e with
  | FULL_LOG _ _ => true
  | _ => false
  end.

(** The failure message of df_fuzz_call_method for a void method that
    returned [fmt]. *)
Definition void_failure (name : arg) (fmt : string) : event :=
  df_fail "%s  %sFAIL%s %s - void method returns '%s' instead of '()'\n"
    [AAnsi ansi_cr; AAnsi ansi_red; AAnsi ansi_normal; name; AStr fmt].

(** The method is declared void and the reply is not the empty tuple. *)
Definition void_violation (void_method : Z) (it : iteration) : Prop :=
  void_method <> 0
  /\ exists fmt, it_reply it = Response fmt /\ fmt <> "()".

(** The remote side reports that the target did not reply. *)
Definition no_reply (it : iteration) : Prop :=
  exists m,
    it_reply it = NoResponse (Some "org.freedesktop.DBus.Error.NoReply") m
    \/ it_reply it = NoResponse (Some "org.freedesktop.DBus.Error.Timeout") m.

(** The probe finds the target exited, or the target did not reply. *)
Definition crash_detected (pid : Z) (it : iteration) : Prop :=
  df_check_if_exited pid (it_proc it) = Some 0 \/ no_reply it.

(** The health-check command ran and finished with a status above 0. *)
Definition health_check_failed (cmd : option string) (it : iteration) : Prop :=
  0 < snd (df_exec_cmd_check cmd (it_cmd it)).

(** The health-check command finished with status 0, or there is none. *)
Definition health_check_passed (cmd : option string) (it : iteration) : Prop :=
  snd (df_exec_cmd_check cmd (it_cmd it)) = 0.

(** The answers of the probe in iteration [it]. *)
Definition target_exited (pid : Z) (it : iteration) : Prop :=
  df_check_if_exited pid (it_proc it) = Some 0.

Definition target_alive (pid : Z) (it : iteration) : Prop :=
  df_check_if_exited pid (it_proc it) = Some 1.

(** Started in the state [st], iteration [it] composes a call argument:
    df_fuzz_create_variant does not return NULL. *)
Definition composes (K : constants) (it : iteration) (st : fuzz_state) : Prop :=
  snd (fst (df_fuzz_create_variant K it st)) <> None.

(** df_fuzz_create_variant returns NULL and leaves [df_unsupported_sig]
    set. *)
Definition unsupported_signature (K : constants) (it : iteration)
    (st : fuzz_state) : Prop :=
  snd (fst (df_fuzz_create_variant K it st)) = None
  /\ df_unsupported_sig (snd (df_fuzz_create_variant K it st)) <> 0.

(** The internal errors of iteration [it] started in the state [st]:
    df_fuzz_create_variant returns NULL without the unsupported-signature
    signal; or, a call argument being composed, the health check cannot
    be run; or the health check passes and the status record cannot be
    read. *)
Definition internal_error (K : constants) (pid : Z) (cmd : option string)
    (it : iteration) (st : fuzz_state) : Prop :=
  (snd (fst (df_fuzz_create_variant K it st)) = None
   /\ df_unsupported_sig (snd (df_fuzz_create_variant K it st)) = 0)
  \/ (composes K it st /\ snd (df_exec_cmd_check cmd (it_cmd it)) < 0)
  \/ (composes K it st /\ health_check_passed cmd it
      /\ df_check_if_exited pid (it_proc it) = Some (-1)).

(** [it] is the last iteration of [script] that starts, and it starts in
    the state [sti]: the iterations [pre] before it reach the end of the
    loop body and leave the state [sti]; and either df_rand_continue lets
    no iteration start after [it], or [it] does not reach the end of the
    loop body. *)
Definition last_started (K : constants) (obj intf : string)
    (pid void_method : Z) (execute_cmd : option string) (logfile : bool)
    (script : list iteration) (st : fuzz_state)
    (pre : list iteration) (it : iteration) (sti : fuzz_state) : Prop :=
  exists rest,
    script = pre ++ it :: rest
    /\ run_through K obj intf pid void_method execute_cmd logfile pre st
       = Some sti
    /\ (rest = []
        \/ run_through K obj intf pid void_method execute_cmd logfile
             (pre ++ [it]) st = None).

(** What the locals [ret] and [execr] say when iteration [it] leaves the
    loop body to the code after the loop. *)
Definition exit_locals (pid void_method : Z) (cmd : option string)
    (it : iteration) (ret execr : Z) : Prop :=
  0 <= execr
  /\ (0 < execr -> health_check_failed cmd it)
  /\ (ret = 1 -> void_violation void_method it)
  /\ (execr = 0 ->
      ret = 0 \/ ret = 1 \/ (ret = -1 /\ crash_detected pid it)).

(** The slot with its value released. *)
Definition clear (s : df_signature) : df_signature :=
  {| sig := sig s; var := None |}.

(** Every slot of [l] (the slots at positions [i], [i+1], ...) has a
    single supported type code for which the generator and g_variant_new
    deliver a value. *)
Fixpoint all_generate (rand : nat -> rand_draws) (l : list df_signature)
    (i : nat) : bool :=
  match l with
  | [] => true
  | s :: rest =>
      match sig s with
      | String c EmptyString =>
          match generate_value c (sig s) (rand i) with
          | SlotVar (Some _) => all_generate rand rest (S i)
          | _ => false
          end
      | _ => false
      end
  end.

(** ** Example data *)

(** The constants used in the examples. *)
Definition K0 : constants :=
  {| MAX_EXCEPTIONS := 50; MAXFMT := 255; MINLEN := 512; MAX_BUF_LEN := 50000 |}.

(** A catalog built by the public interface: method [name] with the
    argument signatures [sigs], every allocation succeeding. *)
Definition catalog_of (name : string) (sigs : list string) : fuzz_state :=
  add_method_args (map (fun sg => mk_add_call (Some sg) true true) sigs)
    (snd (df_fuzz_add_method (Some name) true initial_state)).

Definition tab : ascii := "009"%char.

(** A status record as the kernel prints it, with the given value of the
    CoreDumping field. *)
Definition status_text (dumping : string) : string :=
  ("Name:" ++ String tab "dfuzzer-test" ++ String newline
   ("State:" ++ String tab "S (sleeping)" ++ String newline
    ("CoreDumping:" ++ String tab dumping ++ String newline
     ("Threads:" ++ String tab "1" ++ String newline ""))))%string.

(** A status record without the field. *)
Definition status_text_without : string :=
  ("Name:" ++ String tab "dfuzzer-test" ++ String newline
   ("Threads:" ++ String tab "1" ++ String newline ""))%string.

Definition proc_of (f : fopen_result) : Z -> fopen_result := fun _ => f.

Definition status_of (dumping : string) : status_file :=
  {| content := status_text dumping; at_end := EndOfFile |}.


(** A status record whose reading fails after its first two lines. *)
Definition status_unreadable : status_file :=
  {| content := status_text_without; at_end := ReadError |}.

Definition unreadable : Z -> fopen_result := proc_of (Opened status_unreadable).

(** The record exists but may not be opened. *)
Definition unopenable : Z -> fopen_result := proc_of (FopenFails EACCES).

Definition alive : Z -> fopen_result := proc_of (Opened (status_of "0")).

(** Answers of a generator that always succeeds. *)
Definition draws0 : rand_draws :=
  {| df_rand_guint8 := 7; df_rand_gboolean := true; df_rand_gint16 := -3;
     df_rand_guint16 := 3; df_rand_gint32 := 42; df_rand_guint32 := 42;
     df_rand_gint64 := -42; df_rand_guint64 := 42; df_rand_gdouble := 0;
     df_rand_string := Some "abc";
     df_rand_dbus_objpath_string := Some "/a/b";
     df_rand_dbus_signature_string := Some "i";
     df_rand_GVariant := Some (VString "abc");
     df_rand_unixFD := 1;
     g_variant_new_null := false |}.

(** An iteration in which the string generator fails. *)
Definition draws_string_fails : rand_draws :=
  {| df_rand_guint8 := 7; df_rand_gboolean := true; df_rand_gint16 := -3;
     df_rand_guint16 := 3; df_rand_gint32 := 42; df_rand_guint32 := 42;
     df_rand_gint64 := -42; df_rand_guint64 := 42; df_rand_gdouble := 0;
     df_rand_string := None;
     df_rand_dbus_objpath_string := Some "/a/b";
     df_rand_dbus_signature_string := Some "i";
     df_rand_GVariant := Some (VString "abc");
     df_rand_unixFD := 1;
     g_variant_new_null := false |}.

(** A health check whose system calls succeed and whose command ends with
    the wait status [status]. *)
Definition cmd_status (status : Z) : cmd_env :=
  {| open_devnull_ok := true; dup_stdout_ok := true; dup_stderr_ok := true;
     dup2_stdout_ok := true; dup2_stderr_ok := true; system_status := status;
     restore_stdout_ok := true; restore_stderr_ok := true |}.

(** An iteration in which generation and composition succeed. *)
Definition iteration_of (reply : call_reply) (c : cmd_env)
    (proc : Z -> fopen_result) : iteration :=
  {| it_rand := fun _ => draws0; it_malloc_fmt_ok := true;
     it_ffi_prep_ok := true; it_still_floating := false;
     it_reply := reply; it_cmd := c; it_proc := proc |}.

Definition iteration_string_fails : iteration :=
  {| it_rand := fun _ => draws_string_fails; it_malloc_fmt_ok := true;
     it_ffi_prep_ok := true; it_still_floating := false;
     it_reply := Response "()"; it_cmd := cmd_status 0; it_proc := alive |}.

(** The remote side raises an ordinary exception. *)
Definition exception_reply : call_reply :=
  NoResponse (Some "org.freedesktop.DBus.Error.InvalidArgs") "Invalid argument".

(** An iteration in which the method raises an ordinary exception, the
    health check passes and the target stays alive. *)
Definition exception_iteration : iteration :=
  iteration_of exception_reply (cmd_status 0) alive.

(** The same, with a health check that fails (exit status 1). *)
Definition exception_then_check_fails : iteration :=
  iteration_of exception_reply (cmd_status 256) alive.

(** One test of the method Ping() with a single iteration. *)
Definition ping_once (vm : Z) (cmd : option string) (it : iteration)
    : completion * effects :=
  df_fuzz_test_method K0 "/org/example" "org.example.Iface" 4242 vm cmd true
    0 "org.example" [it] (catalog_of "Ping" []).

(** A test of Ping() with a health-check command. *)
Definition ping_checked (script : list iteration) (st : fuzz_state)
    : completion * effects :=
  df_fuzz_test_method K0 "/org/example" "org.example.Iface" 4242 0
    (Some "check") true 0 "org.example" script st.

(** One test of a method with the given argument signatures. *)
Definition test_once (name : string) (sigs : list string) (it : iteration)
    : completion * effects :=
  df_fuzz_test_method K0 "/org/example" "org.example.Iface" 4242 0 None true
    0 "org.example" [it] (catalog_of name sigs).

(** A test of the void method SetName(s, i) whose reply carries a value. *)
Definition void_test : completion * effects :=
  df_fuzz_test_method K0 "/org/example" "org.example.Iface" 4242 1 None true
    0 "org.example"
    [iteration_of (Response "()") (cmd_status 0) alive;
     iteration_of (Response "(s)") (cmd_status 0) alive]
    (catalog_of "SetName" ["s"; "i"]).

(** The same method, failing in its first iteration. *)
Definition void_test_once : completion * effects :=
  df_fuzz_test_method K0 "/org/example" "org.example.Iface" 4242 1 None true
    0 "org.example"
    [iteration_of (Response "(s)") (cmd_status 0) alive]
    (catalog_of "SetName" ["s"; "i"]).

(** The switch to the next method: release, then add the method. *)
Definition next_method (name : string) (st : fuzz_state) : fuzz_state :=
  match df_fuzz_clean_method st with
  | Done (_, st') => snd (df_fuzz_add_method (Some name) true st')
  | DoubleFree => st
  end.


(** ** Vocabulary of the further properties *)

(** Every system call around [system(cmd)] succeeds. *)
Definition syscalls_ok (e : cmd_env) : bool :=
  (open_devnull_ok e && dup_stdout_ok e && dup_stderr_ok e
   && dup2_stdout_ok e && dup2_stderr_ok e
   && restore_stdout_ok e && restore_stderr_ok e)%bool.

(** The call allocates a node (and so counts in [df_list.args]). *)
Definition allocates (c : add_call) : bool :=
  match ac_signature c with
  | Some _ => ac_malloc_ok c
  | None => false
  end.

(** The signature the call appends to the list, if any. *)
Definition appends (c : add_call) : list string :=
  match ac_signature c with
  | Some sg => if (ac_malloc_ok c && ac_strdup_ok c)%bool then [sg] else []
  | None => []
  end.


(** A catalog whose only df_fuzz_add_method_arg call lost its signature
    string to a failed strdup. *)
Definition catalog_strdup_failed : fuzz_state :=
  add_method_args [mk_add_call (Some "i") true false] (catalog_of "Set" []).

Definition is_call (e : event) : bool :=
  match e with
  | g_dbus_proxy_call_sync _ _ => true
  | _ => false
  end.


(** The slot holds a value whose type string is the slot's signature. *)
Definition typed_value (s : df_signature) : Prop :=
  exists v, var s = Some v /\ gv_type v = sig s.

(** The slot's value is [x]. *)
Definition slot_value (s : df_signature) (x : gvalue) : Prop :=
  exists v, var s = Some v /\ gv_value v = x /\ gv_type v = sig s.

(** Constants with a short format string, for the examples. *)
Definition K_small : constants :=
  {| MAX_EXCEPTIONS := 50; MAXFMT := 6; MINLEN := 512; MAX_BUF_LEN := 50000 |}.


(** The closing tokens of a failed test in the full log. *)
Definition crash_token (e : event) : bool :=
  match e with
  | FULL_LOG f _ => String.eqb f "Crash\n"
  | _ => false
  end.

Definition command_token (e : event) : bool :=
  match e with
  | FULL_LOG f _ => String.eqb f "Command execution error\n"
  | _ => false
  end.

(** The first line of the reproduction recipe. *)
Definition reproducer_line (e : event) : bool :=
  match e with
  | df_fail f _ =>
      String.eqb f "   reproducer: %sdfuzzer -v -n %s -o %s -i %s -t %s"
  | _ => false
  end.

(** Its buffer-size flag. *)
Definition buffer_flag (e : event) : option arg :=
  match e with
  | df_fail " -b %ld" [a] => Some a
  | _ => None
  end.

(** What only the failure path after the loop prints. *)
Definition failure_output (e : event) : bool :=
  (crash_token e || command_token e || reproducer_line e
   || match buffer_flag e with Some _ => true | None => false end)%bool.


(** The buffer-size flags printed, in order. *)
Definition buffer_flags (l : list event) : list arg :=
  flat_map (fun e => match buffer_flag e with
                     | Some a => [a]
                     | None => []
                     end) l.

(** The verdict is one of the failure codes 1, 2 and 4. *)
Definition failure_code (code : Z) : bool :=
  ((code =? 1) || (code =? 2) || (code =? 4))%bool.


(** The remote side raised an exception that is counted: not one of the
    four named errors, and without "Timeout" in its message. *)
Definition ordinary_exception (reply : call_reply) : Prop :=
  exists e m,
    reply = NoResponse e m
    /\ strstr m "Timeout" = None
    /\ e <> Some "org.freedesktop.DBus.Error.NoReply"
    /\ e <> Some "org.freedesktop.DBus.Error.Timeout"
    /\ e <> Some "org.freedesktop.DBus.Error.AccessDenied"
    /\ e <> Some "org.freedesktop.DBus.Error.AuthFailed".

(** The target did not reply, the health check passes, the target lives. *)
Definition no_reply_iteration : iteration :=
  iteration_of (NoResponse (Some "org.freedesktop.DBus.Error.NoReply")
                           "Message did not receive a reply")
               (cmd_status 0) alive.


(** The fields written with the format "%s;": the method name and the
    signatures of a log record. *)
Definition logged_fields (l : list event) : list arg :=
  flat_map (fun e => match e with
                     | FULL_LOG "%s;" [a] => [a]
                     | _ => []
                     end) l.

(** df_fuzz_write_log knows the slot's type code. *)
Definition loggable (s : df_signature) : bool :=
  match sig s with
  | String c EmptyString =>
      match write_log_value c (var s) with
      | Some _ => true
      | None => false
      end
  | _ => false
  end.

(** * Properties *)

(** ** Machine integers *)

Lemma wrap_int_id z : in_int z -> wrap_int z = z.
Proof.
  unfold in_int, wrap_int, INT_MIN, INT_MAX; intros H.
  rewrite Z.mod_small; lia.
Qed.

(** Side conditions on [int] ranges. *)
Ltac int_range := unfold in_int, INT_MIN, INT_MAX in *; lia.

Lemma wrap_char_id z : -128 <= z <= 127 -> wrap_char z = z.
Proof.
  unfold wrap_char; intros H. rewrite Z.mod_small; lia.
Qed.

Lemma wrap_char_range z : -128 <= wrap_char z <= 127.
Proof.
  unfold wrap_char.
  pose proof (Z.mod_pos_bound (z + 128) 256 ltac:(lia)). lia.
Qed.

(** ** The argument catalog *)

(** C10. A NULL signature is accepted and changes nothing: the call returns
    0 without output, and the whole module state, hence the argument count,
    the list and the flag [fuzz_on_str_len], is the one before the call. *)
Theorem add_method_arg_null_frame :
  forall (malloc_ok strdup_ok : bool) (st : fuzz_state),
    df_fuzz_add_method_arg None malloc_ok strdup_ok st = ([], 0, st)
    /\ let st' := snd (df_fuzz_add_method_arg None malloc_ok strdup_ok st) in
       args (df_list st') = args (df_list st)
       /\ nodes (df_list st') = nodes (df_list st)
       /\ fuzz_on_str_len (df_list st') = fuzz_on_str_len (df_list st).
Proof.
  intros m d st; split; [reflexivity|].
  cbn; repeat split.
Qed.

Lemma prefix_char c h :
  String.prefix (String c EmptyString) h = true <->
  exists r, h = String c r.
Proof.
  destruct h as [|a r]; cbn.
  - split; [discriminate | intros [r' H]; discriminate].
  - destruct (ascii_dec c a) as [->|Hne].
    + destruct r; split; eauto.
    + split; [discriminate|]. intros [r' H]. injection H as H _. congruence.
Qed.

Lemma strstr_char c h :
  strstr h (String c EmptyString) <> None <-> has_char c h.
Proof.
  unfold has_char, chars.
  induction h as [|a r IH].
  - cbn. split; [congruence | tauto].
  - cbn [strstr list_ascii_of_string In].
    destruct (String.prefix (String c EmptyString) (String a r)) eqn:E.
    + apply prefix_char in E as [r' H]. injection H as -> _.
      split; [auto | discriminate].
    + rewrite IH. split; [auto|].
      intros [->|H]; [|assumption].
      exfalso. assert (String.prefix (String c EmptyString) (String c r) = true)
        by (apply prefix_char; eauto). congruence.
Qed.

(** The flag after one call that appended a node. *)
Lemma add_method_arg_flag sg st :
  let st' := snd (df_fuzz_add_method_arg (Some sg) true true st) in
  signatures st' = signatures st ++ [sg]
  /\ (has_s_or_v sg -> fuzz_on_str_len (df_list st') = 1)
  /\ (~ has_s_or_v sg ->
      fuzz_on_str_len (df_list st') = fuzz_on_str_len (df_list st)).
Proof.
  unfold signatures, has_s_or_v; cbn.
  rewrite map_app; cbn. split; [reflexivity|].
  pose proof (strstr_char "s" sg) as Hs. pose proof (strstr_char "v" sg) as Hv.
  destruct (strstr sg "s"), (strstr sg "v"); split; intros H; try reflexivity;
    try (exfalso; apply H; first [left; apply Hs; discriminate
                                 | right; apply Hv; discriminate]).
  destruct H as [H|H]; [apply Hs in H | apply Hv in H]; congruence.
Qed.

Lemma add_method_arg_flag_inv c st :
  flag_inv st ->
  flag_inv (snd (df_fuzz_add_method_arg (ac_signature c) (ac_malloc_ok c)
                                        (ac_strdup_ok c) st)).
Proof.
  intros [Hiff Hbool].
  destruct c as [[sg|] [|] [|]]; cbn [ac_signature ac_malloc_ok ac_strdup_ok];
    try (split; assumption).
  pose proof (add_method_arg_flag sg st) as (Hsig & Hyes & Hno).
  cbv zeta in *. unfold flag_inv. rewrite Hsig, Exists_app.
  destruct (strstr sg "s") eqn:Es; [|destruct (strstr sg "v") eqn:Ev].
  - assert (Hh : has_s_or_v sg)
      by (left; apply strstr_char; rewrite Es; discriminate).
    rewrite (Hyes Hh). split; [|auto]. split; [|reflexivity].
    intros _. right. constructor. exact Hh.
  - assert (Hh : has_s_or_v sg)
      by (right; apply strstr_char; rewrite Ev; discriminate).
    rewrite (Hyes Hh). split; [|auto]. split; [|reflexivity].
    intros _. right. constructor. exact Hh.
  - assert (Hh : ~ has_s_or_v sg).
    { intros [H|H]; apply strstr_char in H; congruence. }
    rewrite (Hno Hh). split; [|assumption].
    rewrite Hiff. split; [auto|].
    intros [H|H]; [assumption|].
    inversion H; subst; [contradiction | inversion H1].
Qed.

Lemma add_method_args_flag_inv calls : forall st,
  flag_inv st -> flag_inv (add_method_args calls st).
Proof.
  induction calls as [|c rest IH]; intros st H; cbn; [assumption|].
  apply IH, add_method_arg_flag_inv, H.
Qed.

(** C6, as the code has it. After df_fuzz_add_method and any sequence of
    df_fuzz_add_method_arg calls, whatever the allocator answers, the flag
    [fuzz_on_str_len] is 1 exactly when some signature in the list contains
    the character 's' or 'v' (a string or a variant, alone or inside a
    compound signature), and 0 otherwise. *)
Theorem fuzz_on_str_len_iff_s_or_v :
  forall (name : string) (calls : list add_call) (st : fuzz_state),
    let st' := add_method_args calls
                 (snd (df_fuzz_add_method (Some name) true st)) in
    (fuzz_on_str_len (df_list st') = 1 <-> Exists has_s_or_v (signatures st'))
    /\ (fuzz_on_str_len (df_list st') = 0 \/ fuzz_on_str_len (df_list st') = 1).
Proof.
  intros name calls st. apply add_method_args_flag_inv.
  split; cbn; [|auto]. split; [discriminate|]. intros H; inversion H.
Qed.

(** C6, as stated, fails: a method whose only argument is an object path
    ("o") has a string-like argument, and its flag is 0. *)
Lemma fuzz_on_str_len_misses_object_path :
  let st := catalog_of "Open" ["o"] in
  ~ (fuzz_on_str_len (df_list st) = 1 <->
     Exists string_like_or_variant (signatures st)).
Proof.
  cbn. intros [_ H].
  assert (E : 0 = 1).
  { apply H. constructor. right; left; reflexivity. }
  discriminate E.
Qed.

(** ** Releasing the catalog *)

Lemma free_nodes_spec l : forall k,
  free_nodes l k = ((k + List.length l)%nat, []).
Proof.
  induction l as [|x l IH]; intros k; cbn.
  - rewrite Nat.add_0_r; reflexivity.
  - rewrite IH. f_equal. lia.
Qed.

Lemma clean_method_done st :
  df_method_name (df_list st) <> Freed ->
  df_fuzz_clean_method st =
  Done (List.length (nodes (df_list st)),
        set_list st {| df_method_name :=
                         match df_method_name (df_list st) with
                         | NULL => NULL
                         | _ => Freed
                         end;
                       args := args (df_list st);
                       fuzz_on_str_len := fuzz_on_str_len (df_list st);
                       nodes := [] |}).
Proof.
  intros H. unfold df_fuzz_clean_method.
  rewrite free_nodes_spec.
  destruct (df_method_name (df_list st)); cbn; try reflexivity.
  contradiction.
Qed.

(** ** Frame: what the test leaves alone *)

Lemma same_catalog_refl st : same_catalog st st.
Proof. repeat split. Qed.

Lemma same_catalog_trans a b c :
  same_catalog a b -> same_catalog b c -> same_catalog a c.
Proof.
  unfold same_catalog. intros (H1 & H2 & H3 & H4) (G1 & G2 & G3 & G4).
  repeat split; congruence.
Qed.

Lemma release_vars_sigs l : map sig (release_vars l) = map sig l.
Proof.
  induction l as [|x l IH]; cbn; [reflexivity|].
  destruct (var x); cbn; [rewrite IH|]; reflexivity.
Qed.

Lemma list_variants_loop_sigs name rand s : forall before i,
  map sig (vr_nodes (list_variants_loop name rand before s i))
  = map sig (before ++ s).
Proof.
  induction s as [|x next IH]; intros before i; cbn [list_variants_loop].
  - cbn. rewrite app_nil_r. reflexivity.
  - destruct (wrap_int (strlen (sig x)) <=? 0); [reflexivity|].
    destruct (wrap_int (strlen (sig x)) =? 1).
    + destruct (sig x) as [|c r] eqn:Esig; [reflexivity|].
      destruct (generate_value c (String c r) (rand i)) as [ev|[v|]];
        cbn [vr_nodes]; try reflexivity.
      * rewrite IH, <- app_assoc. cbn. rewrite !map_app. cbn. congruence.
      * rewrite !map_app. cbn. congruence.
    + cbn [vr_nodes]. apply release_vars_sigs.
Qed.

Lemma create_list_variants_frame rand st :
  let st' := snd (df_fuzz_create_list_variants rand st) in
  same_catalog st st'
  /\ df_except_counter st' = df_except_counter st
  /\ df_unsupported_sig st' = df_unsupported_sig st.
Proof.
  unfold df_fuzz_create_list_variants, same_catalog, signatures.
  cbn [snd].
  pose proof (list_variants_loop_sigs (df_method_name (df_list st)) rand
                (nodes (df_list st)) [] 0%nat) as H.
  destruct (vr_unsupported _); cbn; rewrite H; repeat split.
Qed.

Lemma create_variant_frame K it st :
  let st' := snd (df_fuzz_create_variant K it st) in
  same_catalog st st' /\ df_except_counter st' = df_except_counter st.
Proof.
  unfold df_fuzz_create_variant.
  pose proof (create_list_variants_frame (it_rand it) st) as H.
  destruct (df_fuzz_create_list_variants (it_rand it) st) as [[ev1 ret] st1].
  cbn [snd] in H. destruct H as (Hc & Hx & _).
  destruct (ret =? -1); [cbn; auto|].
  destruct (ret =? 1); [cbn; auto|].
  destruct (negb (it_malloc_fmt_ok it)); [cbn; auto|].
  destruct (df_fuzz_create_fmt_string st1 _) as [[ev2 r] fmt].
  destruct (r =? -1); [cbn; auto|].
  destruct (negb (it_ffi_prep_ok it)); [cbn; auto|].
  destruct (it_still_floating it); cbn; auto.
Qed.

Lemma call_method_frame value vm reply st :
  let st' := snd (df_fuzz_call_method value vm reply st) in
  df_list st' = df_list st
  /\ df_unsupported_sig st' = df_unsupported_sig st
  /\ df_unsupported_sig_str st' = df_unsupported_sig_str st.
Proof.
  unfold df_fuzz_call_method.
  destruct reply as [[e|] m|fmt].
  - destruct (strcmp_eq e "org.freedesktop.DBus.Error.NoReply"); [cbn; auto|].
    destruct (strcmp_eq e "org.freedesktop.DBus.Error.Timeout"); [cbn; auto|].
    destruct (_ || _)%bool; [cbn; auto|].
    destruct (strstr m "Timeout"); cbn; auto.
  - destruct (strstr m "Timeout"); cbn; auto.
  - destruct (_ && _)%bool; cbn; auto.
Qed.

Lemma same_catalog_of_list st st' :
  df_list st' = df_list st -> same_catalog st st'.
Proof. unfold same_catalog, signatures. intros ->. repeat split. Qed.

Lemma loop_body_frame K obj intf pid vm cmd logfile it st :
  same_catalog st
    (state (snd (loop_body K obj intf pid vm cmd logfile it st))).
Proof.
  unfold loop_body.
  pose proof (create_variant_frame K it st) as H.
  destruct (df_fuzz_create_variant K it st) as [[ev1 [value|]] st1];
    cbn [snd] in H; destruct H as [Hc _].
  - pose proof (call_method_frame value vm (it_reply it) st1) as H.
    destruct (df_fuzz_call_method value vm (it_reply it) st1) as [[ev2 ret] st2].
    cbn [snd] in H. destruct H as (Hl & _).
    assert (Hc2 : same_catalog st st2)
      by (eapply same_catalog_trans; [exact Hc | apply same_catalog_of_list, Hl]).
    destruct (df_exec_cmd_check cmd (it_cmd it)) as [ev3 execr].
    destruct (execr <? 0); [exact Hc2|].
    destruct (execr >? 0); [exact Hc2|].
    destruct (df_check_if_exited pid (it_proc it)) as [r|]; [|exact Hc2].
    destruct (r <? 0); [exact Hc2|].
    destruct (r =? 0); [exact Hc2|].
    destruct (ret =? 2); [exact Hc2|].
    destruct (ret >? 0); [exact Hc2|].
    destruct (df_except_counter st2 =? MAX_EXCEPTIONS K); exact Hc2.
  - destruct (negb (df_unsupported_sig st1 =? 0)); exact Hc.
Qed.

Lemma test_loop_frame K obj intf pid vm cmd logfile script :
  forall st ret execr,
    same_catalog st
      (state (snd (test_loop K obj intf pid vm cmd logfile script st ret execr))).
Proof.
  induction script as [|it rest IH]; intros st ret execr; cbn [test_loop].
  - apply same_catalog_refl.
  - pose proof (loop_body_frame K obj intf pid vm cmd logfile it st) as H.
    destruct (loop_body K obj intf pid vm cmd logfile it st) as [x e].
    cbn [snd] in H.
    destruct x as [code| |r x|r x]; try exact H.
    specialize (IH (state e) r x).
    destruct (test_loop K obj intf pid vm cmd logfile rest (state e) r x)
      as [x' e'].
    cbn [snd state] in *. eapply same_catalog_trans; eassumption.
Qed.

Lemma test_method_frame K obj intf pid vm cmd logfile buf name script st :
  same_catalog st
    (final_state (df_fuzz_test_method K obj intf pid vm cmd logfile buf name
                                      script st)).
Proof.
  unfold final_state, df_fuzz_test_method.
  destruct (debug_signatures _ _ _) as [dbg ok].
  destruct (negb ok); [apply same_catalog_refl|].
  pose proof (test_loop_frame K obj intf pid vm cmd logfile script st 0 0) as H.
  destruct (test_loop K obj intf pid vm cmd logfile script st 0 0) as [x e].
  cbn [snd] in H.
  destruct x as [code| |r x]; try exact H.
  destruct (after_loop _ _ _ _ _ _ _ _ _) as [code ev]. exact H.
Qed.

(** C9, as the code has it. One release frees every argument node and
    leaves an empty list, from any state whose method name was not already
    released and in particular after any method test. A second release in
    sequence finds no node to free; it is harmless exactly when the catalog
    has no method name (a NULL pointer), and otherwise frees the method
    name a second time. *)
Theorem clean_method_releases_slots :
  forall (st : fuzz_state),
    df_method_name (df_list st) <> Freed ->
    (exists st',
        df_fuzz_clean_method st = Done (List.length (nodes (df_list st)), st')
        /\ nodes (df_list st') = []
        /\ (clean_twice st = Done (0%nat, st') <->
            df_method_name (df_list st) = NULL)
        /\ (clean_twice st = DoubleFree <->
            df_method_name (df_list st) <> NULL))
    /\ (forall K obj intf pid vm cmd logfile buf name script,
           exists n st'',
             df_fuzz_clean_method
               (final_state (df_fuzz_test_method K obj intf pid vm cmd logfile
                                                 buf name script st))
             = Done (n, st'')
             /\ nodes (df_list st'') = []).
Proof.
  intros st Hname. split.
  - eexists. split; [apply clean_method_done, Hname|].
    split; [reflexivity|].
    unfold clean_twice. rewrite (clean_method_done st Hname).
    destruct st as [[nm a f ns] u us c]; cbn in *.
    destruct nm; cbn; try contradiction.
    + split; split; intros H; try reflexivity; try discriminate H.
      contradiction.
    + split; split; intros H; try reflexivity; try discriminate H.
      discriminate.
  - intros. 
    pose proof (test_method_frame K obj intf pid vm cmd logfile buf name script st)
      as (Hn & _).
    do 2 eexists. split; [apply clean_method_done; congruence | reflexivity].
Qed.

Lemma clean_method_releases_slots_witness :
  df_method_name (df_list (catalog_of "SetName" ["s"; "i"])) <> Freed
  /\ exists st',
       df_fuzz_clean_method (catalog_of "SetName" ["s"; "i"]) = Done (2%nat, st')
       /\ nodes (df_list st') = []
       /\ clean_twice (catalog_of "SetName" ["s"; "i"]) = DoubleFree.
Proof.
  assert (H : df_method_name (df_list (catalog_of "SetName" ["s"; "i"])) <> Freed)
    by (cbn; discriminate).
  split; [exact H|].
  destruct (clean_method_releases_slots (catalog_of "SetName" ["s"; "i"]) H)
    as [(st' & H1 & H2 & _ & H3) _].
  exists st'. split; [exact H1|]. split; [exact H2|].
  apply H3. cbn. discriminate.
Defined.

(** C9, as stated, fails: after a method was added, the first release
    succeeds and the second, in sequence, frees the method name again. *)
Lemma clean_twice_double_free :
  (exists r, df_fuzz_clean_method (catalog_of "Ping" []) = Done r)
  /\ clean_twice (catalog_of "Ping" []) = DoubleFree.
Proof.
  split; [eexists|]; reflexivity.
Qed.

(** ** The composed type descriptor *)

Lemma substring_all s : substring 0 (String.length s) s = s.
Proof.
  induction s as [|c s IH]; cbn; [reflexivity|]. rewrite IH; reflexivity.
Qed.

Lemma memcpy_all s : memcpy s (strlen s) = s.
Proof.
  unfold memcpy, strlen. rewrite Nat2Z.id. apply substring_all.
Qed.

Lemma strlen_app a b : strlen (a ++ b)%string = strlen a + strlen b.
Proof.
  unfold strlen. induction a as [|x a IH]; cbn [append String.length]; lia.
Qed.

Lemma strlen_nonneg s : 0 <= strlen s.
Proof. unfold strlen; lia. Qed.

Lemma tagged_length_cons x l :
  tagged_length (x :: l) = 1 + strlen (sig x) + tagged_length l.
Proof. reflexivity. Qed.

Lemma tagged_length_nonneg l : 0 <= tagged_length l.
Proof.
  induction l as [|x l IH]; [cbn; lia|].
  rewrite tagged_length_cons. pose proof (strlen_nonneg (sig x)). lia.
Qed.

Lemma tagged_length_firstn k : forall l,
  tagged_length (firstn k l) <= tagged_length l.
Proof.
  induction k as [|k IH]; intros [|x l]; cbn [firstn]; try lia.
  - apply tagged_length_nonneg.
  - rewrite !tagged_length_cons. specialize (IH l). lia.
Qed.

Lemma strlen_fold_descriptor l : forall w,
  strlen (fold_left (fun w s => (w ++ "@" ++ sig s)%string) l w)
  = strlen w + tagged_length l.
Proof.
  induction l as [|x l IH]; intros w; cbn [fold_left].
  - cbn. lia.
  - rewrite IH, !strlen_app, tagged_length_cons.
    change (strlen "@") with 1. lia.
Qed.

(** The loop of df_fuzz_create_fmt_string, when no [int] overflows: it
    runs to the end within the limit exactly when the whole sum stays
    within it; otherwise it stops in front of some argument, or ends with a
    total above the limit. *)
Lemma fmt_loop_spec n s : forall t w,
  0 <= t -> t + tagged_length s <= INT_MAX ->
  (t + tagged_length s <= wrap_int (n - 3) ->
   fmt_loop n s t w
   = (Some (t + tagged_length s),
      fold_left (fun w x => (w ++ "@" ++ sig x)%string) s w))
  /\ (t + tagged_length s > wrap_int (n - 3) ->
      exists k,
        match fst (fmt_loop n s t w) with
        | None => True
        | Some total => total > wrap_int (n - 3)
        end
        /\ snd (fmt_loop n s t w)
           = fold_left (fun w x => (w ++ "@" ++ sig x)%string) (firstn k s) w).
Proof.
  induction s as [|x s IH]; intros t w Ht Hmax.
  - cbn. split; [intros _; f_equal; f_equal; lia|].
    intros H. exists 0%nat. split; [lia | reflexivity].
  - rewrite tagged_length_cons in Hmax.
    pose proof (tagged_length_nonneg s) as Hs.
    pose proof (strlen_nonneg (sig x)) as Hx.
    cbn [fmt_loop].
    assert (E1 : wrap_int (strlen (sig x)) = strlen (sig x))
      by (apply wrap_int_id; int_range).
    rewrite E1.
    assert (E2 : wrap_int (strlen (sig x) + 1) = strlen (sig x) + 1)
      by (apply wrap_int_id; int_range).
    rewrite E2.
    assert (E3 : wrap_int (t + (strlen (sig x) + 1)) = t + (strlen (sig x) + 1))
      by (apply wrap_int_id; int_range).
    rewrite E3, memcpy_all, tagged_length_cons.
    destruct (t + (strlen (sig x) + 1) >? wrap_int (n - 3)) eqn:E.
    + apply Z.gtb_lt in E. split; [intros H; lia|].
      intros _. exists 0%nat. cbn. split; [exact I | reflexivity].
    + assert (E' : t + (strlen (sig x) + 1) <= wrap_int (n - 3)).
      { destruct (Z.gtb_spec (t + (strlen (sig x) + 1)) (wrap_int (n - 3)));
          [discriminate | lia]. }
      destruct (IH (t + (strlen (sig x) + 1)) (w ++ "@" ++ sig x)%string)
        as [IH1 IH2]; [lia | lia |].
      split.
      * intros H. rewrite IH1 by lia. cbn [fold_left]. f_equal. f_equal. lia.
      * intros H. destruct IH2 as (k & Hk & Hl); [lia|].
        exists (S k). cbn [firstn fold_left]. split; assumption.
Qed.

Lemma descriptor_length_eq l : descriptor_length l = tagged_length l + 3.
Proof. unfold descriptor_length, tagged_length. lia. Qed.

Lemma strlen_full_descriptor l :
  strlen (full_descriptor l) = descriptor_length l.
Proof.
  unfold full_descriptor, open_descriptor.
  rewrite !strlen_app, strlen_fold_descriptor, descriptor_length_eq.
  change (strlen "(") with 1. change (strlen ")") with 1.
  change (strlen (String zero "")) with 1. lia.
Qed.

(** The composer for a buffer of [n] bytes: it succeeds exactly when the
    descriptor, terminator included, is at most [n - 1] bytes long. *)
Lemma create_fmt_string_spec st n :
  in_int (n - 3) ->
  descriptor_length (nodes (df_list st)) <= INT_MAX ->
  let r := df_fuzz_create_fmt_string st n in
  (descriptor_length (nodes (df_list st)) <= n - 1 ->
   r = ([], 0, full_descriptor (nodes (df_list st))))
  /\ (descriptor_length (nodes (df_list st)) > n - 1 ->
      exists k,
        r = ([df_debug "Format string is too small to consume all signatures\n" []],
             -1, open_descriptor (firstn k (nodes (df_list st))))).
Proof.
  intros Hn Hmax. cbv zeta. unfold df_fuzz_create_fmt_string.
  rewrite descriptor_length_eq in *.
  set (l := nodes (df_list st)) in *.
  pose proof (tagged_length_nonneg l) as Hl.
  change (wrap_int (0 + 1)) with 1.
  destruct (fmt_loop_spec n l 1 "(") as [H1 H2]; [lia | lia |].
  rewrite (wrap_int_id (n - 3)) in * by assumption.
  split; intros H.
  - rewrite H1 by lia.
    destruct (Z.gtb_spec (1 + tagged_length l) (n - 3)); [lia|]. reflexivity.
  - destruct (Z_le_gt_dec (1 + tagged_length l) (n - 3)) as [Hle|Hgt]; [lia|].
    destruct (H2 Hgt) as (k & Ht & E). exists k.
    destruct (fmt_loop n l 1 "(") as [[total|] written]; cbn [fst snd] in *.
    + destruct (Z.gtb_spec total (n - 3)); [|lia].
      unfold open_descriptor. rewrite E. reflexivity.
    + unfold open_descriptor. rewrite E. reflexivity.
Qed.

(** C7. The composer, called as df_fuzz_create_variant calls it, returns 0
    or -1; it returns -1 exactly when the descriptor length
    1 + sum (1 + len sig_i) + 1 + 1 exceeds the configured maximum
    [MAXFMT] (the buffer it is given has one byte more, [MAXFMT + 1]); on
    success the buffer holds the complete descriptor, of exactly that
    length; on failure it holds only an opening part "(@sig_1...@sig_k",
    with neither closing parenthesis nor terminator. *)
Theorem create_fmt_string_length :
  forall (K : constants) (st : fuzz_state),
    0 <= MAXFMT K < INT_MAX ->
    descriptor_length (nodes (df_list st)) <= INT_MAX ->
    let r := df_fuzz_create_fmt_string st (wrap_int (MAXFMT K + 1)) in
    let ret := snd (fst r) in
    let written := snd r in
    (ret = 0 \/ ret = -1)
    /\ (ret = -1 <-> descriptor_length (nodes (df_list st)) > MAXFMT K)
    /\ (ret = 0 ->
        written = full_descriptor (nodes (df_list st))
        /\ Z.of_nat (String.length written)
           = descriptor_length (nodes (df_list st)))
    /\ (ret = -1 ->
        exists k, written = open_descriptor (firstn k (nodes (df_list st)))
                  /\ Z.of_nat (String.length written)
                     < descriptor_length (nodes (df_list st)) - 1).
Proof.
  intros K st HK Hmax. cbv zeta.
  rewrite (wrap_int_id (MAXFMT K + 1))
    by int_range.
  destruct (create_fmt_string_spec st (MAXFMT K + 1)) as [Hok Hko];
    [int_range | assumption |].
  destruct (Z_le_gt_dec (descriptor_length (nodes (df_list st))) (MAXFMT K))
    as [Hle|Hgt].
  - rewrite Hok by lia. cbn [fst snd].
    split; [auto|]. split; [split; [discriminate | lia]|].
    split; [intros _; split; [reflexivity | apply strlen_full_descriptor]|].
    discriminate.
  - destruct Hko as (k & E); [lia|]. rewrite E. cbn [fst snd].
    split; [auto|]. split; [split; [intros _; exact Hgt | reflexivity]|].
    split; [discriminate|]. intros _. exists k. split; [reflexivity|].
    fold (strlen (open_descriptor (firstn k (nodes (df_list st))))).
    unfold open_descriptor. rewrite strlen_fold_descriptor, descriptor_length_eq.
    pose proof (tagged_length_firstn k (nodes (df_list st))).
    change (strlen "(") with 1. lia.
Qed.

Lemma create_fmt_string_length_witness :
  0 <= MAXFMT K0 < INT_MAX
  /\ descriptor_length (nodes (df_list (catalog_of "SetName" ["s"; "i"])))
     <= INT_MAX
  /\ df_fuzz_create_fmt_string (catalog_of "SetName" ["s"; "i"])
       (wrap_int (MAXFMT K0 + 1))
     = ([], 0, ("(@s@i)" ++ String zero "")%string)
  /\ Z.of_nat (String.length ("(@s@i)" ++ String zero "")) = 1 + (2 + 2) + 1 + 1.
Proof.
  assert (H1 : 0 <= MAXFMT K0 < INT_MAX) by (cbn; unfold INT_MAX; lia).
  assert (H2 : descriptor_length
                 (nodes (df_list (catalog_of "SetName" ["s"; "i"]))) <= INT_MAX)
    by (vm_compute; discriminate).
  pose proof (create_fmt_string_length K0 (catalog_of "SetName" ["s"; "i"]) H1 H2)
    as T.
  cbv zeta in T. destruct T as (_ & _ & T & _).
  split; [exact H1|]. split; [exact H2|].
  split; [reflexivity|]. reflexivity.
Defined.

(** ** The liveness probe *)

Lemma scan_status_skip before : forall rest,
  Forall no_indicator before ->
  scan_status (before ++ rest) = scan_status rest.
Proof.
  induction before as [|l before IH]; intros rest H; cbn; [reflexivity|].
  inversion H as [|? ? Hl Hb]; subst. unfold no_indicator in Hl.
  rewrite Hl. apply IH, Hb.
Qed.

Lemma scan_status_none lines :
  Forall no_indicator lines -> scan_status lines = ScanEnd.
Proof.
  intros H. rewrite <- (app_nil_r lines). rewrite scan_status_skip by exact H.
  reflexivity.
Qed.

(** What [%d] stores of a number: the number itself when it fits an
    [int]; -1 for every number from LONG_MAX on and 0 for every number
    from LONG_MIN down, the two bounds [strtol] answers with, cut to an
    [int]. *)
Lemma strtol_stored z :
  (in_int z -> wrap_int (strtol z) = z)
  /\ (LONG_MAX <= z -> wrap_int (strtol z) = -1)
  /\ (z <= LONG_MIN -> wrap_int (strtol z) = 0).
Proof.
  unfold strtol. split; [|split]; intros H.
  - rewrite Z.min_r, Z.max_r
      by (unfold in_int, INT_MIN, INT_MAX, LONG_MIN, LONG_MAX in *; lia).
    apply wrap_int_id. exact H.
  - rewrite Z.min_l by exact H. reflexivity.
  - rewrite Z.min_r, Z.max_l by (unfold LONG_MIN, LONG_MAX in *; lia).
    reflexivity.
Qed.

(** An indicator beyond the range of [long] is stored as -1 and is no
    active indicator: the probe answers alive. *)
Lemma check_if_exited_out_of_range :
  sscanf_CoreDumping
    ("CoreDumping:" ++ String tab "18446744073709551617" ++ String newline "")
  = Some (-1)
  /\ df_check_if_exited 4242
       (proc_of (Opened (status_of "18446744073709551617"))) = Some 1.
Proof. split; vm_compute; reflexivity. Qed.



(** ** The test loop, iteration by iteration *)

Lemma debug_signatures_total s : forall j,
  0 <= j -> j + Z.of_nat (List.length s) <= INT_MAX ->
  snd (debug_signatures s j (j + Z.of_nat (List.length s))) = true.
Proof.
  induction s as [|x s IH]; intros j Hj Hmax;
    cbn [debug_signatures List.length] in *.
  - destruct (Z.ltb_spec j (j + Z.of_nat 0)); [lia | reflexivity].
  - destruct (Z.ltb_spec j (j + Z.of_nat (S (List.length s)))); [|lia].
    rewrite (wrap_int_id (j + 1))
      by int_range.
    replace (j + Z.of_nat (S (List.length s)))
      with (j + 1 + Z.of_nat (List.length s)) by lia.
    specialize (IH (j + 1) ltac:(lia) ltac:(lia)).
    destruct (debug_signatures s (j + 1) (j + 1 + Z.of_nat (List.length s)))
      as [ev ok]. exact IH.
Qed.

Lemma catalog_ok_debug st :
  catalog_ok st ->
  snd (debug_signatures (nodes (df_list st)) 0 (args (df_list st))) = true.
Proof.
  intros [Ha Hm]. rewrite Ha in *.
  apply (debug_signatures_total (nodes (df_list st)) 0); lia.
Qed.

(** A catalog built without allocation failure is well formed. *)
Lemma add_method_args_catalog_ok sigs : forall st,
  args (df_list st) = Z.of_nat (List.length (nodes (df_list st))) ->
  Z.of_nat (List.length (nodes (df_list st)) + List.length sigs) <= INT_MAX ->
  catalog_ok
    (add_method_args (map (fun sg => mk_add_call (Some sg) true true) sigs) st).
Proof.
  induction sigs as [|sg sigs IH]; intros st Ha Hmax; cbn [map add_method_args].
  - split; [exact Ha | rewrite Ha; cbn [List.length] in Hmax; lia].
  - cbn [List.length] in Hmax. apply IH.
    + cbn. rewrite length_app, Ha. cbn [List.length].
      rewrite wrap_int_id by int_range. lia.
    + cbn. rewrite length_app. cbn [List.length]. lia.
Qed.

Lemma catalog_of_ok name sigs :
  Z.of_nat (List.length sigs) <= INT_MAX -> catalog_ok (catalog_of name sigs).
Proof.
  intros H. unfold catalog_of. apply add_method_args_catalog_ok.
  - reflexivity.
  - cbn. exact H.
Qed.

Section Loop.

Variable K : constants.
Variables (obj intf : string) (pid vm : Z).
Variable cmd : option string.
Variable logfile : bool.

Local Abbreviation body := (loop_body K obj intf pid vm cmd logfile).
Local Abbreviation loop := (test_loop K obj intf pid vm cmd logfile).
Local Abbreviation through := (run_through K obj intf pid vm cmd logfile).
Local Abbreviation test := (df_fuzz_test_method K obj intf pid vm cmd logfile).
Local Abbreviation before := (output_before K obj intf pid vm cmd logfile).

(** The loop does not read [ret] and [execr] before an iteration writes
    them. *)
Lemma test_loop_locals it post st r x :
  loop (it :: post) st r x = loop (it :: post) st 0 0.
Proof. reflexivity. Qed.

(** After iterations that all reach the end of the body, the loop goes on
    as if it started in the state they leave. *)
Lemma test_loop_through pre : forall st r x st1 it post,
  through pre st = Some st1 ->
  loop (pre ++ it :: post) st r x
  = (fst (loop (it :: post) st1 0 0),
     mk_effects
       (events (snd (loop pre st r x))
        ++ events (snd (loop (it :: post) st1 0 0)))
       (counter_values (snd (loop pre st r x))
        ++ counter_values (snd (loop (it :: post) st1 0 0)))
       (state (snd (loop (it :: post) st1 0 0)))).
Proof.
  induction pre as [|i pre IH]; intros st r x st1 it post H.
  - cbn in H. injection H as <-.
    change ([] ++ it :: post) with (it :: post).
    rewrite test_loop_locals.
    destruct (loop (it :: post) st 0 0) as [x' [ev cs s']]. reflexivity.
  - cbn [run_through] in H. cbn [app test_loop].
    destruct (body i st) as [[code| |r' x'|r' x'] e]; try discriminate.
    rewrite (IH (state e) r' x' st1 it post H).
    destruct (loop pre (state e) r' x') as [x1 e1].
    cbn [fst snd events counter_values state].
    rewrite !app_assoc. reflexivity.
Qed.

(** What the test does when the iteration [it], reached after [pre],
    leaves the loop. *)
Lemma test_method_at buf name pre it post st st1 :
  catalog_ok st ->
  through pre st = Some st1 ->
  let r := test buf name (pre ++ it :: post) st in
  let e := snd (body it st1) in
  match fst (body it st1) with
  | BReturn code =>
      verdict r = Returns code /\ final_state r = state e
      /\ output r = before pre st ++ events e
  | BAbort => verdict r = Aborts
  | BBreak ret execr =>
      let a := after_loop obj intf cmd name
                 (if buf <? MINLEN K then MAX_BUF_LEN K else buf)
                 (negb (buf =? 0)) ret execr (state e) in
      verdict r = Returns (fst a) /\ final_state r = state e
      /\ output r = before pre st ++ events e ++ snd a
  | BNext _ _ => True
  end.
Proof.
  intros Hok Hthrough. cbv zeta.
  unfold verdict, final_state, output, df_fuzz_test_method, output_before.
  pose proof (catalog_ok_debug st Hok) as Hdbg.
  destruct (debug_signatures (nodes (df_list st)) 0 (args (df_list st)))
    as [dbg ok]. cbn [fst snd] in *. subst ok. cbn [negb].
  rewrite (test_loop_through pre st 0 0 st1 it post Hthrough).
  cbn [test_loop].
  destruct (body it st1) as [[code| |ret execr|ret execr] e];
    cbn [fst snd events counter_values state]; try exact I.
  - repeat split. rewrite <- !app_assoc. reflexivity.
  - reflexivity.
  - destruct (after_loop obj intf cmd name _ _ ret execr (state e)) as [c ev].
    cbn [fst snd events state]. repeat split.
    rewrite <- !app_assoc. reflexivity.
Qed.

End Loop.

(** ** The probe inside the loop *)

Section Body.

Variable K : constants.
Variables (obj intf : string) (pid vm : Z).
Variable cmd : option string.
Variable logfile : bool.

Local Abbreviation body := (loop_body K obj intf pid vm cmd logfile).

(** The body once a call argument was composed. *)
Lemma loop_body_composed it st ev1 v st2 ev2 ret st3 ev3 execr :
  df_fuzz_create_variant K it st = (ev1, Some v, st2) ->
  df_fuzz_call_method v vm (it_reply it) st2 = (ev2, ret, st3) ->
  df_exec_cmd_check cmd (it_cmd it) = (ev3, execr) ->
  0 <= execr ->
  body it st =
  let seen := [df_except_counter st3] in
  let ev := ev1 ++ ev2 ++ ev3 in
  if execr >? 0 then
    (BBreak ret execr,
     mk_effects
       (ev ++
        [df_fail "%s  %sFAIL%s %s - '%s' returned %s%d%s\n"
           [AAnsi ansi_cr; AAnsi ansi_red; AAnsi ansi_normal; method_name st3;
            match cmd with Some c => AStr c | None => ANull end;
            AAnsi ansi_red; AInt execr; AAnsi ansi_normal]])
       seen st3)
  else
    match df_check_if_exited pid (it_proc it) with
    | None => (BAbort, mk_effects ev seen st3)
    | Some r =>
        if r <? 0 then
          (BReturn (-1),
           mk_effects
             (ev ++ [df_fail "Error while reading process' stat file: %m" []])
             seen st3)
        else if r =? 0 then
          (BBreak (-1) execr,
           mk_effects
             (ev ++
              [df_fail "%s  %sFAIL%s %s - process %d exited\n"
                 [AAnsi ansi_cr; AAnsi ansi_red; AAnsi ansi_normal;
                  method_name st3; AInt pid]])
             seen st3)
        else if ret =? 2 then (BReturn 0, mk_effects ev seen st3)
        else if ret >? 0 then (BBreak ret execr, mk_effects ev seen st3)
        else
          let ev' :=
            ev ++ [FULL_LOG "%s;%s;" [AStr intf; AStr obj]]
               ++ (if logfile then fst (df_fuzz_write_log st3) else [])
               ++ [FULL_LOG "Success\n" []] in
          if df_except_counter st3 =? MAX_EXCEPTIONS K then
            (BBreak ret execr,
             mk_effects ev' (seen ++ [0]) (set_except_counter st3 0))
          else (BNext ret execr, mk_effects ev' seen st3)
    end.
Proof.
  intros H1 H2 H3 Hx. unfold loop_body. rewrite H1, H2, H3.
  destruct (Z.ltb_spec execr 0); [lia|]. reflexivity.
Qed.

End Body.

(** C3, as the code has it. When a read of the opened status record fails
    (the scan reaches a getline call that ends on a read error), the probe
    answers 0 (exited), and the test whose iteration meets this ends with
    the crash verdict 1. When the record cannot be opened for another
    reason than its absence (errno neither ENOENT nor ENOTDIR), the probe
    answers -1, and the test ends with the internal-error verdict -1. *)
Theorem check_if_exited_failures :
  forall (pid : Z) (proc : Z -> fopen_result),
    0 < pid ->
    (forall f,
        proc pid = Opened f ->
        at_end f = ReadError ->
        Forall no_indicator (status_lines f) ->
        df_check_if_exited pid proc = Some 0)
    /\ (forall errno,
           proc pid = FopenFails errno ->
           errno <> ENOENT -> errno <> ENOTDIR ->
           df_check_if_exited pid proc = Some (-1))
    /\ (forall K obj intf vm cmd logfile buf name pre it post st st1 ev1 v st2 ev3,
           catalog_ok st ->
           run_through K obj intf pid vm cmd logfile pre st = Some st1 ->
           df_fuzz_create_variant K it st1 = (ev1, Some v, st2) ->
           df_exec_cmd_check cmd (it_cmd it) = (ev3, 0) ->
           it_proc it = proc ->
           let r := df_fuzz_test_method K obj intf pid vm cmd logfile buf name
                      (pre ++ it :: post) st in
           (df_check_if_exited pid proc = Some 0 -> verdict r = Returns 1)
           /\ (df_check_if_exited pid proc = Some (-1) ->
               verdict r = Returns (-1))).
Proof.
  intros pid proc Hpid.
  assert (Hgt : (pid >? 0) = true) by (apply Z.gtb_lt; lia).
  split; [|split].
  - intros f Hf He Hn. unfold df_check_if_exited. rewrite Hgt, Hf. cbn [negb].
    unfold status_lines in Hn. rewrite (scan_status_none _ Hn), He. reflexivity.
  - intros errno Hf H1 H2. unfold df_check_if_exited. rewrite Hgt, Hf. cbn [negb].
    destruct (Z.eqb_spec errno ENOENT); [contradiction|].
    destruct (Z.eqb_spec errno ENOTDIR); [contradiction|]. reflexivity.
  - intros K obj intf vm cmd logfile buf name pre it post st st1 ev1 v st2 ev3
           Hok Hthrough Hcv Hcmd Hproc.
    pose proof (test_method_at K obj intf pid vm cmd logfile buf name pre it post
                  st st1 Hok Hthrough) as T.
    cbv zeta in T |- *.
    destruct (df_fuzz_call_method v vm (it_reply it) st2) as [[ev2 ret] st3] eqn:Hcall.
    rewrite (loop_body_composed K obj intf pid vm cmd logfile it st1 _ _ _ _ _ _
               _ _ Hcv Hcall Hcmd ltac:(lia)) in T.
    cbv zeta in T. rewrite Hproc in T. cbn [Z.gtb Z.compare] in T.
    split; intros Hp; rewrite Hp in T; cbn [Z.ltb Z.eqb Z.compare fst snd state] in T.
    + destruct T as (Hv & _). rewrite Hv. reflexivity.
    + destruct T as (Hv & _). exact Hv.
Qed.

Lemma check_if_exited_failures_witness :
  0 < 4242
  /\ df_check_if_exited 4242 unreadable = Some 0
  /\ verdict (ping_once 0 None (iteration_of (Response "()") (cmd_status 0) unreadable))
     = Returns 1
  /\ df_check_if_exited 4242 unopenable = Some (-1).
Proof.
  assert (H : 0 < 4242) by lia.
  destruct (check_if_exited_failures 4242 unreadable H) as (T1 & _ & T3).
  destruct (check_if_exited_failures 4242 unopenable H) as (_ & T2 & _).
  assert (E : df_check_if_exited 4242 unreadable = Some 0).
  { apply (T1 status_unreadable eq_refl eq_refl). repeat constructor. }
  split; [exact H|]. split; [exact E|]. split.
  - refine (proj1 (T3 K0 "/org/example" "org.example.Iface" 0 None true 0
                      "org.example" []
                      (iteration_of (Response "()") (cmd_status 0) unreadable) []
                      (catalog_of "Ping" []) (catalog_of "Ping" [])
                      _ _ _ _ _ eq_refl eq_refl eq_refl eq_refl) E).
    split; [reflexivity | cbn; unfold INT_MAX; lia].
  - apply (T2 EACCES eq_refl); unfold EACCES, ENOENT, ENOTDIR; lia.
Defined.

(** C3, as stated, fails: when the record exists and opening it is denied
    (EACCES), the probe answers with the error -1, not with 0, and the
    test ends with the internal-error verdict instead of treating the
    target as exited. *)
Lemma check_if_exited_open_error :
  df_check_if_exited 4242 unopenable = Some (-1)
  /\ df_check_if_exited 4242 unopenable <> Some 0
  /\ verdict (ping_once 0 None (iteration_of (Response "()") (cmd_status 0) unopenable))
     = Returns (-1).
Proof.
  split; [reflexivity|]. split; [discriminate | reflexivity].
Qed.

(** ** The verdict codes *)

Lemma scan_status_return lines r : scan_status lines = ScanReturn r -> r = 0.
Proof.
  induction lines as [|l lines IH]; cbn; [discriminate|].
  destruct (sscanf_CoreDumping l) as [d|]; [|exact IH].
  destruct (d >? 0); [|discriminate]. intros H; injection H as <-. reflexivity.
Qed.

(** The probe answers -1, 0 or 1. *)
Lemma check_if_exited_range pid proc r :
  df_check_if_exited pid proc = Some r -> r = -1 \/ r = 0 \/ r = 1.
Proof.
  unfold df_check_if_exited.
  destruct (negb (pid >? 0)); [discriminate|].
  destruct (proc pid) as [errno|f].
  - destruct (_ || _)%bool; intros H; injection H as <-; auto.
  - destruct (scan_status _) as [r'| |] eqn:E.
    + apply scan_status_return in E. subst r'. intros H; injection H as <-. auto.
    + cbn. intros H; injection H as <-. auto.
    + destruct (at_end f); cbn; intros H; injection H as <-; auto.
Qed.

Lemma strcmp_eq_true a b : strcmp_eq a b = true -> a = b.
Proof. apply String.eqb_eq. Qed.

Lemma strcmp_eq_false a b : strcmp_eq a b = false -> a <> b.
Proof. apply String.eqb_neq. Qed.

(** The return values of df_fuzz_call_method and what they stand for. *)
Lemma call_method_ret value vm it st :
  let ret := snd (fst (df_fuzz_call_method value vm (it_reply it) st)) in
  ret = 0 \/ ret = 2 \/ (ret = -1 /\ no_reply it)
  \/ (ret = 1 /\ void_violation vm it).
Proof.
  unfold df_fuzz_call_method, no_reply, void_violation.
  destruct (it_reply it) as [[e|] m|fmt].
  - destruct (strcmp_eq e "org.freedesktop.DBus.Error.NoReply") eqn:E1.
    { apply strcmp_eq_true in E1; subst. right; right; left.
      split; [reflexivity|]. exists m. left; reflexivity. }
    destruct (strcmp_eq e "org.freedesktop.DBus.Error.Timeout") eqn:E2.
    { apply strcmp_eq_true in E2; subst. right; right; left.
      split; [reflexivity|]. exists m. right; reflexivity. }
    destruct (_ || _)%bool; [right; left; reflexivity|].
    destruct (strstr m "Timeout"); [right; left | left]; reflexivity.
  - destruct (strstr m "Timeout"); [right; left | left]; reflexivity.
  - destruct (Z.eqb_spec vm 0) as [->|Hvm]; cbn [negb andb];
      [left; reflexivity|].
    destruct (strcmp_eq fmt "()") eqn:E; cbn [negb]; [left; reflexivity|].
    right; right; right. split; [reflexivity|]. split; [exact Hvm|].
    exists fmt. split; [reflexivity | apply strcmp_eq_false, E].
Qed.

Section Verdict.

Variable K : constants.
Variables (obj intf : string) (pid vm : Z).
Variable cmd : option string.
Variable logfile : bool.

Local Abbreviation body := (loop_body K obj intf pid vm cmd logfile).
Local Abbreviation loop := (test_loop K obj intf pid vm cmd logfile).

Lemma loop_body_exits it st :
  match fst (body it st) with
  | BReturn code => code = 0 \/ code = -1
  | BAbort => True
  | BBreak ret execr => exit_locals pid vm cmd it ret execr
  | BNext ret execr =>
      execr = 0 /\ exit_locals pid vm cmd it ret execr
  end.
Proof.
  unfold loop_body.
  destruct (df_fuzz_create_variant K it st) as [[ev1 [value|]] st1] eqn:Hcv.
  - pose proof (call_method_ret value vm it st1) as Hret. cbv zeta in Hret.
    destruct (df_fuzz_call_method value vm (it_reply it) st1) as [[ev2 ret] st2].
    cbn [fst snd] in Hret.
    destruct (df_exec_cmd_check cmd (it_cmd it)) as [ev3 execr] eqn:Hcmd.
    assert (Hvoid : ret = 1 -> void_violation vm it)
      by (intros ->; destruct Hret as [H|[H|[[H _]|[_ H]]]];
          try discriminate H; exact H).
    destruct (Z.ltb_spec execr 0) as [Hneg|Hpos]; cbn [fst].
    { right. reflexivity. }
    destruct (Z.gtb_spec execr 0) as [Hgt|Hle]; cbn [fst].
    { split; [lia|]. split; [intros _; red; rewrite Hcmd; exact Hgt|].
      split; [exact Hvoid | intros ->; lia]. }
    assert (Hx : execr = 0) by lia. subst execr.
    destruct (df_check_if_exited pid (it_proc it)) as [r|] eqn:Hprobe;
      [|exact I].
    destruct (Z.ltb_spec r 0) as [Hr|Hr]; cbn [fst].
    { right. reflexivity. }
    destruct (Z.eqb_spec r 0) as [->|Hr0]; cbn [fst].
    { split; [lia|]. split; [lia|]. split; [discriminate|].
      intros _. right; right. split; [reflexivity|]. left. exact Hprobe. }
    assert (Hcases : ret = 0 \/ ret = 1 \/ ret = 2 \/ (ret = -1 /\ no_reply it))
      by (destruct Hret as [H|[H|[[H G]|[H _]]]]; auto).
    destruct (Z.eqb_spec ret 2) as [->|Hr2]; cbn [fst]; [left; reflexivity|].
    assert (Hl : exit_locals pid vm cmd it ret 0).
    { split; [lia|]. split; [lia|]. split; [exact Hvoid|]. intros _.
      destruct Hcases as [H|[H|[H|[H G]]]]; auto; [contradiction|].
      right; right. split; [exact H | right; exact G]. }
    destruct (Z.gtb_spec ret 0); cbn [fst]; [exact Hl|].
    destruct (df_except_counter st2 =? MAX_EXCEPTIONS K); cbn [fst];
      [exact Hl | split; [reflexivity | exact Hl]].
  - destruct (negb (df_unsupported_sig st1 =? 0)); cbn [fst];
      [left; reflexivity|].
    right. reflexivity.
Qed.

End Verdict.

Section VerdictLoop.

Variable K : constants.
Variables (obj intf : string) (pid vm : Z).
Variable cmd : option string.
Variable logfile : bool.

Local Abbreviation loop := (test_loop K obj intf pid vm cmd logfile).

Lemma test_loop_exits script : forall st r0 x0,
  match fst (loop script st r0 x0) with
  | LReturn code => code = 0 \/ code = -1
  | LAbort => True
  | LAfter ret execr =>
      (ret = r0 /\ execr = x0)
      \/ exists it, In it script /\ exit_locals pid vm cmd it ret execr
  end.
Proof.
  induction script as [|it rest IH]; intros st r0 x0; cbn [test_loop].
  - left; split; reflexivity.
  - pose proof (loop_body_exits K obj intf pid vm cmd logfile it st) as Hb.
    destruct (loop_body K obj intf pid vm cmd logfile it st)
      as [[code| |ret execr|ret execr] e]; cbn [fst] in *.
    + exact Hb.
    + exact I.
    + right. exists it. split; [left; reflexivity | exact Hb].
    + specialize (IH (state e) ret execr).
      destruct (loop rest (state e) ret execr) as [[code| |ret' execr'] e'];
        cbn [fst] in *.
      * exact IH.
      * exact I.
      * right. destruct IH as [[-> ->]|(i & Hi & G)].
        -- exists it. split; [left; reflexivity | apply Hb].
        -- exists i. split; [right; exact Hi | exact G].
Qed.

(** The code chosen after the loop. *)
Lemma after_loop_code name buf flg ret execr st :
  let code := fst (after_loop obj intf cmd name buf flg ret execr st) in
  (ret = 0 /\ execr = 0 -> code = 0)
  /\ (ret = 1 -> code = 2)
  /\ (ret <> 1 -> 0 < execr -> code = 4)
  /\ (ret <> 1 -> ret <> 0 -> execr = 0 -> code = 1).
Proof.
  unfold after_loop. cbv zeta.
  destruct (Z.eqb_spec ret 0) as [->|H0]; cbn [negb orb].
  - destruct (Z.eqb_spec execr 0) as [->|Hx]; cbn [negb fst].
    + repeat split; intros; try reflexivity; lia.
    + change (0 =? 1) with false. cbn [negb].
      destruct (Z.gtb_spec execr 0); cbn [fst];
        repeat split; intros; try reflexivity; lia.
  - destruct (Z.eqb_spec ret 1) as [->|H1]; cbn [negb fst].
    + repeat split; intros; try reflexivity; lia.
    + destruct (Z.gtb_spec execr 0); cbn [fst];
        repeat split; intros; try reflexivity; lia.
Qed.

End VerdictLoop.

(** The return value of df_fuzz_call_method tells the reply: 1 stands for
    a void violation and -1 for a missing reply, and for nothing else. *)
Lemma call_method_ret_iff value vm it st :
  let ret := snd (fst (df_fuzz_call_method value vm (it_reply it) st)) in
  (ret = 0 \/ ret = 2 \/ ret = -1 \/ ret = 1)
  /\ (ret = 1 <-> void_violation vm it)
  /\ (ret = -1 <-> no_reply it).
Proof.
  pose proof (call_method_ret value vm it st) as H. cbv zeta in *.
  split; [|split; split].
  - destruct H as [H|[H|[[H _]|[H _]]]]; auto.
  - intros E. rewrite E in H.
    destruct H as [H|[H|[[H _]|[_ H]]]]; try discriminate H. exact H.
  - intros (Hvm & fmt & Hr & Hne). unfold df_fuzz_call_method. rewrite Hr.
    destruct (Z.eqb_spec vm 0) as [->|_]; [contradiction|].
    destruct (strcmp_eq fmt "()") eqn:E;
      [apply strcmp_eq_true in E; contradiction|].
    reflexivity.
  - intros E. rewrite E in H.
    destruct H as [H|[H|[[_ H]|[H _]]]]; try discriminate H. exact H.
  - intros (m & [Hr|Hr]); unfold df_fuzz_call_method; rewrite Hr;
      reflexivity.
Qed.

Lemma run_through_app K obj intf pid vm cmd logfile pre : forall l st,
  run_through K obj intf pid vm cmd logfile (pre ++ l) st
  = match run_through K obj intf pid vm cmd logfile pre st with
    | Some s => run_through K obj intf pid vm cmd logfile l s
    | None => None
    end.
Proof.
  induction pre as [|it pre IH]; intros l st; cbn [app run_through];
    [reflexivity|].
  destruct (loop_body K obj intf pid vm cmd logfile it st)
    as [[code| |ret execr|ret execr] e]; try reflexivity.
  apply IH.
Qed.

Section LastIteration.

Variable K : constants.
Variables (obj intf : string) (pid vm : Z).
Variable cmd : option string.
Variable logfile : bool.

Local Abbreviation body := (loop_body K obj intf pid vm cmd logfile).
Local Abbreviation loop := (test_loop K obj intf pid vm cmd logfile).
Local Abbreviation through := (run_through K obj intf pid vm cmd logfile).
Local Abbreviation last := (last_started K obj intf pid vm cmd logfile).

(** A script that is not empty has a last iteration that starts. *)
Lemma last_started_exists script : forall st,
  script <> [] -> exists pre it sti, last script st pre it sti.
Proof.
  induction script as [|it rest IH]; intros st Hne; [contradiction|].
  destruct (body it st) as [x e] eqn:Hb.
  assert (Hstop : (forall r c, x <> BNext r c) \/ rest = [] ->
                  exists pre i sti, last (it :: rest) st pre i sti).
  { intros Hs. exists [], it, st, rest. split; [reflexivity|].
    split; [reflexivity|].
    destruct Hs as [Hs| ->]; [right | left; reflexivity].
    cbn [app run_through]. rewrite Hb.
    destruct x; try reflexivity. exfalso. exact (Hs _ _ eq_refl). }
  destruct x as [code| |ret execr|ret execr];
    try (apply Hstop; left; intros r c; discriminate).
  destruct rest as [|it' rest']; [apply Hstop; right; reflexivity|].
  destruct (IH (state e)) as (pre & i & sti & post & Hs & Ht & Hl);
    [discriminate|].
  exists (it :: pre), i, sti, post. split; [cbn [app]; rewrite Hs; reflexivity|].
  split; [cbn [run_through]; rewrite Hb; exact Ht|].
  destruct Hl as [Hl|Hl]; [left; exact Hl | right].
  cbn [app run_through]. rewrite Hb. exact Hl.
Qed.

(** The loop is left as its last iteration leaves the body. *)
Lemma test_loop_last pre it rest st sti r0 x0 :
  through pre st = Some sti ->
  rest = [] \/ through (pre ++ [it]) st = None ->
  fst (loop (pre ++ it :: rest) st r0 x0)
  = match fst (body it sti) with
    | BReturn code => LReturn code
    | BAbort => LAbort
    | BBreak ret execr | BNext ret execr => LAfter ret execr
    end.
Proof.
  intros Ht Hl.
  rewrite (test_loop_through K obj intf pid vm cmd logfile pre st r0 x0 sti it
             rest Ht).
  cbn [fst test_loop].
  destruct (body it sti) as [[code| |ret execr|ret execr] e] eqn:Hb;
    cbn [fst]; try reflexivity.
  destruct Hl as [->|Hl]; [reflexivity|].
  rewrite run_through_app, Ht in Hl. cbn [run_through] in Hl.
  rewrite Hb in Hl. discriminate.
Qed.

Ltac settle :=
  repeat match goal with
         | |- _ /\ _ => split
         | |- _ <-> _ => split
         end;
  intros;
  repeat match goal with
         | H : _ /\ _ |- _ => destruct H
         | H : _ \/ _ |- _ => destruct H
         end;
  try lia; try congruence; try tauto;
  auto 8.

(** The verdict an iteration leads to when the loop is left with it, read
    off what happened in it. *)
Lemma iteration_code name buf flg s it st code :
  match fst (body it st) with
  | BReturn c => c = code
  | BAbort => False
  | BBreak ret execr | BNext ret execr =>
      fst (after_loop obj intf cmd name buf flg ret execr s) = code
  end ->
  (code = 0 \/ code = 1 \/ code = 2 \/ code = 4 \/ code = -1)
  /\ (code = -1 <-> internal_error K pid cmd it st)
  /\ (code = 4 <->
      composes K it st /\ health_check_failed cmd it
      /\ ~ void_violation vm it)
  /\ (code = 2 <->
      composes K it st /\ void_violation vm it
      /\ (health_check_failed cmd it
          \/ (health_check_passed cmd it /\ target_alive pid it)))
  /\ (code = 1 <->
      composes K it st /\ health_check_passed cmd it
      /\ (target_exited pid it \/ (target_alive pid it /\ no_reply it)))
  /\ (code = 0 <->
      unsupported_signature K it st
      \/ (composes K it st /\ health_check_passed cmd it
          /\ target_alive pid it
          /\ ~ void_violation vm it /\ ~ no_reply it)).
Proof.
  unfold internal_error, composes, unsupported_signature, health_check_failed,
    health_check_passed, target_alive, target_exited, loop_body.
  destruct (df_fuzz_create_variant K it st) as [[ev1 [value|]] st1] eqn:Hcv;
    cbn [fst snd].
  - pose proof (call_method_ret_iff value vm it st1) as (Hret & Hv & Hn).
    destruct (df_fuzz_call_method value vm (it_reply it) st1)
      as [[ev2 ret] st2].
    cbn [fst snd] in Hret, Hv, Hn.
    destruct (df_exec_cmd_check cmd (it_cmd it)) as [ev3 execr].
    cbn [fst snd].
    assert (Hc : Some value <> (None : option GVariant)) by discriminate.
    pose proof (after_loop_code obj intf cmd name buf flg) as A.
    cbv zeta in A.
    destruct (Z.ltb_spec execr 0) as [Hneg|Hpos]; cbn [fst].
    { intros <-. settle. }
    destruct (Z.gtb_spec execr 0) as [Hgt|Hle]; cbn [fst].
    { intros Hcode. destruct (A ret execr s) as (_ & A2 & A4 & _).
      destruct (Z.eq_dec ret 1) as [E|E].
      - rewrite A2 in Hcode by exact E. subst code.
        assert (V : void_violation vm it) by (apply Hv; exact E).
        settle.
      - rewrite A4 in Hcode by (exact E || lia). subst code.
        assert (V : ~ void_violation vm it) by (rewrite <- Hv; exact E).
        settle. }
    assert (execr = 0) by lia. subst execr.
    destruct (df_check_if_exited pid (it_proc it)) as [r|] eqn:Hprobe;
      cbn [fst]; [|contradiction].
    destruct (check_if_exited_range _ _ _ Hprobe) as [->|[->| ->]];
      cbn [Z.ltb Z.eqb Z.compare fst].
    + intros <-. settle.
    + intros Hcode. destruct (A (-1) 0 s) as (_ & _ & _ & A1).
      rewrite A1 in Hcode by lia. subst code. settle.
    + destruct Hret as [->|[->|[->| ->]]];
        cbn [Z.eqb Z.gtb Z.compare Pos.eqb Pos.compare Pos.compare_cont fst].
      * assert (V : ~ void_violation vm it) by (rewrite <- Hv; lia).
        assert (N : ~ no_reply it) by (rewrite <- Hn; lia).
        destruct (df_except_counter st2 =? MAX_EXCEPTIONS K); cbn [fst];
          intros Hcode; destruct (A 0 0 s) as (A0 & _);
          rewrite A0 in Hcode by (split; reflexivity); subst code; settle.
      * assert (V : ~ void_violation vm it) by (rewrite <- Hv; lia).
        assert (N : ~ no_reply it) by (rewrite <- Hn; lia).
        intros <-. settle.
      * assert (V : ~ void_violation vm it) by (rewrite <- Hv; lia).
        assert (N : no_reply it) by (apply Hn; reflexivity).
        destruct (df_except_counter st2 =? MAX_EXCEPTIONS K); cbn [fst];
          intros Hcode; destruct (A (-1) 0 s) as (_ & _ & _ & A1);
          rewrite A1 in Hcode by lia; subst code; settle.
      * assert (V : void_violation vm it) by (apply Hv; reflexivity).
        assert (N : ~ no_reply it) by (rewrite <- Hn; lia).
        intros Hcode. destruct (A 1 0 s) as (_ & A2 & _).
        rewrite A2 in Hcode by reflexivity. subst code. settle.
  - destruct (Z.eqb_spec (df_unsupported_sig st1) 0) as [E|E]; cbn [negb fst];
      intros <-; settle.
Qed.

End LastIteration.

(** C1. Whenever df_fuzz_test_method returns, the value is one of 0, 1, 2,
    4 and -1, and 3 is never returned. With no iteration it is 0.
    Otherwise the last iteration that starts decides it, and its causes
    are taken in this order. No call argument composed: 0 when an
    unsupported signature is signalled (the method is skipped), -1
    otherwise. Health check not run: -1. Health check finished with a
    status above 0: 2 when the call found the void contract violated, 4
    otherwise; the probe is not asked. Health check passed: -1 when the
    status record cannot be read, 1 when the target exited; with the
    target alive, 2 for a void violation, 1 when the target did not
    reply, and 0 in every other case. Each code is returned in exactly
    these cases. *)
Theorem test_method_verdict_codes :
  forall K obj intf pid vm cmd logfile buf name script st code,
    verdict (df_fuzz_test_method K obj intf pid vm cmd logfile buf name
                                 script st) = Returns code ->
    (code = 0 \/ code = 1 \/ code = 2 \/ code = 4 \/ code = -1)
    /\ (script = [] -> code = 0)
    /\ (script <> [] ->
        exists pre it sti,
          last_started K obj intf pid vm cmd logfile script st pre it sti)
    /\ forall pre it sti,
         last_started K obj intf pid vm cmd logfile script st pre it sti ->
         (code = -1 <-> internal_error K pid cmd it sti)
         /\ (code = 4 <->
             composes K it sti /\ health_check_failed cmd it
             /\ ~ void_violation vm it)
         /\ (code = 2 <->
             composes K it sti /\ void_violation vm it
             /\ (health_check_failed cmd it
                 \/ (health_check_passed cmd it /\ target_alive pid it)))
         /\ (code = 1 <->
             composes K it sti /\ health_check_passed cmd it
             /\ (target_exited pid it
                 \/ (target_alive pid it /\ no_reply it)))
         /\ (code = 0 <->
             unsupported_signature K it sti
             \/ (composes K it sti /\ health_check_passed cmd it
                 /\ target_alive pid it
                 /\ ~ void_violation vm it /\ ~ no_reply it)).
Proof.
  intros K obj intf pid vm cmd logfile buf name script st code Hv.
  assert (Hlast :
            forall pre it sti,
              last_started K obj intf pid vm cmd logfile script st pre it sti ->
              (code = 0 \/ code = 1 \/ code = 2 \/ code = 4 \/ code = -1)
              /\ _) by
    (intros pre it sti (rest & -> & Ht & Hl);
     revert Hv; unfold verdict, df_fuzz_test_method;
     destruct (debug_signatures _ _ _) as [dbg ok];
     destruct (negb ok); [discriminate|];
     pose proof (test_loop_last K obj intf pid vm cmd logfile pre it rest st
                   sti 0 0 Ht Hl) as E;
     destruct (test_loop K obj intf pid vm cmd logfile (pre ++ it :: rest)
                 st 0 0) as [x e];
     cbn [fst] in E; subst x; intros Hv;
     apply (iteration_code K obj intf pid vm cmd logfile name
              (if buf <? MINLEN K then MAX_BUF_LEN K else buf)
              (negb (buf =? 0)) (state e) it sti code);
     destruct (fst (loop_body K obj intf pid vm cmd logfile it sti))
       as [c| |ret execr|ret execr];
     try (destruct (after_loop obj intf cmd name _ _ ret execr (state e))
            as [c ev]);
     cbn [fst] in Hv |- *; congruence).
  assert (Hempty : script = [] -> code = 0).
  { intros ->. revert Hv. unfold verdict, df_fuzz_test_method.
    destruct (debug_signatures _ _ _) as [dbg ok].
    destruct (negb ok); [discriminate|].
    cbn [test_loop state].
    pose proof (after_loop_code obj intf cmd name
                  (if buf <? MINLEN K then MAX_BUF_LEN K else buf)
                  (negb (buf =? 0)) 0 0 st) as (A0 & _).
    destruct (after_loop obj intf cmd name _ _ 0 0 st) as [c ev].
    cbn [fst] in *. intros H; injection H as <-. apply A0. split; reflexivity. }
  split; [|split; [exact Hempty|split]].
  - destruct script as [|it rest]; [left; apply Hempty; reflexivity|].
    destruct (last_started_exists K obj intf pid vm cmd logfile (it :: rest) st)
      as (pre & i & sti & Hl); [discriminate|].
    apply (Hlast pre i sti Hl).
  - apply last_started_exists.
  - intros pre it sti Hl. apply (Hlast pre it sti Hl).
Qed.

Lemma test_method_verdict_codes_witness :
  let clean := iteration_of (Response "()") (cmd_status 0) alive in
  let it := iteration_of (Response "(s)") (cmd_status 256) alive in
  let st := catalog_of "Ping" [] in
  verdict (df_fuzz_test_method K0 "/org/example" "org.example.Iface" 4242 1
             (Some "check") true 0 "org.example" [clean; it; clean] st)
  = Returns 2
  /\ composes K0 it st
  /\ void_violation 1 it
  /\ (health_check_failed (Some "check") it
      \/ (health_check_passed (Some "check") it /\ target_alive 4242 it)).
Proof.
  cbv zeta. split; [reflexivity|].
  refine (proj1 (proj1 (proj2 (proj2
            (proj2 (proj2 (proj2
               (test_method_verdict_codes K0 "/org/example" "org.example.Iface"
                  4242 1 (Some "check") true 0 "org.example"
                  [iteration_of (Response "()") (cmd_status 0) alive;
                   iteration_of (Response "(s)") (cmd_status 256) alive;
                   iteration_of (Response "()") (cmd_status 0) alive]
                  (catalog_of "Ping" []) 2 eq_refl)))
               [iteration_of (Response "()") (cmd_status 0) alive]
               (iteration_of (Response "(s)") (cmd_status 256) alive)
               (catalog_of "Ping" []) _)))) eq_refl).
  exists [iteration_of (Response "()") (cmd_status 0) alive].
  split; [reflexivity|]. split; [vm_compute; reflexivity|].
  right. vm_compute. reflexivity.
Defined.

(** Two causes in one iteration, one verdict. A void method answers with
    a value and the health check fails: the test returns 2, not the code
    of the failed health check. A void method answers with a value and the
    target has exited: the test returns 1, not the code of the void
    violation. *)
Lemma verdict_causes_overlap :
  let failing := iteration_of (Response "(s)") (cmd_status 256) alive in
  let exited :=
    iteration_of (Response "(s)") (cmd_status 0) (proc_of (FopenFails ENOENT)) in
  (health_check_failed (Some "check") failing
   /\ verdict (ping_once 1 (Some "check") failing) = Returns 2
   /\ verdict (ping_once 1 (Some "check") failing) <> Returns 4)
  /\ (void_violation 1 exited
      /\ verdict (ping_once 1 (Some "check") exited) = Returns 1
      /\ verdict (ping_once 1 (Some "check") exited) <> Returns 2).
Proof.
  cbv zeta. split; split.
  - vm_compute. reflexivity.
  - split; [reflexivity | discriminate].
  - split; [discriminate|]. exists "(s)". split; [reflexivity | discriminate].
  - split; [reflexivity | discriminate].
Qed.


(** ** The exception counter *)

Lemma call_method_counter value vm reply st :
  let st' := snd (df_fuzz_call_method value vm reply st) in
  df_except_counter st' = df_except_counter st
  \/ df_except_counter st' = wrap_char (df_except_counter st + 1).
Proof.
  unfold df_fuzz_call_method.
  destruct reply as [[e|] m|fmt].
  - destruct (strcmp_eq e "org.freedesktop.DBus.Error.NoReply"); [left; reflexivity|].
    destruct (strcmp_eq e "org.freedesktop.DBus.Error.Timeout"); [left; reflexivity|].
    destruct (_ || _)%bool; [left; reflexivity|].
    destruct (strstr m "Timeout"); [left | right]; reflexivity.
  - destruct (strstr m "Timeout"); [left | right]; reflexivity.
  - destruct (_ && _)%bool; left; reflexivity.
Qed.

Lemma wrap_char_succ_below c M :
  -128 <= c < M -> -128 <= wrap_char (c + 1) <= M.
Proof.
  intros H. pose proof (wrap_char_range (c + 1)).
  destruct (Z_le_gt_dec (c + 1) 127).
  - rewrite wrap_char_id by lia. lia.
  - unfold wrap_char in *.
    assert (E : (c + 1 + 128) mod 256 <= c + 1 + 128 - 256).
    { pose proof (Z.mod_pos_bound (c + 1 + 128) 256 ltac:(lia)).
      assert (D : c + 1 + 128 = 256 * ((c + 1 + 128) / 256)
                               + (c + 1 + 128) mod 256)
        by (apply Z.div_mod; lia).
      assert (1 <= (c + 1 + 128) / 256)
        by (apply Z.div_le_lower_bound; lia).
      lia. }
    lia.
Qed.

Section Counter.

Variable K : constants.
Variables (obj intf : string) (pid vm : Z).
Variable cmd : option string.
Variable logfile : bool.

Local Abbreviation body := (loop_body K obj intf pid vm cmd logfile).
Local Abbreviation loop := (test_loop K obj intf pid vm cmd logfile).
Local Abbreviation M := (MAX_EXCEPTIONS K).

(** One iteration started below the cap keeps the counter at or below it,
    and hands a counter below the cap to the next iteration. *)
Lemma loop_body_counter it st :
  0 <= M -> -128 <= df_except_counter st < M ->
  let x := fst (body it st) in
  let e := snd (body it st) in
  Forall (fun c => c <= M) (counter_values e)
  /\ -128 <= df_except_counter (state e) <= M
  /\ match x with
     | BNext _ _ => df_except_counter (state e) < M
     | _ => True
     end.
Proof.
  intros HM Hc. cbv zeta. unfold loop_body.
  pose proof (create_variant_frame K it st) as Hf.
  destruct (df_fuzz_create_variant K it st) as [[ev1 [value|]] st1].
  - cbn [snd] in Hf. destruct Hf as [_ Hf].
    pose proof (call_method_counter value vm (it_reply it) st1) as Hcall.
    destruct (df_fuzz_call_method value vm (it_reply it) st1) as [[ev2 ret] st2].
    cbn [snd] in Hcall.
    assert (Hb : -128 <= df_except_counter st2 <= M).
    { destruct Hcall as [-> | ->]; rewrite Hf;
        [lia | apply wrap_char_succ_below; lia]. }
    assert (Hseen : Forall (fun c => c <= M) [df_except_counter st2])
      by (repeat constructor; lia).
    destruct (df_exec_cmd_check cmd (it_cmd it)) as [ev3 execr].
    destruct (execr <? 0); cbn [fst snd counter_values state]; [auto|].
    destruct (execr >? 0); cbn [fst snd counter_values state]; [auto|].
    destruct (df_check_if_exited pid (it_proc it)) as [r|];
      cbn [fst snd counter_values state]; [|auto].
    destruct (r <? 0); cbn [fst snd counter_values state]; [auto|].
    destruct (r =? 0); cbn [fst snd counter_values state]; [auto|].
    destruct (ret =? 2); cbn [fst snd counter_values state]; [auto|].
    destruct (ret >? 0); cbn [fst snd counter_values state]; [auto|].
    destruct (Z.eqb_spec (df_except_counter st2) M) as [E|E];
      cbn [fst snd counter_values state].
    + split; [|cbn; split; [lia | exact I]].
      apply Forall_app. split; [exact Hseen | repeat constructor; lia].
    + split; [exact Hseen|]. split; [exact Hb | lia].
  - cbn [snd] in Hf. destruct Hf as [_ Hf].
    destruct (negb (df_unsupported_sig st1 =? 0));
      cbn [fst snd counter_values state df_except_counter];
      rewrite ?Hf; (split; [constructor | split; [lia | exact I]]).
Qed.

Lemma test_loop_counter script : forall st r0 x0,
  0 <= M -> -128 <= df_except_counter st < M ->
  let e := snd (loop script st r0 x0) in
  Forall (fun c => c <= M) (counter_values e)
  /\ df_except_counter (state e) <= M.
Proof.
  induction script as [|it rest IH]; intros st r0 x0 HM Hc; cbn [test_loop].
  - cbn. split; [constructor | lia].
  - pose proof (loop_body_counter it st HM Hc) as Hb. cbv zeta in Hb.
    destruct (body it st) as [x e]. cbn [fst snd] in Hb.
    destruct Hb as (Hv & Hs & Hn).
    destruct x as [code| |ret execr|ret execr]; cbn [snd];
      try (split; [exact Hv | lia]).
    specialize (IH (state e) ret execr HM ltac:(lia)). cbv zeta in IH.
    destruct (loop rest (state e) ret execr) as [x' e'].
    cbn [snd counter_values state] in *. destruct IH as [IH1 IH2].
    split; [apply Forall_app; split; assumption | exact IH2].
Qed.

End Counter.

(** C4, as the code has it. In a test that starts with the exception
    counter below the cap, the counter never exceeds MAX_EXCEPTIONS. When,
    in any test, an iteration without crash or violation (call result 0,
    health check passed, target alive) ends with the counter at the cap,
    the loop stops there, the counter is reset to zero and the verdict is
    0. The counter is reset nowhere else: releasing the catalog and adding
    the next method leave it as the test left it. *)
Theorem except_counter_capped :
  forall K obj intf pid vm cmd logfile buf name script st,
    0 <= MAX_EXCEPTIONS K ->
    -128 <= df_except_counter st < MAX_EXCEPTIONS K ->
    let r := df_fuzz_test_method K obj intf pid vm cmd logfile buf name
               script st in
    (Forall (fun c => c <= MAX_EXCEPTIONS K) (counter_values (snd r))
     /\ df_except_counter (final_state r) <= MAX_EXCEPTIONS K)
    /\ (forall pre it post st1 ev1 v st2 ev2 st3 ev3,
           script = pre ++ it :: post ->
           catalog_ok st ->
           run_through K obj intf pid vm cmd logfile pre st = Some st1 ->
           df_fuzz_create_variant K it st1 = (ev1, Some v, st2) ->
           df_fuzz_call_method v vm (it_reply it) st2 = (ev2, 0, st3) ->
           df_except_counter st3 = MAX_EXCEPTIONS K ->
           df_exec_cmd_check cmd (it_cmd it) = (ev3, 0) ->
           df_check_if_exited pid (it_proc it) = Some 1 ->
           verdict r = Returns 0 /\ df_except_counter (final_state r) = 0)
    /\ (forall name' strdup_ok,
           df_except_counter
             (snd (df_fuzz_add_method name' strdup_ok (final_state r)))
           = df_except_counter (final_state r))
    /\ (forall n st',
           df_fuzz_clean_method (final_state r) = Done (n, st') ->
           df_except_counter st' = df_except_counter (final_state r)).
Proof.
  intros K obj intf pid vm cmd logfile buf name script st HM Hc. cbv zeta.
  split; [|split; [|split]].
  - unfold final_state, df_fuzz_test_method.
    destruct (debug_signatures _ _ _) as [dbg ok].
    destruct (negb ok); cbn [snd counter_values state];
      [split; [constructor | lia]|].
    pose proof (test_loop_counter K obj intf pid vm cmd logfile script st 0 0
                  HM Hc) as Hl. cbv zeta in Hl.
    destruct (test_loop K obj intf pid vm cmd logfile script st 0 0)
      as [[code| |ret execr] e]; cbn [snd counter_values state] in *;
      try exact Hl.
    destruct (after_loop _ _ _ _ _ _ _ _ _) as [code ev].
    cbn [snd counter_values state]. exact Hl.
  - intros pre it post st1 ev1 v st2 ev2 st3 ev3 -> Hok Hthrough Hcv Hcall
           Hcap Hcmd Hprobe.
    pose proof (test_method_at K obj intf pid vm cmd logfile buf name pre it
                  post st st1 Hok Hthrough) as T.
    cbv zeta in T.
    rewrite (loop_body_composed K obj intf pid vm cmd logfile it st1 _ _ _ _ _
               _ _ _ Hcv Hcall Hcmd ltac:(lia)) in T.
    cbv zeta in T. rewrite Hprobe, Hcap, Z.eqb_refl in T.
    cbn [Z.gtb Z.ltb Z.eqb Z.compare fst snd state] in T.
    destruct T as (Hv & Hs & _). rewrite Hv, Hs. split; reflexivity.
  - intros [n|] [|]; reflexivity.
  - intros n st' H. unfold df_fuzz_clean_method in H.
    destruct (free _); [|discriminate].
    destruct (free_nodes _ _). injection H as _ <-. reflexivity.
Qed.

Lemma except_counter_capped_witness :
  0 <= MAX_EXCEPTIONS K0
  /\ -128 <= df_except_counter (catalog_of "Ping" []) < MAX_EXCEPTIONS K0
  /\ Forall (fun c => c <= MAX_EXCEPTIONS K0)
       (counter_values
          (snd (ping_checked (repeat exception_iteration 60)
                             (catalog_of "Ping" []))))
  /\ verdict (ping_checked (repeat exception_iteration 60)
                           (catalog_of "Ping" [])) = Returns 0
  /\ df_except_counter
       (final_state (ping_checked (repeat exception_iteration 60)
                                  (catalog_of "Ping" []))) = 0.
Proof.
  assert (H1 : 0 <= MAX_EXCEPTIONS K0) by (cbn; lia).
  assert (H2 : -128 <= df_except_counter (catalog_of "Ping" [])
               < MAX_EXCEPTIONS K0) by (cbn; lia).
  pose proof (except_counter_capped K0 "/org/example" "org.example.Iface" 4242
                0 (Some "check") true 0 "org.example"
                (repeat exception_iteration 60) (catalog_of "Ping" []) H1 H2)
    as T.
  cbv zeta in T. destruct T as ((Ta & _) & Tb & _).
  split; [exact H1|]. split; [exact H2|]. split; [exact Ta|].
  refine (Tb (repeat exception_iteration 49) exception_iteration
             (repeat exception_iteration 10)
             _ _ _ _ _ _ _ eq_refl _ _ _ _ _ _ _).
  - split; [reflexivity | cbn; unfold INT_MAX; lia].
  - vm_compute. reflexivity.
  - reflexivity.
  - reflexivity.
  - vm_compute. reflexivity.
  - reflexivity.
  - reflexivity.
Defined.

(** C4, as stated, fails. A first method raises 50 exceptions and its
    health check fails on the last of them: the test ends with verdict 4
    and the counter at the cap. The switch to the next method does not
    reset it, and the first exception of the next method takes it to 51,
    above the cap. *)
Lemma except_counter_exceeds_cap :
  let first := ping_checked (repeat exception_iteration 49
                             ++ [exception_then_check_fails])
                            (catalog_of "Ping" []) in
  let st := next_method "Pong" (final_state first) in
  verdict first = Returns 4
  /\ df_except_counter (final_state first) = MAX_EXCEPTIONS K0
  /\ df_except_counter st = 50
  /\ df_except_counter st <> 0
  /\ counter_values (snd (ping_checked [exception_iteration] st)) = [51]
  /\ ~ Forall (fun c => c <= MAX_EXCEPTIONS K0)
         (counter_values (snd (ping_checked [exception_iteration] st))).
Proof.
  cbv zeta.
  assert (E : counter_values
                (snd (ping_checked [exception_iteration]
                        (next_method "Pong"
                           (final_state
                              (ping_checked
                                 (repeat exception_iteration 49
                                  ++ [exception_then_check_fails])
                                 (catalog_of "Ping" [])))))) = [51])
    by (vm_compute; reflexivity).
  split; [vm_compute; reflexivity|].
  split; [vm_compute; reflexivity|].
  split; [vm_compute; reflexivity|].
  split; [vm_compute; discriminate|].
  split; [exact E|].
  rewrite E. intros H. inversion H as [|? ? H1 _]. cbn in H1. lia.
Qed.

(** ** Unsupported signatures *)

Lemma release_vars_app done rest :
  Forall (fun s => var s <> None) done ->
  release_vars (done ++ rest) = map clear done ++ release_vars rest.
Proof.
  induction done as [|s done IH]; intros H; cbn [app map]; [reflexivity|].
  inversion H as [|? ? Hs Hd]; subst. cbn [release_vars].
  destruct (var s); [|contradiction]. rewrite (IH Hd). reflexivity.
Qed.

Lemma list_variants_loop_unsupported name rand x after b : forall done i,
  Forall (fun s => var s <> None) done ->
  all_generate rand b i = true ->
  1 < strlen (sig x) <= INT_MAX ->
  list_variants_loop name rand done (b ++ x :: after) i
  = mk_variants_result [] 1
      (map clear (done ++ b) ++ release_vars (x :: after)) (Some (sig x)).
Proof.
  induction b as [|s b IH]; intros done i Hdone Hgen Hx.
  - cbn [app list_variants_loop].
    rewrite (wrap_int_id (strlen (sig x)))
      by int_range.
    destruct (Z.leb_spec (strlen (sig x)) 0); [lia|].
    destruct (Z.eqb_spec (strlen (sig x)) 1); [lia|].
    rewrite app_nil_r, release_vars_app by exact Hdone. reflexivity.
  - cbn [all_generate] in Hgen. cbn [app list_variants_loop].
    destruct (sig s) as [|c [|c' r]] eqn:Es; try discriminate.
    change (wrap_int (strlen (String c ""))) with 1. cbn [Z.leb Z.eqb Z.compare Pos.eqb].
    destruct (generate_value c (String c "") (rand i)) as [ev|[v|]];
      try discriminate.
    rewrite (IH (done ++ [{| sig := String c ""; var := Some v |}]) (S i));
      [|apply Forall_app; split; [exact Hdone | repeat constructor; discriminate]
       |exact Hgen | exact Hx].
    rewrite <- !app_assoc. cbn [app]. rewrite !map_app. cbn [map].
    replace (clear s) with (clear {| sig := String c ""; var := Some v |})
      by (unfold clear; cbn [sig]; rewrite Es; reflexivity).
    reflexivity.
Qed.

(** C5, as the code has it. When the first slot that is not generated is a
    compound one, that is, a signature longer than one character preceded
    only by slots with a single supported type code whose values are
    delivered, then generation returns 1 (unsupported), the values of all
    slots before it are released, the signal carries its signature, no
    call argument is composed, the test returns 0 after reporting the
    signature once, and flag and signature text are cleared again. *)
Theorem unsupported_signature_skipped :
  forall K obj intf pid vm cmd logfile buf name it post st before x after,
    catalog_ok st ->
    df_unsupported_sig st = 0 ->
    nodes (df_list st) = before ++ x :: after ->
    1 < strlen (sig x) <= INT_MAX ->
    all_generate (it_rand it) before 0 = true ->
    let g := df_fuzz_create_list_variants (it_rand it) st in
    let v := df_fuzz_create_variant K it st in
    let r := df_fuzz_test_method K obj intf pid vm cmd logfile buf name
               (it :: post) st in
    (snd (fst g) = 1
     /\ nodes (df_list (snd g)) = map clear before ++ release_vars (x :: after)
     /\ df_unsupported_sig_str (snd g) = Some (sig x))
    /\ (snd (fst v) = None /\ df_unsupported_sig (snd v) = 1)
    /\ verdict r = Returns 0
    /\ nodes (df_list (final_state r))
       = map clear before ++ release_vars (x :: after)
    /\ df_unsupported_sig (final_state r) = 0
    /\ df_unsupported_sig_str (final_state r) = None
    /\ output r
       = output_before K obj intf pid vm cmd logfile [] st
         ++ [df_debug "  unsupported argument by dfuzzer: " [];
             df_debug "%s\n" [AStr (sig x)];
             df_verbose "%s  %sSKIP%s %s - advanced signatures not yet implemented\n"
               [AAnsi ansi_cr; AAnsi ansi_blue; AAnsi ansi_normal;
                method_name st]].
Proof.
  intros K obj intf pid vm cmd logfile buf name it post st before x after
         Hok Hflag Hnodes Hx Hgen. cbv zeta.
  assert (Eg : df_fuzz_create_list_variants (it_rand it) st
               = ([], 1,
                  {| df_list :=
                       {| df_method_name := df_method_name (df_list st);
                          args := args (df_list st);
                          fuzz_on_str_len := fuzz_on_str_len (df_list st);
                          nodes := map clear before ++ release_vars (x :: after) |};
                     df_unsupported_sig := 0;
                     df_unsupported_sig_str := Some (sig x);
                     df_except_counter := df_except_counter st |})).
  { unfold df_fuzz_create_list_variants. rewrite Hnodes.
    rewrite (list_variants_loop_unsupported _ _ x after before [] 0%nat
               (Forall_nil _) Hgen Hx).
    cbn. rewrite Hflag. reflexivity. }
  assert (Ev : df_fuzz_create_variant K it st
               = ([], None,
                  {| df_list :=
                       {| df_method_name := df_method_name (df_list st);
                          args := args (df_list st);
                          fuzz_on_str_len := fuzz_on_str_len (df_list st);
                          nodes := map clear before ++ release_vars (x :: after) |};
                     df_unsupported_sig := 1;
                     df_unsupported_sig_str := Some (sig x);
                     df_except_counter := df_except_counter st |})).
  { unfold df_fuzz_create_variant. rewrite Eg. reflexivity. }
  rewrite Eg, Ev. cbn [fst snd df_list nodes df_unsupported_sig
                       df_unsupported_sig_str].
  split; [repeat split|]. split; [repeat split|].
  pose proof (test_method_at K obj intf pid vm cmd logfile buf name [] it post
                st st Hok eq_refl) as T.
  cbv zeta in T. unfold loop_body in T. rewrite Ev in T.
  cbn [df_unsupported_sig Z.eqb negb fst snd state events df_list nodes
       df_unsupported_sig_str method_name df_method_name] in T.
  destruct T as (Hv & Hs & Ho).
  change ([] ++ it :: post) with (it :: post) in *.
  rewrite Hv, Hs, Ho. repeat split.
Qed.

Lemma unsupported_signature_skipped_witness :
  df_unsupported_sig (catalog_of "SetAll" ["s"; "i"; "a{sv}"; "u"]) = 0
  /\ 1 < strlen "a{sv}" <= INT_MAX
  /\ verdict (test_once "SetAll" ["s"; "i"; "a{sv}"; "u"]
                (iteration_of (Response "()") (cmd_status 0) alive))
     = Returns 0
  /\ map var (nodes (df_list (final_state
        (test_once "SetAll" ["s"; "i"; "a{sv}"; "u"]
           (iteration_of (Response "()") (cmd_status 0) alive)))))
     = [None; None; None; None]
  /\ df_unsupported_sig (final_state
        (test_once "SetAll" ["s"; "i"; "a{sv}"; "u"]
           (iteration_of (Response "()") (cmd_status 0) alive))) = 0.
Proof.
  assert (H1 : catalog_ok (catalog_of "SetAll" ["s"; "i"; "a{sv}"; "u"]))
    by (split; [reflexivity | cbn; unfold INT_MAX; lia]).
  assert (H2 : df_unsupported_sig (catalog_of "SetAll" ["s"; "i"; "a{sv}"; "u"])
               = 0) by reflexivity.
  assert (H3 : 1 < strlen "a{sv}" <= INT_MAX)
    by (cbn; unfold INT_MAX; lia).
  pose proof (unsupported_signature_skipped K0 "/org/example"
                "org.example.Iface" 4242 0 None true 0 "org.example"
                (iteration_of (Response "()") (cmd_status 0) alive) []
                (catalog_of "SetAll" ["s"; "i"; "a{sv}"; "u"])
                [mk_sig "s" None; mk_sig "i" None] (mk_sig "a{sv}" None)
                [mk_sig "u" None] H1 H2 eq_refl H3 eq_refl) as T.
  cbv zeta in T. destruct T as (_ & _ & Tv & Tn & Tf & _).
  split; [exact H2|]. split; [exact H3|]. split; [exact Tv|].
  split; [|exact Tf].
  unfold test_once. rewrite Tn. reflexivity.
Defined.

(** C5, as stated, fails: in the method (s, ai) the compound signature
    comes second; when the string generator fails on the first slot,
    generation returns -1, not 1, no signal is set, and the test ends
    with the internal-error verdict -1 instead of the skip. The same
    happens, with a generator that never fails, when the slot in front of
    the compound one carries an unknown type code. *)
Lemma unsupported_signature_not_reached :
  let st := catalog_of "Send" ["s"; "ai"] in
  let g := df_fuzz_create_list_variants (it_rand iteration_string_fails) st in
  Exists (fun sg => 1 < strlen sg) (signatures st)
  /\ snd (fst g) = -1
  /\ df_unsupported_sig_str (snd g) = None
  /\ verdict (test_once "Send" ["s"; "ai"] iteration_string_fails) = Returns (-1)
  /\ verdict (test_once "Send" ["e"; "ai"]
                (iteration_of (Response "()") (cmd_status 0) alive))
     = Returns (-1).
Proof.
  cbv zeta. split.
  - right. left. cbn. lia.
  - repeat split.
Qed.

(** ** The void contract *)

Lemma list_variants_loop_events name rand s : forall before i,
  let r := list_variants_loop name rand before s i in
  vr_ret r = -1 \/ vr_ret r = 1 \/ (vr_ret r = 0 /\ vr_events r = []).
Proof.
  induction s as [|x next IH]; intros before i; cbn [list_variants_loop].
  - right; right. split; reflexivity.
  - destruct (wrap_int (strlen (sig x)) <=? 0); [left; reflexivity|].
    destruct (wrap_int (strlen (sig x)) =? 1); [|right; left; reflexivity].
    destruct (sig x) as [|c r]; [left; reflexivity|].
    destruct (generate_value c (String c r) (rand i)) as [ev|[v|]];
      [left; reflexivity | apply IH | left; reflexivity].
Qed.

Lemma create_fmt_string_events st n :
  let r := df_fuzz_create_fmt_string st n in
  snd (fst r) = -1 \/ (snd (fst r) = 0 /\ fst (fst r) = []).
Proof.
  unfold df_fuzz_create_fmt_string.
  destruct (fmt_loop _ _ _ _) as [[total|] written]; [|left; reflexivity].
  destruct (total >? wrap_int (n - 3)); [left | right; split]; reflexivity.
Qed.

(** Composing a call argument produces no output. *)
Lemma create_variant_silent K it st ev v st' :
  df_fuzz_create_variant K it st = (ev, Some v, st') -> ev = [].
Proof.
  unfold df_fuzz_create_variant, df_fuzz_create_list_variants.
  pose proof (list_variants_loop_events (df_method_name (df_list st))
                (it_rand it) (nodes (df_list st)) [] 0%nat) as Hl.
  cbv zeta in Hl.
  destruct (list_variants_loop _ _ _ _ _) as [ev1 ret ns u].
  cbn [vr_ret vr_events vr_nodes vr_unsupported] in *.
  destruct Hl as [->|[->|[-> ->]]]; cbn [Z.eqb]; try discriminate.
  destruct (negb (it_malloc_fmt_ok it)); [discriminate|].
  match goal with
  | |- context [df_fuzz_create_fmt_string ?s ?n] =>
      pose proof (create_fmt_string_events s n) as Hf;
      destruct (df_fuzz_create_fmt_string s n) as [[ev2 r] fmt]
  end.
  cbn [fst snd] in Hf. destruct Hf as [->|[-> ->]]; cbn [Z.eqb];
    [discriminate|].
  destruct (negb (it_ffi_prep_ok it)); [discriminate|].
  destruct (it_still_floating it); [discriminate|].
  intros H; injection H as <- _ _. reflexivity.
Qed.

(** A health check that ran prints nothing. *)
Lemma exec_cmd_check_silent cmd e ev execr :
  df_exec_cmd_check cmd e = (ev, execr) -> 0 <= execr -> ev = [].
Proof.
  unfold df_exec_cmd_check. destruct cmd as [c|].
  - destruct (negb (open_devnull_ok e)).
    { intros H; injection H as <- <-. lia. }
    repeat match goal with
           | |- context [if ?b then _ else _] => destruct b
           end; intros H; injection H as <- _; reflexivity.
  - intros H; injection H as <- _; reflexivity.
Qed.

Lemma run_through_frame K obj intf pid vm cmd logfile pre : forall st st1,
  run_through K obj intf pid vm cmd logfile pre st = Some st1 ->
  same_catalog st st1.
Proof.
  induction pre as [|it pre IH]; intros st st1 H; cbn [run_through] in H.
  - injection H as <-. apply same_catalog_refl.
  - pose proof (loop_body_frame K obj intf pid vm cmd logfile it st) as Hb.
    destruct (loop_body K obj intf pid vm cmd logfile it st)
      as [[code| |r x|r x] e]; try discriminate.
    cbn [snd] in Hb. eapply same_catalog_trans; [exact Hb | apply IH, H].
Qed.

(** C8, as the code has it. When a method declared void answers with
    something else than the empty tuple, and the health check then either
    fails or passes with the target alive, the verdict is 2. The failure
    message is printed by the invocation itself, right after the call; no
    log record of the argument values is written for this failure, neither
    before the message nor after it: what follows contains no FULL_LOG
    output. *)
Theorem void_violation_verdict :
  forall K obj intf pid vm cmd logfile buf name pre it post st st1 ev1 v st2
         fmt ev3 execr,
    catalog_ok st ->
    run_through K obj intf pid vm cmd logfile pre st = Some st1 ->
    df_fuzz_create_variant K it st1 = (ev1, Some v, st2) ->
    vm <> 0 ->
    it_reply it = Response fmt ->
    fmt <> "()" ->
    df_exec_cmd_check cmd (it_cmd it) = (ev3, execr) ->
    0 < execr \/ (execr = 0 /\ df_check_if_exited pid (it_proc it) = Some 1) ->
    let r := df_fuzz_test_method K obj intf pid vm cmd logfile buf name
               (pre ++ it :: post) st in
    verdict r = Returns 2
    /\ exists tail,
         output r
         = output_before K obj intf pid vm cmd logfile pre st
           ++ [g_dbus_proxy_call_sync (df_method_name (df_list st)) v;
               void_failure (method_name st) fmt]
           ++ tail
         /\ existsb is_FULL_LOG tail = false.
Proof.
  intros K obj intf pid vm cmd logfile buf name pre it post st st1 ev1 v st2
         fmt ev3 execr Hok Hthrough Hcv Hvm Hreply Hfmt Hcmd Hcheck.
  cbv zeta.
  assert (Hx : 0 <= execr) by (destruct Hcheck as [H|[H _]]; lia).
  pose proof (create_variant_silent _ _ _ _ _ _ Hcv) as ->.
  pose proof (exec_cmd_check_silent _ _ _ _ Hcmd Hx) as ->.
  assert (Hname : df_method_name (df_list st2) = df_method_name (df_list st)).
  { pose proof (run_through_frame _ _ _ _ _ _ _ _ _ _ Hthrough) as (H1 & _).
    pose proof (create_variant_frame K it st1) as ((H2 & _) & _).
    rewrite Hcv in H2. cbn [snd] in H2. congruence. }
  assert (Hcall : df_fuzz_call_method v vm (it_reply it) st2
                  = ([g_dbus_proxy_call_sync (df_method_name (df_list st)) v;
                      void_failure (method_name st) fmt], 1, st2)).
  { unfold df_fuzz_call_method, void_failure, method_name.
    rewrite Hreply, Hname.
    destruct (Z.eqb_spec vm 0); [contradiction|].
    destruct (strcmp_eq fmt "()") eqn:E;
      [apply strcmp_eq_true in E; contradiction|].
    reflexivity. }
  pose proof (test_method_at K obj intf pid vm cmd logfile buf name pre it post
                st st1 Hok Hthrough) as T.
  cbv zeta in T.
  rewrite (loop_body_composed K obj intf pid vm cmd logfile it st1 _ _ _ _ _ _
             _ _ Hcv Hcall Hcmd Hx) in T.
  cbv zeta in T.
  destruct Hcheck as [Hpos|[-> Hprobe]].
  - destruct (Z.gtb_spec execr 0); [|lia].
    cbn [fst snd state events] in T. destruct T as (Hv & _ & Ho).
    split; [rewrite Hv; reflexivity|].
    eexists. rewrite Ho. cbn [app]. split; [reflexivity|].
    unfold after_loop. cbn [Z.eqb negb orb app snd].
    destruct (negb (buf =? 0)), cmd; reflexivity.
  - rewrite Hprobe in T.
    cbn [Z.gtb Z.ltb Z.eqb Z.compare fst snd state events] in T.
    destruct T as (Hv & _ & Ho).
    split; [rewrite Hv; reflexivity|].
    eexists. rewrite Ho. cbn [app]. split; [reflexivity|].
    unfold after_loop. cbn [Z.eqb negb orb app snd].
    destruct (negb (buf =? 0)), cmd; reflexivity.
Qed.

Lemma void_violation_verdict_witness :
  (1 <> 0) /\ ("(s)" <> "()")
  /\ (0 < 0 \/ (0 = 0 /\ df_check_if_exited 4242 alive = Some 1))
  /\ verdict void_test = Returns 2.
Proof.
  assert (H1 : (1 <> 0)) by lia.
  assert (H2 : "(s)" <> "()") by discriminate.
  assert (H3 : 0 < 0 \/ (0 = 0 /\ df_check_if_exited 4242 alive = Some 1))
    by (right; split; reflexivity).
  split; [exact H1|]. split; [exact H2|]. split; [exact H3|].
  refine (proj1 (void_violation_verdict K0 "/org/example" "org.example.Iface"
                   4242 1 None true 0 "org.example"
                   [iteration_of (Response "()") (cmd_status 0) alive]
                   (iteration_of (Response "(s)") (cmd_status 0) alive) []
                   (catalog_of "SetName" ["s"; "i"])
                   _ _ _ _ "(s)" _ 0 _ _ _ H1 eq_refl H2 _ H3)).
  - split; [reflexivity | cbn; unfold INT_MAX; lia].
  - vm_compute. reflexivity.
  - vm_compute. reflexivity.
  - reflexivity.
Defined.

(** C8, as stated, fails in its second half: the void method SetName(s, i)
    answers "(s)" in the first iteration, with the log file open. The
    verdict is 2 and the failure message is printed, but the whole output
    of the test holds no FULL_LOG call: no log record precedes the
    message. And when the target is found exited right after such an
    answer, the verdict is 1, not 2. *)
Lemma void_violation_without_log_record :
  verdict void_test_once = Returns 2
  /\ In (void_failure (AStr "SetName") "(s)") (output void_test_once)
  /\ existsb is_FULL_LOG (output void_test_once) = false
  /\ ~ (exists before after,
           output void_test_once
           = before ++ void_failure (AStr "SetName") "(s)" :: after
           /\ existsb is_FULL_LOG before = true)
  /\ verdict (ping_once 1 None
                (iteration_of (Response "(s)") (cmd_status 0)
                              (proc_of (FopenFails ENOENT))))
     = Returns 1.
Proof.
  assert (E : existsb is_FULL_LOG (output void_test_once) = false)
    by (vm_compute; reflexivity).
  split; [vm_compute; reflexivity|].
  split; [vm_compute; auto 10|].
  split; [exact E|].
  split; [|vm_compute; reflexivity].
  intros (before & after & Ho & Hb).
  rewrite Ho, existsb_app, Hb in E. discriminate E.
Qed.

(** * Further properties *)

(** ** The health check *)

Lemma WEXITSTATUS_byte status : WEXITSTATUS status = (status / 256) mod 256.
Proof.
  unfold WEXITSTATUS. rewrite Z.shiftr_land.
  change (Z.shiftr 65280 8) with (Z.ones 8).
  rewrite Z.land_ones by lia. rewrite Z.shiftr_div_pow2 by lia.
  reflexivity.
Qed.

(** X1. df_exec_cmd_check returns -1 or an exit status between 0 and 255.
    Without a command it returns 0 and runs nothing; with a command, when
    every system call around it succeeds and system() does not return -1,
    it returns the second byte of the wait status, so a command that
    exits with code k is reported as k. *)
Theorem exec_cmd_check_status :
  forall (cmd : option string) (e : cmd_env),
    let r := snd (df_exec_cmd_check cmd e) in
    (r = -1 \/ 0 <= r <= 255)
    /\ (cmd = None -> df_exec_cmd_check cmd e = ([], 0))
    /\ (cmd <> None -> syscalls_ok e = true -> system_status e <> -1 ->
        r = (system_status e / 256) mod 256)
    /\ (cmd <> None -> syscalls_ok e = false -> r = -1)
    /\ (forall k sig_bits,
           cmd <> None -> syscalls_ok e = true ->
           0 <= k <= 255 -> 0 <= sig_bits <= 255 ->
           system_status e = k * 256 + sig_bits -> r = k).
Proof.
  intros cmd e. cbv zeta.
  assert (Hbyte : forall s, 0 <= (s / 256) mod 256 <= 255)
    by (intros s; pose proof (Z.mod_pos_bound (s / 256) 256 ltac:(lia)); lia).
  assert (Hok : cmd <> None -> syscalls_ok e = true -> system_status e <> -1 ->
                snd (df_exec_cmd_check cmd e) = (system_status e / 256) mod 256).
  { intros Hc Hs Hn. destruct cmd as [c|]; [|contradiction].
    unfold syscalls_ok in Hs. unfold df_exec_cmd_check.
    destruct (open_devnull_ok e), (dup_stdout_ok e), (dup_stderr_ok e),
      (dup2_stdout_ok e), (dup2_stderr_ok e), (restore_stdout_ok e),
      (restore_stderr_ok e); try discriminate Hs. cbn [negb].
    destruct (Z.eqb_spec (system_status e) (-1)); [contradiction|].
    cbn [snd]. apply WEXITSTATUS_byte. }
  split; [|split; [|split; [|split]]].
  - destruct cmd as [c|]; [|right; cbn; lia].
    unfold df_exec_cmd_check.
    repeat match goal with
           | |- context [if negb ?b then _ else _] => destruct b; cbn [negb]
           end; try (left; reflexivity).
    destruct (system_status e =? -1) eqn:E; cbn [snd].
    + left. apply Z.eqb_eq, E.
    + right. rewrite WEXITSTATUS_byte. apply Hbyte.
  - intros ->. reflexivity.
  - exact Hok.
  - intros Hc Hs. destruct cmd as [c|]; [|contradiction].
    unfold syscalls_ok in Hs. unfold df_exec_cmd_check.
    destruct (open_devnull_ok e), (dup_stdout_ok e), (dup_stderr_ok e),
      (dup2_stdout_ok e), (dup2_stderr_ok e), (restore_stdout_ok e),
      (restore_stderr_ok e); try discriminate Hs; reflexivity.
  - intros k sig_bits Hc Hs Hk Hsig Hst.
    rewrite Hok by (try assumption; lia). rewrite Hst.
    replace (k * 256 + sig_bits) with (sig_bits + k * 256) by lia.
    rewrite Z.div_add by lia. rewrite (Z.div_small sig_bits) by lia.
    rewrite Z.mod_small; lia.
Qed.

(** ** Building and releasing the catalog *)

Lemma add_method_arg_nodes c st :
  let st' := snd (df_fuzz_add_method_arg (ac_signature c) (ac_malloc_ok c)
                                         (ac_strdup_ok c) st) in
  nodes (df_list st')
  = nodes (df_list st) ++ map (fun sg => mk_sig sg None) (appends c)
  /\ args (df_list st')
     = (if allocates c then wrap_int (args (df_list st) + 1)
        else args (df_list st))
  /\ df_method_name (df_list st') = df_method_name (df_list st).
Proof.
  destruct c as [[sg|] [|] [|]]; cbn; rewrite ?app_nil_r; repeat split.
Qed.

(** X2. The list keeps the order of the calls: after any sequence of
    df_fuzz_add_method_arg calls it holds the earlier nodes followed by one
    node, with an empty value, for every call that had a signature and
    whose two allocations succeeded, in call order. The argument count
    however counts every call whose first allocation succeeded: while it
    stays in the [int] range it is the old count plus the number of those
    calls, so a failed strdup leaves it above the length of the list. *)
Theorem add_method_args_order :
  forall (calls : list add_call) (st : fuzz_state),
    INT_MIN <= args (df_list st) ->
    args (df_list st) + Z.of_nat (List.length (filter allocates calls))
      <= INT_MAX ->
    let st' := add_method_args calls st in
    nodes (df_list st')
    = nodes (df_list st)
      ++ map (fun sg => mk_sig sg None) (flat_map appends calls)
    /\ df_list_args_count st'
       = df_list_args_count st
         + Z.of_nat (List.length (filter allocates calls))
    /\ df_method_name (df_list st') = df_method_name (df_list st).
Proof.
  unfold df_list_args_count.
  induction calls as [|c calls IH]; intros st Hmin Hmax; cbv zeta.
  - cbn. rewrite app_nil_r. repeat split. lia.
  - cbn [add_method_args flat_map filter] in *.
    pose proof (add_method_arg_nodes c st) as (Hn & Ha & Hm). cbv zeta in *.
    set (st1 := snd (df_fuzz_add_method_arg (ac_signature c) (ac_malloc_ok c)
                                            (ac_strdup_ok c) st)) in *.
    assert (Ha' : args (df_list st1)
                  = args (df_list st) + (if allocates c then 1 else 0)).
    { rewrite Ha. destruct (allocates c); [|lia].
      cbn [List.length] in Hmax. apply wrap_int_id. int_range. }
    destruct (IH st1) as (IH1 & IH2 & IH3).
    + rewrite Ha'. destruct (allocates c); lia.
    + rewrite Ha'. destruct (allocates c); cbn [List.length] in Hmax; lia.
    + rewrite IH1, IH2, IH3, Hn, Hm, Ha', map_app, app_assoc.
      repeat split. destruct (allocates c); cbn [List.length]; lia.
Qed.

Lemma add_method_args_order_witness :
  INT_MIN <= args (df_list (catalog_of "Set" []))
  /\ map sig
       (nodes (df_list
          (add_method_args
             [mk_add_call (Some "s") true true; mk_add_call None true true;
              mk_add_call (Some "i") true false; mk_add_call (Some "u") true true]
             (catalog_of "Set" []))))
     = ["s"; "u"]
  /\ df_list_args_count
       (add_method_args
          [mk_add_call (Some "s") true true; mk_add_call None true true;
           mk_add_call (Some "i") true false; mk_add_call (Some "u") true true]
          (catalog_of "Set" [])) = 3.
Proof.
  assert (H1 : INT_MIN <= args (df_list (catalog_of "Set" [])))
    by (cbn; unfold INT_MIN; lia).
  pose proof (add_method_args_order
                [mk_add_call (Some "s") true true; mk_add_call None true true;
                 mk_add_call (Some "i") true false;
                 mk_add_call (Some "u") true true]
                (catalog_of "Set" []) H1
                ltac:(cbn; unfold INT_MAX; lia)) as T.
  cbv zeta in T. destruct T as (T1 & T2 & _).
  split; [exact H1|]. split; [rewrite T1 | rewrite T2]; reflexivity.
Defined.

Lemma debug_signatures_short s : forall j nargs,
  0 <= j -> j + Z.of_nat (List.length s) < nargs -> nargs <= INT_MAX ->
  snd (debug_signatures s j nargs) = false
  /\ forallb (fun e => negb (is_call e)) (fst (debug_signatures s j nargs))
     = true.
Proof.
  induction s as [|x s IH]; intros j nargs Hj Hlt Hmax;
    cbn [debug_signatures List.length] in *.
  - destruct (Z.ltb_spec j nargs); [split; reflexivity | lia].
  - destruct (Z.ltb_spec j nargs); [|lia].
    rewrite (wrap_int_id (j + 1)) by int_range.
    specialize (IH (j + 1) nargs ltac:(lia) ltac:(lia) Hmax).
    destruct (debug_signatures s (j + 1) nargs) as [ev ok].
    cbn [fst snd forallb is_call negb andb] in *. exact IH.
Qed.

(** X3. When the argument count exceeds the number of nodes in the list
    (as after a failed strdup in df_fuzz_add_method_arg), the debug loop at
    the head of df_fuzz_test_method walks off the end of the list: the
    test ends there, before anything is generated or called, and the
    module state is untouched. *)
Theorem test_method_count_mismatch :
  forall K obj intf pid vm cmd logfile buf name script st,
    Z.of_nat (List.length (nodes (df_list st))) < args (df_list st) ->
    args (df_list st) <= INT_MAX ->
    let r := df_fuzz_test_method K obj intf pid vm cmd logfile buf name
               script st in
    verdict r = Aborts
    /\ final_state r = st
    /\ counter_values (snd r) = []
    /\ existsb is_call (output r) = false.
Proof.
  intros K obj intf pid vm cmd logfile buf name script st Hlt Hmax. cbv zeta.
  unfold verdict, final_state, output, df_fuzz_test_method.
  pose proof (debug_signatures_short (nodes (df_list st)) 0 (args (df_list st))
                ltac:(lia) ltac:(lia) Hmax) as [Hok Hev].
  destruct (debug_signatures _ _ _) as [dbg ok]. cbn [fst snd] in *. subst ok.
  cbn [negb fst snd state events counter_values]. repeat split.
  cbn [app existsb is_call orb].
  clear -Hev. induction dbg as [|e dbg IH]; [reflexivity|].
  cbn [forallb existsb] in *. apply andb_prop in Hev as [He Hd].
  rewrite (IH Hd). destruct (is_call e); [discriminate He | reflexivity].
Qed.

Lemma test_method_count_mismatch_witness :
  Z.of_nat (List.length (nodes (df_list catalog_strdup_failed)))
    < args (df_list catalog_strdup_failed)
  /\ args (df_list catalog_strdup_failed) <= INT_MAX
  /\ verdict (df_fuzz_test_method K0 "/org/example" "org.example.Iface" 4242 0
                None true 0 "org.example"
                [iteration_of (Response "()") (cmd_status 0) alive]
                catalog_strdup_failed) = Aborts.
Proof.
  assert (H1 : Z.of_nat (List.length (nodes (df_list catalog_strdup_failed)))
               < args (df_list catalog_strdup_failed)) by (cbn; lia).
  assert (H2 : args (df_list catalog_strdup_failed) <= INT_MAX)
    by (cbn; unfold INT_MAX; lia).
  split; [exact H1|]. split; [exact H2|].
  exact (proj1 (test_method_count_mismatch K0 "/org/example" "org.example.Iface"
                  4242 0 None true 0 "org.example"
                  [iteration_of (Response "()") (cmd_status 0) alive]
                  catalog_strdup_failed H1 H2)).
Defined.

(** X4. Release, add, release is safe: from any state whose method name
    was not already released, df_fuzz_clean_method succeeds; after a
    following df_fuzz_add_method with a name, whether its strdup succeeds
    or not, the next release succeeds too and finds no node. After a
    following df_fuzz_add_method(NULL), which returns -1 and changes
    nothing, the next release frees the old method name again. *)
Theorem clean_add_clean :
  forall (st : fuzz_state),
    df_method_name (df_list st) <> Freed ->
    exists n st1,
      df_fuzz_clean_method st = Done (n, st1)
      /\ (forall name strdup_ok,
             exists st3,
               df_fuzz_clean_method
                 (snd (df_fuzz_add_method (Some name) strdup_ok st1))
               = Done (0%nat, st3)
               /\ nodes (df_list st3) = [])
      /\ (forall strdup_ok,
             df_method_name (df_list st) <> NULL ->
             df_fuzz_clean_method (snd (df_fuzz_add_method None strdup_ok st1))
             = DoubleFree).
Proof.
  intros st Hname. do 2 eexists.
  split; [apply clean_method_done, Hname|]. split.
  - intros name [|]; eexists; (split; [cbn; reflexivity | reflexivity]).
  - intros ok Hn. cbn. destruct (df_method_name (df_list st));
      [contradiction | reflexivity | contradiction].
Qed.

Lemma clean_add_clean_witness :
  df_method_name (df_list (catalog_of "SetName" ["s"; "i"])) <> Freed
  /\ exists n st1 st3,
       df_fuzz_clean_method (catalog_of "SetName" ["s"; "i"]) = Done (n, st1)
       /\ df_fuzz_clean_method
            (snd (df_fuzz_add_method (Some "Ping") true st1))
          = Done (0%nat, st3).
Proof.
  assert (H : df_method_name (df_list (catalog_of "SetName" ["s"; "i"])) <> Freed)
    by (cbn; discriminate).
  split; [exact H|].
  destruct (clean_add_clean (catalog_of "SetName" ["s"; "i"]) H)
    as (n & st1 & H1 & H2 & _).
  destruct (H2 "Ping" true) as (st3 & H3 & _).
  exists n, st1, st3. split; [exact H1 | exact H3].
Defined.

(** ** Value generation and composition *)

Lemma generate_value_typed c sg d v :
  generate_value c sg d = SlotVar (Some v) -> gv_type v = sg.
Proof.
  unfold generate_value, g_variant_new.
  repeat match goal with
         | |- context [match ?x with _ => _ end] => destruct x
         end; intros H; try discriminate H; injection H as <-; reflexivity.
Qed.

(** The walk returned 0: every slot walked holds a typed value, the
    signatures are the old ones and no signal was raised. *)
Lemma list_variants_loop_zero name rand s : forall before i,
  let r := list_variants_loop name rand before s i in
  vr_ret r = 0 ->
  vr_unsupported r = None
  /\ exists s', vr_nodes r = before ++ s'
                /\ map sig s' = map sig s /\ Forall typed_value s'.
Proof.
  induction s as [|x next IH]; intros before i; cbn [list_variants_loop].
  - cbn. intros _. split; [reflexivity|]. exists []. rewrite app_nil_r.
    repeat split. constructor.
  - destruct (wrap_int (strlen (sig x)) <=? 0); [discriminate|].
    destruct (wrap_int (strlen (sig x)) =? 1); [|discriminate].
    destruct (sig x) as [|c r] eqn:Es; [discriminate|].
    destruct (generate_value c (String c r) (rand i)) as [ev|[v|]] eqn:Eg;
      try discriminate.
    intros H. destruct (IH _ _ H) as (Hu & s' & Hn & Hs & Hf).
    split; [exact Hu|].
    exists ({| sig := String c r; var := Some v |} :: s').
    rewrite Hn, <- app_assoc. cbn [app map sig]. rewrite Hs, Es.
    repeat split. constructor; [|exact Hf].
    exists v. cbn. split; [reflexivity|].
    apply (generate_value_typed _ _ _ _ Eg).
Qed.

Lemma list_variants_loop_generates name rand s : forall before i,
  all_generate rand s i = true ->
  let r := list_variants_loop name rand before s i in
  vr_ret r = 0 /\ vr_events r = [].
Proof.
  induction s as [|x next IH]; intros before i Hg; cbn [list_variants_loop].
  - split; reflexivity.
  - cbn [all_generate] in Hg.
    destruct (sig x) as [|c [|c' r]] eqn:Es; try discriminate.
    change (wrap_int (strlen (String c ""))) with 1.
    cbn [Z.leb Z.eqb Z.compare Pos.eqb].
    destruct (generate_value c (String c "") (rand i)) as [ev|[v|]];
      try discriminate.
    apply IH, Hg.
Qed.

Lemma list_variants_loop_signal name rand s : forall before i,
  let r := list_variants_loop name rand before s i in
  (vr_ret r = 1 /\ exists x, In x s /\ vr_unsupported r = Some (sig x))
  \/ (vr_ret r <> 1 /\ vr_unsupported r = None).
Proof.
  induction s as [|x next IH]; intros before i; cbn [list_variants_loop].
  - right. split; [discriminate | reflexivity].
  - destruct (wrap_int (strlen (sig x)) <=? 0);
      [right; split; [discriminate | reflexivity]|].
    destruct (wrap_int (strlen (sig x)) =? 1).
    + destruct (sig x) as [|c r];
        [right; split; [discriminate | reflexivity]|].
      destruct (generate_value c (String c r) (rand i)) as [ev|[v|]];
        try (right; split; [discriminate | reflexivity]).
      destruct (IH (before ++ [{| sig := String c r; var := Some v |}]) (S i))
        as [(H1 & y & Hy & H2)|H]; [left | right; exact H].
      split; [exact H1|]. exists y. split; [right; exact Hy | exact H2].
    + left. split; [reflexivity|]. exists x. split; [left|]; reflexivity.
Qed.

(** X5. df_fuzz_create_list_variants returns -1, 0 or 1 and never changes
    a signature. When every slot has one supported type code and its
    generator call succeeds, it returns 0 without output. Whenever it
    returns 0, every slot holds a value whose type is the slot's
    signature and the unsupported signal is untouched. The signal text is
    written exactly when it returns 1, and then names a signature of the
    list. *)
Theorem create_list_variants_outcomes :
  forall (rand : nat -> rand_draws) (st : fuzz_state),
    let g := df_fuzz_create_list_variants rand st in
    let ret := snd (fst g) in
    (ret = -1 \/ ret = 0 \/ ret = 1)
    /\ signatures (snd g) = signatures st
    /\ (all_generate rand (nodes (df_list st)) 0 = true ->
        ret = 0 /\ fst (fst g) = [])
    /\ (ret = 0 ->
        Forall typed_value (nodes (df_list (snd g)))
        /\ df_unsupported_sig_str (snd g) = df_unsupported_sig_str st)
    /\ (ret = 1 ->
        exists sg, In sg (signatures st)
                   /\ df_unsupported_sig_str (snd g) = Some sg)
    /\ (ret <> 1 ->
        df_unsupported_sig_str (snd g) = df_unsupported_sig_str st).
Proof.
  intros rand st. cbv zeta.
  pose proof (create_list_variants_frame rand st) as ((_ & _ & _ & Hsig) & _).
  unfold df_fuzz_create_list_variants in *. cbn [fst snd] in *.
  pose proof (list_variants_loop_events (df_method_name (df_list st)) rand
                (nodes (df_list st)) [] 0%nat) as He.
  pose proof (list_variants_loop_zero (df_method_name (df_list st)) rand
                (nodes (df_list st)) [] 0%nat) as Hz.
  pose proof (list_variants_loop_generates (df_method_name (df_list st)) rand
                (nodes (df_list st)) [] 0%nat) as Hg.
  pose proof (list_variants_loop_signal (df_method_name (df_list st)) rand
                (nodes (df_list st)) [] 0%nat) as Hs.
  cbv zeta in *.
  destruct (list_variants_loop _ _ _ _ _) as [ev ret ns u].
  cbn [vr_ret vr_events vr_nodes vr_unsupported] in *.
  split; [destruct He as [H|[H|[H _]]]; auto|].
  split; [exact Hsig|].
  split; [exact Hg|].
  split; [|split].
  - intros H0. destruct (Hz H0) as (-> & s' & -> & _ & Hf).
    cbn. split; [exact Hf | reflexivity].
  - intros H1. destruct Hs as [(_ & x & Hx & ->)|[Hn _]]; [|contradiction].
    exists (sig x). split; [apply in_map, Hx | reflexivity].
  - intros Hn. destruct Hs as [[H1 _]|[_ ->]]; [contradiction | reflexivity].
Qed.

Lemma create_list_variants_zero rand st ev st1 :
  df_fuzz_create_list_variants rand st = (ev, 0, st1) ->
  ev = []
  /\ Forall typed_value (nodes (df_list st1))
  /\ same_catalog st st1
  /\ df_unsupported_sig st1 = df_unsupported_sig st
  /\ df_unsupported_sig_str st1 = df_unsupported_sig_str st
  /\ df_except_counter st1 = df_except_counter st.
Proof.
  intros H.
  pose proof (create_list_variants_frame rand st) as (Hc & Hx & Hu).
  rewrite H in Hc, Hx, Hu. cbn [snd] in *.
  unfold df_fuzz_create_list_variants in H.
  pose proof (list_variants_loop_events (df_method_name (df_list st)) rand
                (nodes (df_list st)) [] 0%nat) as He.
  pose proof (list_variants_loop_zero (df_method_name (df_list st)) rand
                (nodes (df_list st)) [] 0%nat) as Hz.
  cbv zeta in *.
  destruct (list_variants_loop _ _ _ _ _) as [ev' ret ns u].
  cbn [vr_ret vr_events vr_nodes vr_unsupported] in *.
  injection H as <- -> <-.
  destruct (Hz eq_refl) as (-> & s' & -> & _ & Hf).
  destruct He as [He|[He|[_ ->]]]; try discriminate He.
  cbn. repeat split; try assumption; apply Hc.
Qed.

Lemma tuple_items_all l :
  Forall typed_value l ->
  Forall2 slot_value l
    (flat_map (fun s => match var s with
                        | Some v => [gv_value v]
                        | None => []
                        end) l).
Proof.
  induction 1 as [|s l (v & Hv & Ht) _ IH]; cbn [flat_map]; [constructor|].
  rewrite Hv. cbn [app]. constructor; [|exact IH].
  exists v. repeat split; assumption.
Qed.

(** X6. When df_fuzz_create_variant delivers a call argument for a well
    formed catalog, it does so without output and without touching the
    signal; the argument is a tuple whose type string is the signatures
    in list order between parentheses, and whose elements are the values
    of the slots, one per argument and in list order, each of the type of
    its slot. *)
Theorem create_variant_tuple :
  forall K it st ev v st',
    catalog_ok st ->
    df_fuzz_create_variant K it st = (ev, Some v, st') ->
    ev = []
    /\ gv_type v = tuple_type st
    /\ same_catalog st st'
    /\ df_unsupported_sig st' = df_unsupported_sig st
    /\ df_unsupported_sig_str st' = df_unsupported_sig_str st
    /\ exists items,
         gv_value v = VTuple items
         /\ Forall2 slot_value (nodes (df_list st')) items
         /\ Z.of_nat (List.length items) = args (df_list st).
Proof.
  intros K it st ev v st' [Hargs _] H.
  pose proof (create_variant_silent _ _ _ _ _ _ H) as ->.
  unfold df_fuzz_create_variant in H.
  destruct (df_fuzz_create_list_variants (it_rand it) st) as [[ev1 ret] st1]
    eqn:Eg.
  destruct (Z.eqb_spec ret (-1)); [discriminate|].
  destruct (Z.eqb_spec ret 1); [discriminate|].
  assert (ret = 0) as ->.
  { pose proof (list_variants_loop_events (df_method_name (df_list st))
                  (it_rand it) (nodes (df_list st)) [] 0%nat) as He.
    unfold df_fuzz_create_list_variants in Eg. cbv zeta in He.
    destruct (list_variants_loop _ _ _ _ _) as [e r ns u].
    cbn [vr_ret vr_events] in *. injection Eg as _ <- _.
    destruct He as [?|[?|[? _]]]; [contradiction | contradiction | assumption]. }
  destruct (create_list_variants_zero _ _ _ _ Eg)
    as (_ & Hf & Hc & Hu & Hus & _).
  destruct (negb (it_malloc_fmt_ok it)); [discriminate|].
  destruct (df_fuzz_create_fmt_string st1 _) as [[ev2 r] fmt].
  destruct (r =? -1); [discriminate|].
  destruct (negb (it_ffi_prep_ok it)); [discriminate|].
  destruct (it_still_floating it); [discriminate|].
  injection H as _ <- <-. cbn [gv_type gv_value].
  destruct Hc as (Hn & Ha & Hfl & Hs).
  split; [reflexivity|].
  split; [unfold tuple_type; rewrite Hs; reflexivity|].
  split; [repeat split; assumption|].
  split; [exact Hu|]. split; [exact Hus|].
  exists (tuple_items st1). split; [reflexivity|].
  assert (Hlen : List.length (nodes (df_list st1))
                 = List.length (nodes (df_list st))).
  { unfold signatures in Hs.
    rewrite <- (length_map sig (nodes (df_list st1))), Hs, length_map.
    reflexivity. }
  unfold tuple_items. rewrite Ha, Hargs, Nat2Z.id, <- Hlen, firstn_all.
  pose proof (tuple_items_all _ Hf) as F2. split; [exact F2|].
  rewrite <- (Forall2_length F2), Hlen. reflexivity.
Qed.

Lemma create_variant_tuple_witness :
  catalog_ok (catalog_of "SetName" ["s"; "i"])
  /\ option_map gv_type
       (snd (fst (df_fuzz_create_variant K0
                    (iteration_of (Response "()") (cmd_status 0) alive)
                    (catalog_of "SetName" ["s"; "i"]))))
     = Some "(si)".
Proof.
  assert (H : catalog_ok (catalog_of "SetName" ["s"; "i"]))
    by (split; [reflexivity | cbn; unfold INT_MAX; lia]).
  split; [exact H|].
  destruct (df_fuzz_create_variant K0
              (iteration_of (Response "()") (cmd_status 0) alive)
              (catalog_of "SetName" ["s"; "i"])) as [[ev [v|]] st'] eqn:E.
  - cbn [fst snd option_map].
    rewrite (proj1 (proj2 (create_variant_tuple K0 _ _ _ _ _ H E))).
    reflexivity.
  - vm_compute in E. discriminate E.
Defined.

Lemma all_generate_single rand l : forall i,
  all_generate rand l i = true ->
  Forall (fun s => strlen (sig s) = 1) l.
Proof.
  induction l as [|s l IH]; intros i H; [constructor|].
  cbn [all_generate] in H.
  destruct (sig s) as [|c [|c' r]] eqn:Es; try discriminate.
  destruct (generate_value c (String c "") (rand i)) as [ev|[v|]];
    try discriminate.
  constructor; [rewrite Es; reflexivity | apply (IH _ H)].
Qed.

Lemma tagged_length_single l :
  Forall (fun s => strlen (sig s) = 1) l ->
  tagged_length l = 2 * Z.of_nat (List.length l).
Proof.
  induction 1 as [|s l Hs _ IH]; [reflexivity|].
  rewrite tagged_length_cons, IH, Hs. cbn [List.length]. lia.
Qed.

Lemma tagged_length_sigs l l' :
  map sig l = map sig l' -> tagged_length l = tagged_length l'.
Proof.
  unfold tagged_length. intros H.
  rewrite <- (map_map sig (fun sg => 1 + strlen sg) l),
          <- (map_map sig (fun sg => 1 + strlen sg) l'), H.
  reflexivity.
Qed.

(** X7. The format string bounds the number of arguments. For a method
    with k arguments, all of one supported type code and all generated
    successfully, the call argument is composed when 2k + 3 <= MAXFMT
    (and the buffer allocation and the libffi and GVariant steps
    succeed); when 2k + 3 > MAXFMT no argument is composed, nothing is
    called, and the test returns -1 in its first iteration. *)
Theorem elementary_arguments_capacity :
  forall K obj intf pid vm cmd logfile buf name it post st,
    0 <= MAXFMT K < INT_MAX ->
    catalog_ok st ->
    2 * args (df_list st) + 3 <= INT_MAX ->
    df_unsupported_sig st = 0 ->
    all_generate (it_rand it) (nodes (df_list st)) 0 = true ->
    it_malloc_fmt_ok it = true ->
    let c := df_fuzz_create_variant K it st in
    let r := df_fuzz_test_method K obj intf pid vm cmd logfile buf name
               (it :: post) st in
    (2 * args (df_list st) + 3 <= MAXFMT K ->
     it_ffi_prep_ok it = true -> it_still_floating it = false ->
     exists v, snd (fst c) = Some v)
    /\ (2 * args (df_list st) + 3 > MAXFMT K ->
        snd (fst c) = None
        /\ verdict r = Returns (-1)
        /\ existsb is_call (output r) = false).
Proof.
  intros K obj intf pid vm cmd logfile buf name it post st HK Hok Hmax Hflag
         Hgen Hmalloc. cbv zeta.
  pose proof (list_variants_loop_generates (df_method_name (df_list st))
                (it_rand it) (nodes (df_list st)) [] 0%nat Hgen) as Hl.
  cbv zeta in Hl.
  destruct (df_fuzz_create_list_variants (it_rand it) st) as [[ev1 ret] st1]
    eqn:Eg.
  assert (ret = 0 /\ ev1 = []) as [-> ->].
  { unfold df_fuzz_create_list_variants in Eg.
    destruct (list_variants_loop _ _ _ _ _) as [e r0 ns u].
    cbn [vr_ret vr_events] in *. injection Eg as <- <- _. exact Hl. }
  destruct (create_list_variants_zero _ _ _ _ Eg)
    as (_ & _ & (Hn & Ha & _ & Hs) & Hu & _).
  assert (Hd : descriptor_length (nodes (df_list st1))
               = 2 * args (df_list st) + 3).
  { rewrite descriptor_length_eq.
    rewrite (tagged_length_sigs _ (nodes (df_list st)) Hs).
    rewrite (tagged_length_single _ (all_generate_single _ _ _ Hgen)).
    destruct Hok as [-> _]. lia. }
  pose proof (create_fmt_string_spec st1 (MAXFMT K + 1)
                ltac:(int_range) ltac:(lia)) as [Hfit Hnofit].
  cbv zeta in Hfit, Hnofit.
  assert (Ec : df_fuzz_create_variant K it st
               = let '(ev2, r, fmt) :=
                   df_fuzz_create_fmt_string st1 (MAXFMT K + 1) in
                 if r =? -1 then
                   ([] ++ ev2 ++
                    [df_fail "Error: Unable to create format string.\n" [];
                     df_debug "Error in df_fuzz_create_fmt_string()\n" []],
                    None, st1)
                 else if negb (it_ffi_prep_ok it) then
                   ([] ++ ev2 ++
                    [df_fail "ffi_prep_cif() failed on initializing cif.\n" []],
                    None, st1)
                 else if it_still_floating it then
                   ([] ++ ev2 ++
                    [df_fail
                       "Error: Unable to convert GVariant from floating to normal reference\n(for method '%s()'.\n"
                       [name_arg (df_method_name (df_list st1))]],
                    None, st1)
                 else
                   ([] ++ ev2,
                    Some {| gv_type := tuple_type st1;
                            gv_value := VTuple (tuple_items st1) |},
                    st1)).
  { unfold df_fuzz_create_variant. rewrite Eg, Hmalloc.
    rewrite (wrap_int_id (MAXFMT K + 1)) by int_range. reflexivity. }
  split.
  - intros Hle Hffi Hfl. rewrite Ec, Hfit by lia. rewrite Hffi, Hfl.
    cbn. eexists; reflexivity.
  - intros Hgt. destruct Hnofit as (k & Ef); [lia|].
    rewrite Ef in Ec. cbn [Z.eqb Pos.eqb app] in Ec.
    split; [rewrite Ec; reflexivity|].
    pose proof (test_method_at K obj intf pid vm cmd logfile buf name [] it post
                  st st Hok eq_refl) as T.
    cbv zeta in T. unfold loop_body in T. rewrite Ec in T.
    rewrite Hu, Hflag in T. cbn [Z.eqb negb fst snd events state] in T.
    destruct T as (Hv & _ & Ho).
    change ([] ++ it :: post) with (it :: post) in *.
    split; [exact Hv|].
    rewrite Ho. unfold output_before.
    rewrite !existsb_app. cbn [test_loop snd events existsb is_call orb].
    destruct Hok as [Hargs Hm].
    pose proof (debug_signatures_total (nodes (df_list st)) 0 ltac:(lia)
                  ltac:(lia)) as Hdbg.
    rewrite Bool.orb_false_r.
    assert (Hnc : forall s j n,
               existsb is_call (fst (debug_signatures s j n)) = false).
    { clear. induction s as [|x s IH]; intros j n; cbn [debug_signatures].
      - destruct (j <? n); reflexivity.
      - destruct (j <? n); [|reflexivity].
        specialize (IH (wrap_int (j + 1)) n).
        destruct (debug_signatures s (wrap_int (j + 1)) n) as [ev ok].
        cbn [fst existsb is_call orb] in *. exact IH. }
    rewrite Hnc. reflexivity.
Qed.

Lemma elementary_arguments_capacity_witness :
  0 <= MAXFMT K_small < INT_MAX
  /\ catalog_ok (catalog_of "SetName" ["s"; "i"])
  /\ 2 * args (df_list (catalog_of "SetName" ["s"; "i"])) + 3 > MAXFMT K_small
  /\ verdict (df_fuzz_test_method K_small "/org/example" "org.example.Iface"
                4242 0 None true 0 "org.example"
                [iteration_of (Response "()") (cmd_status 0) alive]
                (catalog_of "SetName" ["s"; "i"])) = Returns (-1).
Proof.
  assert (H1 : 0 <= MAXFMT K_small < INT_MAX) by (cbn; unfold INT_MAX; lia).
  assert (H2 : catalog_ok (catalog_of "SetName" ["s"; "i"]))
    by (split; [reflexivity | cbn; unfold INT_MAX; lia]).
  assert (H3 : 2 * args (df_list (catalog_of "SetName" ["s"; "i"])) + 3
               > MAXFMT K_small) by (cbn; lia).
  split; [exact H1|]. split; [exact H2|]. split; [exact H3|].
  refine (proj1 (proj2 (proj2
            (elementary_arguments_capacity K_small "/org/example"
               "org.example.Iface" 4242 0 None true 0 "org.example"
               (iteration_of (Response "()") (cmd_status 0) alive) []
               (catalog_of "SetName" ["s"; "i"]) H1 H2 _ eq_refl eq_refl
               eq_refl) H3))).
  cbn; unfold INT_MAX; lia.
Defined.

(** ** The loop and its iterations *)

(** X9. When df_rand_continue refuses the first iteration, a well formed
    catalog passes: the test returns 0 without generating or calling
    anything, prints the header and the PASS line only, and leaves the
    module state as it was. *)
Theorem test_method_no_iteration :
  forall K obj intf pid vm cmd logfile buf name st,
    catalog_ok st ->
    let r := df_fuzz_test_method K obj intf pid vm cmd logfile buf name [] st in
    verdict r = Returns 0
    /\ final_state r = st
    /\ counter_values (snd r) = []
    /\ output r
       = output_before K obj intf pid vm cmd logfile [] st
         ++ [df_verbose "%s  %sPASS%s %s\n"
               [AAnsi ansi_cr; AAnsi ansi_green; AAnsi ansi_normal;
                method_name st]].
Proof.
  intros K obj intf pid vm cmd logfile buf name st Hok. cbv zeta.
  unfold verdict, final_state, output, output_before, df_fuzz_test_method.
  pose proof (catalog_ok_debug st Hok) as Hdbg.
  destruct (debug_signatures _ _ _) as [dbg ok]. cbn [fst snd] in *. subst ok.
  cbn. rewrite <- !app_assoc. cbn. repeat split.
Qed.

Lemma test_method_no_iteration_witness :
  catalog_ok (catalog_of "SetName" ["s"; "i"])
  /\ verdict (df_fuzz_test_method K0 "/org/example" "org.example.Iface" 4242 0
                None true 0 "org.example" [] (catalog_of "SetName" ["s"; "i"]))
     = Returns 0.
Proof.
  assert (H : catalog_ok (catalog_of "SetName" ["s"; "i"]))
    by (split; [reflexivity | cbn; unfold INT_MAX; lia]).
  split; [exact H|].
  exact (proj1 (test_method_no_iteration K0 "/org/example" "org.example.Iface"
                  4242 0 None true 0 "org.example" _ H)).
Defined.

(** ** What the failure path alone prints *)

Lemma existsb_map_false {A B} (p : B -> bool) (f : A -> B) l :
  (forall a, p (f a) = false) -> existsb p (map f l) = false.
Proof.
  intros H. induction l as [|a l IH]; cbn; [reflexivity|].
  rewrite H, IH. reflexivity.
Qed.

Lemma log_string_quiet str : existsb failure_output (log_string str) = false.
Proof.
  unfold log_string. rewrite existsb_app.
  destruct str as [s|]; [|reflexivity].
  cbn [existsb]. rewrite existsb_map_false by reflexivity. reflexivity.
Qed.

Lemma write_log_value_quiet c v ev :
  write_log_value c v = Some ev -> existsb failure_output ev = false.
Proof.
  destruct c as [[|] [|] [|] [|] [|] [|] [|] [|]]; cbn [write_log_value];
    intros H; try discriminate H; injection H as <-;
    try reflexivity; apply log_string_quiet.
Qed.

Lemma write_log_loop_quiet l :
  existsb failure_output (fst (write_log_loop l)) = false.
Proof.
  induction l as [|x l IH]; cbn [write_log_loop]; [reflexivity|].
  destruct (wrap_int (strlen (sig x)) <=? 0); [reflexivity|].
  destruct (wrap_int (strlen (sig x)) =? 1); [|reflexivity].
  destruct (sig x) as [|c r]; [reflexivity|].
  destruct (write_log_value c (var x)) as [ev|] eqn:E.
  - destruct (write_log_loop l) as [rest r0]. cbn [fst] in *.
    rewrite !existsb_app, (write_log_value_quiet _ _ _ E), IH. reflexivity.
  - reflexivity.
Qed.

Lemma write_log_quiet st :
  existsb failure_output (fst (df_fuzz_write_log st)) = false.
Proof.
  unfold df_fuzz_write_log.
  pose proof (write_log_loop_quiet (nodes (df_list st))) as H.
  destruct (write_log_loop _) as [ev r]. cbn [fst] in *.
  cbn [existsb]. rewrite H. reflexivity.
Qed.

Lemma generate_value_quiet c sg d ev :
  generate_value c sg d = SlotError ev -> existsb failure_output ev = false.
Proof.
  destruct c as [[|] [|] [|] [|] [|] [|] [|] [|]]; cbn [generate_value];
    repeat match goal with
           | |- context [match ?x with _ => _ end] => destruct x
           end;
    intros H; try discriminate H; injection H as <-; reflexivity.
Qed.

Lemma list_variants_loop_quiet name rand s : forall before i,
  existsb failure_output (vr_events (list_variants_loop name rand before s i))
  = false.
Proof.
  induction s as [|x next IH]; intros before i; cbn [list_variants_loop];
    [reflexivity|].
  destruct (wrap_int (strlen (sig x)) <=? 0); [reflexivity|].
  destruct (wrap_int (strlen (sig x)) =? 1); [|reflexivity].
  destruct (sig x) as [|c r]; [reflexivity|].
  destruct (generate_value c (String c r) (rand i)) as [ev|[v|]] eqn:E.
  - apply (generate_value_quiet _ _ _ _ E).
  - apply IH.
  - reflexivity.
Qed.

Lemma create_variant_quiet K it st :
  existsb failure_output (fst (fst (df_fuzz_create_variant K it st))) = false.
Proof.
  unfold df_fuzz_create_variant, df_fuzz_create_list_variants.
  pose proof (list_variants_loop_quiet (df_method_name (df_list st))
                (it_rand it) (nodes (df_list st)) [] 0%nat) as Hl.
  destruct (list_variants_loop _ _ _ _ _) as [ev1 ret ns u].
  cbn [vr_events vr_ret vr_nodes vr_unsupported] in *.
  destruct (ret =? -1); [cbn [fst]; rewrite existsb_app, Hl; reflexivity|].
  destruct (ret =? 1); [exact Hl|].
  destruct (negb (it_malloc_fmt_ok it));
    [cbn [fst]; rewrite existsb_app, Hl; reflexivity|].
  match goal with
  | |- context [df_fuzz_create_fmt_string ?s ?n] =>
      assert (Hf : existsb failure_output
                     (fst (fst (df_fuzz_create_fmt_string s n))) = false)
        by (unfold df_fuzz_create_fmt_string;
            destruct (fmt_loop _ _ _ _) as [[t|] w];
            [destruct (t >? _)|]; reflexivity);
      destruct (df_fuzz_create_fmt_string s n) as [[ev2 r] fmt]
  end.
  cbn [fst] in Hf.
  destruct (r =? -1);
    [cbn [fst]; rewrite !existsb_app, Hl, Hf; reflexivity|].
  destruct (negb (it_ffi_prep_ok it));
    [cbn [fst]; rewrite !existsb_app, Hl, Hf; reflexivity|].
  destruct (it_still_floating it);
    cbn [fst]; rewrite !existsb_app, Hl, Hf; reflexivity.
Qed.

Lemma call_method_quiet value vm reply st :
  existsb failure_output (fst (fst (df_fuzz_call_method value vm reply st)))
  = false.
Proof.
  unfold df_fuzz_call_method.
  destruct reply as [[e|] m|fmt].
  - destruct (strcmp_eq e "org.freedesktop.DBus.Error.NoReply"); [reflexivity|].
    destruct (strcmp_eq e "org.freedesktop.DBus.Error.Timeout"); [reflexivity|].
    destruct (_ || _)%bool; [reflexivity|].
    destruct (strstr m "Timeout"); reflexivity.
  - destruct (strstr m "Timeout"); reflexivity.
  - destruct (_ && _)%bool; reflexivity.
Qed.

Lemma exec_cmd_check_quiet cmd e :
  existsb failure_output (fst (df_exec_cmd_check cmd e)) = false.
Proof.
  unfold df_exec_cmd_check. destruct cmd; [|reflexivity].
  repeat match goal with
         | |- context [if ?b then _ else _] => destruct b
         end; reflexivity.
Qed.

Lemma debug_signatures_quiet s : forall j n,
  existsb failure_output (fst (debug_signatures s j n)) = false.
Proof.
  induction s as [|x s IH]; intros j n; cbn [debug_signatures].
  - destruct (j <? n); reflexivity.
  - destruct (j <? n); [|reflexivity].
    specialize (IH (wrap_int (j + 1)) n).
    destruct (debug_signatures s (wrap_int (j + 1)) n) as [ev ok].
    cbn [fst existsb] in *. rewrite IH.
    destruct (j <? wrap_int (n - 1)); reflexivity.
Qed.

Section Quiet.

Variable K : constants.
Variables (obj intf : string) (pid vm : Z).
Variable cmd : option string.
Variable logfile : bool.

Lemma loop_body_quiet it st :
  existsb failure_output
    (events (snd (loop_body K obj intf pid vm cmd logfile it st))) = false.
Proof.
  unfold loop_body.
  pose proof (create_variant_quiet K it st) as H1.
  destruct (df_fuzz_create_variant K it st) as [[ev1 [value|]] st1];
    cbn [fst] in H1.
  - pose proof (call_method_quiet value vm (it_reply it) st1) as H2.
    destruct (df_fuzz_call_method value vm (it_reply it) st1) as [[ev2 ret] st2].
    pose proof (exec_cmd_check_quiet cmd (it_cmd it)) as H3.
    destruct (df_exec_cmd_check cmd (it_cmd it)) as [ev3 execr].
    cbn [fst] in H2, H3.
    assert (H : existsb failure_output (ev1 ++ ev2 ++ ev3) = false)
      by (rewrite !existsb_app, H1, H2, H3; reflexivity).
    pose proof (write_log_quiet st2) as Hw.
    destruct (execr <? 0); cbn [snd events];
      [rewrite existsb_app, H; reflexivity|].
    destruct (execr >? 0); cbn [snd events];
      [rewrite existsb_app, H; reflexivity|].
    destruct (df_check_if_exited pid (it_proc it)) as [r|]; cbn [snd events];
      [|exact H].
    destruct (r <? 0); cbn [snd events];
      [rewrite existsb_app, H; reflexivity|].
    destruct (r =? 0); cbn [snd events];
      [rewrite existsb_app, H; reflexivity|].
    destruct (ret =? 2); cbn [snd events]; [exact H|].
    destruct (ret >? 0); cbn [snd events]; [exact H|].
    assert (H' : existsb failure_output
                   ((ev1 ++ ev2 ++ ev3)
                    ++ [FULL_LOG "%s;%s;" [AStr intf; AStr obj]]
                    ++ (if logfile then fst (df_fuzz_write_log st2) else [])
                    ++ [FULL_LOG "Success\n" []]) = false).
    { rewrite existsb_app, H, !existsb_app.
      destruct logfile; [rewrite Hw|]; reflexivity. }
    destruct (df_except_counter st2 =? MAX_EXCEPTIONS K); cbn [snd events];
      exact H'.
  - destruct (negb (df_unsupported_sig st1 =? 0)); cbn [snd events];
      rewrite existsb_app, H1; reflexivity.
Qed.

Lemma test_loop_quiet script : forall st r x,
  existsb failure_output
    (events (snd (test_loop K obj intf pid vm cmd logfile script st r x)))
  = false.
Proof.
  induction script as [|it rest IH]; intros st r x; cbn [test_loop];
    [reflexivity|].
  pose proof (loop_body_quiet it st) as Hb.
  destruct (loop_body K obj intf pid vm cmd logfile it st)
    as [[code| |r' x'|r' x'] e]; cbn [snd] in *; try exact Hb.
  specialize (IH (state e) r' x').
  destruct (test_loop K obj intf pid vm cmd logfile rest (state e) r' x')
    as [x1 e1]. cbn [snd events] in *.
  rewrite existsb_app, Hb, IH. reflexivity.
Qed.

End Quiet.

Lemma existsb_weaker {A} (p q : A -> bool) l :
  (forall a, p a = true -> q a = true) ->
  existsb q l = false -> existsb p l = false.
Proof.
  intros H. induction l as [|a l IH]; cbn; [reflexivity|].
  intros Hq. apply Bool.orb_false_iff in Hq as [Ha Hl].
  rewrite (IH Hl). destruct (p a) eqn:E; [|reflexivity].
  rewrite (H a E) in Ha. discriminate Ha.
Qed.

Lemma quiet_crash l :
  existsb failure_output l = false -> existsb crash_token l = false.
Proof.
  apply existsb_weaker. intros a H. unfold failure_output. rewrite H.
  reflexivity.
Qed.

Lemma quiet_command l :
  existsb failure_output l = false -> existsb command_token l = false.
Proof.
  apply existsb_weaker. intros a H. unfold failure_output. rewrite H.
  apply Bool.orb_true_iff. left. apply Bool.orb_true_iff. left.
  apply Bool.orb_true_r.
Qed.

Lemma quiet_reproducer l :
  existsb failure_output l = false -> existsb reproducer_line l = false.
Proof.
  apply existsb_weaker. intros a H. unfold failure_output. rewrite H.
  apply Bool.orb_true_iff. left. apply Bool.orb_true_r.
Qed.

Lemma quiet_flags l :
  existsb failure_output l = false -> buffer_flags l = [].
Proof.
  unfold buffer_flags. induction l as [|a l IH]; cbn; [reflexivity|].
  intros H. apply Bool.orb_false_iff in H as [Ha Hl]. rewrite (IH Hl).
  unfold failure_output in Ha. destruct (buffer_flag a); [|reflexivity].
  rewrite Bool.orb_true_r in Ha. discriminate Ha.
Qed.

Lemma buffer_flags_app a b : buffer_flags (a ++ b) = buffer_flags a ++ buffer_flags b.
Proof. unfold buffer_flags. apply flat_map_app. Qed.

Lemma quiet_prefix pre ev :
  existsb failure_output pre = false ->
  existsb crash_token (pre ++ ev) = existsb crash_token ev
  /\ existsb command_token (pre ++ ev) = existsb command_token ev
  /\ existsb reproducer_line (pre ++ ev) = existsb reproducer_line ev
  /\ buffer_flags (pre ++ ev) = buffer_flags ev.
Proof.
  intros H. rewrite !existsb_app, buffer_flags_app.
  rewrite (quiet_crash _ H), (quiet_command _ H), (quiet_reproducer _ H),
    (quiet_flags _ H). repeat split.
Qed.

(** The output of the statements after the loop. *)
Lemma after_loop_output obj intf cmd name buf flg ret execr st :
  let code := fst (after_loop obj intf cmd name buf flg ret execr st) in
  let ev := snd (after_loop obj intf cmd name buf flg ret execr st) in
  (code = 0 \/ code = 1 \/ code = 2 \/ code = 4)
  /\ existsb crash_token ev = (code =? 1)
  /\ existsb command_token ev = (code =? 4)
  /\ existsb reproducer_line ev = failure_code code
  /\ buffer_flags ev = (if (failure_code code && flg)%bool then [AInt buf] else []).
Proof.
  cbv zeta. unfold after_loop.
  pose proof (write_log_quiet st) as Hw.
  pose proof (quiet_crash _ Hw) as Hw1.
  pose proof (quiet_command _ Hw) as Hw2.
  pose proof (quiet_reproducer _ Hw) as Hw3.
  pose proof (quiet_flags _ Hw) as Hw4.
  unfold buffer_flags in *.
  generalize dependent (fst (df_fuzz_write_log st)). intros W _ Hw1 Hw2 Hw3 Hw4.
  destruct (negb (ret =? 0) || negb (execr =? 0))%bool;
    [|cbn; repeat split; auto].
  destruct (ret =? 1), (execr >? 0), flg, cmd; cbn;
    rewrite ?existsb_app, ?flat_map_app, ?Hw1, ?Hw2, ?Hw3, ?Hw4; cbn;
    repeat split; auto.
Qed.

(** What the failure path alone prints, against the verdict. *)
Lemma test_method_failure_output K obj intf pid vm cmd logfile buf name script
      st code :
  let r := df_fuzz_test_method K obj intf pid vm cmd logfile buf name script st in
  verdict r = Returns code ->
  existsb crash_token (output r) = (code =? 1)
  /\ existsb command_token (output r) = (code =? 4)
  /\ existsb reproducer_line (output r) = failure_code code
  /\ buffer_flags (output r)
     = (if (failure_code code && negb (buf =? 0))%bool
        then [AInt (if buf <? MINLEN K then MAX_BUF_LEN K else buf)]
        else []).
Proof.
  cbv zeta. unfold verdict, output, df_fuzz_test_method.
  pose proof (debug_signatures_quiet (nodes (df_list st)) 0 (args (df_list st)))
    as Hd.
  destruct (debug_signatures _ _ _) as [dbg ok]. cbn [fst] in Hd.
  destruct (negb ok); [discriminate|].
  pose proof (test_loop_exits K obj intf pid vm cmd logfile script st 0 0) as Hx.
  pose proof (test_loop_quiet K obj intf pid vm cmd logfile script st 0 0) as Hq.
  destruct (test_loop K obj intf pid vm cmd logfile script st 0 0)
    as [[c| |ret execr] e]; cbn [fst snd] in *.
  - intros H; injection H as <-.
    assert (Hall : existsb failure_output
                     ((([df_debug "  Method: %s%s" [AAnsi ansi_bold; method_name st];
                         df_debug "(" []] ++ dbg)
                       ++ [df_debug ")%s\n" [AAnsi ansi_normal];
                           df_verbose "  %s..." [method_name st]])
                      ++ events e) = false)
      by (rewrite !existsb_app, Hd, Hq; reflexivity).
    cbn [events].
    rewrite (quiet_crash _ Hall), (quiet_command _ Hall),
      (quiet_reproducer _ Hall), (quiet_flags _ Hall).
    destruct Hx as [->| ->]; repeat split.
  - discriminate.
  - set (b := if buf <? MINLEN K then MAX_BUF_LEN K else buf).
    pose proof (after_loop_output obj intf cmd name b (negb (buf =? 0)) ret
                  execr (state e)) as (_ & A1 & A2 & A3 & A4).
    destruct (after_loop obj intf cmd name b (negb (buf =? 0)) ret execr
                (state e)) as [c ev]. cbn [fst snd events] in *.
    intros H; injection H as <-.
    assert (Hall : existsb failure_output
                     ((([df_debug "  Method: %s%s" [AAnsi ansi_bold; method_name st];
                         df_debug "(" []] ++ dbg)
                       ++ [df_debug ")%s\n" [AAnsi ansi_normal];
                           df_verbose "  %s..." [method_name st]])
                      ++ events e) = false)
      by (rewrite !existsb_app, Hd, Hq; reflexivity).
    rewrite app_assoc.
    destruct (quiet_prefix _ ev Hall) as (-> & -> & -> & ->).
    repeat split; assumption.
Qed.

(** X10. The status token in the full log tells the verdict: a test that
    returns has written the token "Crash" exactly when it returns 1, and
    the token "Command execution error" exactly when it returns 4. *)
Theorem test_method_status_token :
  forall K obj intf pid vm cmd logfile buf name script st code,
    let r := df_fuzz_test_method K obj intf pid vm cmd logfile buf name
               script st in
    verdict r = Returns code ->
    (existsb crash_token (output r) = true <-> code = 1)
    /\ (existsb command_token (output r) = true <-> code = 4).
Proof.
  intros K obj intf pid vm cmd logfile buf name script st code r H.
  destruct (test_method_failure_output K obj intf pid vm cmd logfile buf name
              script st code H) as (H1 & H2 & _).
  fold r in H1, H2. rewrite H1, H2. split; apply Z.eqb_eq.
Qed.

Lemma test_method_status_token_witness :
  verdict (ping_once 0 None (iteration_of (Response "()") (cmd_status 0) unreadable))
  = Returns 1
  /\ existsb crash_token
       (output (ping_once 0 None
                  (iteration_of (Response "()") (cmd_status 0) unreadable)))
     = true.
Proof.
  assert (H : verdict (ping_once 0 None
                (iteration_of (Response "()") (cmd_status 0) unreadable))
              = Returns 1) by reflexivity.
  split; [exact H|].
  exact (proj2 (proj1 (test_method_status_token K0 "/org/example"
                         "org.example.Iface" 4242 0 None true 0 "org.example"
                         [iteration_of (Response "()") (cmd_status 0) unreadable]
                         (catalog_of "Ping" []) 1 H)) eq_refl).
Defined.

(** X11. The reproduction recipe is printed exactly for the failure
    verdicts 1, 2 and 4, never for 0 or -1. Its buffer-size flag is
    printed, once, exactly when in addition the caller passed a buffer
    size other than 0, and it shows the size the test used: MAX_BUF_LEN
    when the size passed was below MINLEN. *)
Theorem test_method_reproducer :
  forall K obj intf pid vm cmd logfile buf name script st code,
    let r := df_fuzz_test_method K obj intf pid vm cmd logfile buf name
               script st in
    verdict r = Returns code ->
    (existsb reproducer_line (output r) = true <->
     code = 1 \/ code = 2 \/ code = 4)
    /\ ((code = 1 \/ code = 2 \/ code = 4) -> buf <> 0 ->
        buffer_flags (output r)
        = [AInt (if buf <? MINLEN K then MAX_BUF_LEN K else buf)])
    /\ (buf = 0 -> buffer_flags (output r) = [])
    /\ (code = 0 \/ code = -1 -> buffer_flags (output r) = []).
Proof.
  intros K obj intf pid vm cmd logfile buf name script st code r H.
  destruct (test_method_failure_output K obj intf pid vm cmd logfile buf name
              script st code H) as (_ & _ & H3 & H4).
  fold r in H3, H4. rewrite H3, H4.
  assert (Hf : failure_code code = true <-> code = 1 \/ code = 2 \/ code = 4).
  { unfold failure_code. rewrite !Bool.orb_true_iff, !Z.eqb_eq. tauto. }
  split; [exact Hf|]. split; [|split].
  - intros Hc Hb. apply Hf in Hc. rewrite Hc.
    destruct (Z.eqb_spec buf 0); [contradiction | reflexivity].
  - intros ->. rewrite Bool.andb_false_r. reflexivity.
  - intros [-> | ->]; reflexivity.
Qed.

Lemma test_method_reproducer_witness :
  verdict (df_fuzz_test_method K0 "/o" "i.f" 4242 0 (Some "true") true 100 "n"
             [iteration_of (Response "()") (cmd_status 256) alive]
             (catalog_of "SetName" ["s"; "i"])) = Returns 4
  /\ buffer_flags
       (output (df_fuzz_test_method K0 "/o" "i.f" 4242 0 (Some "true") true 100
                  "n" [iteration_of (Response "()") (cmd_status 256) alive]
                  (catalog_of "SetName" ["s"; "i"])))
     = [AInt 50000].
Proof.
  assert (H : verdict (df_fuzz_test_method K0 "/o" "i.f" 4242 0 (Some "true")
                         true 100 "n"
                         [iteration_of (Response "()") (cmd_status 256) alive]
                         (catalog_of "SetName" ["s"; "i"])) = Returns 4)
    by reflexivity.
  split; [exact H|].
  refine (proj1 (proj2 (test_method_reproducer K0 "/o" "i.f" 4242 0
                          (Some "true") true 100 "n"
                          [iteration_of (Response "()") (cmd_status 256) alive]
                          (catalog_of "SetName" ["s"; "i"]) 4 H)) _ _).
  - right; right; reflexivity.
  - lia.
Defined.

(** ** The liveness probe, further *)


(** ** What a test leaves alone *)

(** X13. A test never changes the catalog but for the generated values:
    whatever the script, method name, argument count, flag, signatures
    and the number of nodes are after the test what they were before. *)
Theorem test_method_keeps_catalog :
  forall K obj intf pid vm cmd logfile buf name script st,
    let st' := final_state
                 (df_fuzz_test_method K obj intf pid vm cmd logfile buf name
                                      script st) in
    df_method_name (df_list st') = df_method_name (df_list st)
    /\ args (df_list st') = args (df_list st)
    /\ fuzz_on_str_len (df_list st') = fuzz_on_str_len (df_list st)
    /\ signatures st' = signatures st
    /\ List.length (nodes (df_list st')) = List.length (nodes (df_list st))
    /\ (catalog_ok st -> catalog_ok st').
Proof.
  intros K obj intf pid vm cmd logfile buf name script st. cbv zeta.
  pose proof (test_method_frame K obj intf pid vm cmd logfile buf name script st)
    as (H1 & H2 & H3 & H4).
  assert (H5 : List.length
                 (nodes (df_list
                    (final_state
                       (df_fuzz_test_method K obj intf pid vm cmd logfile buf
                          name script st))))
               = List.length (nodes (df_list st))).
  { unfold signatures in H4.
    rewrite <- (length_map sig), H4, length_map. reflexivity. }
  repeat split; try assumption.
  - rewrite H2, H5. apply H.
  - rewrite H2. apply H.
Qed.

Lemma create_variant_signal K it st :
  let c := df_fuzz_create_variant K it st in
  (snd (fst c) = None
   /\ df_unsupported_sig (snd c) = wrap_int (df_unsupported_sig st + 1))
  \/ (df_unsupported_sig (snd c) = df_unsupported_sig st
      /\ df_unsupported_sig_str (snd c) = df_unsupported_sig_str st).
Proof.
  cbv zeta. unfold df_fuzz_create_variant.
  pose proof (create_list_variants_frame (it_rand it) st) as (_ & _ & Hu).
  assert (Hs : snd (fst (df_fuzz_create_list_variants (it_rand it) st)) <> 1 ->
               df_unsupported_sig_str
                 (snd (df_fuzz_create_list_variants (it_rand it) st))
               = df_unsupported_sig_str st).
  { unfold df_fuzz_create_list_variants. cbn [fst snd].
    pose proof (list_variants_loop_signal (df_method_name (df_list st))
                  (it_rand it) (nodes (df_list st)) [] 0%nat) as H.
    cbv zeta in H. destruct (list_variants_loop _ _ _ _ _) as [e r ns u].
    cbn [vr_ret vr_unsupported] in *. intros Hr.
    destruct H as [[H _]|[_ ->]]; [contradiction | reflexivity]. }
  destruct (df_fuzz_create_list_variants (it_rand it) st) as [[ev1 ret] st1].
  cbn [fst snd] in *.
  destruct (Z.eqb_spec ret (-1)); [right; cbn; split; [assumption | apply Hs; lia]|].
  destruct (Z.eqb_spec ret 1); [left; cbn; rewrite Hu; split; reflexivity|].
  specialize (Hs ltac:(assumption)).
  destruct (negb (it_malloc_fmt_ok it)); [right; cbn; auto|].
  destruct (df_fuzz_create_fmt_string st1 _) as [[ev2 r] fmt].
  destruct (r =? -1); [right; cbn; auto|].
  destruct (negb (it_ffi_prep_ok it)); [right; cbn; auto|].
  destruct (it_still_floating it); right; cbn; auto.
Qed.

Section Signal.

Variable K : constants.
Variables (obj intf : string) (pid vm : Z).
Variable cmd : option string.
Variable logfile : bool.

Lemma loop_body_signal it st :
  df_unsupported_sig st = 0 -> df_unsupported_sig_str st = None ->
  let e := snd (loop_body K obj intf pid vm cmd logfile it st) in
  df_unsupported_sig (state e) = 0 /\ df_unsupported_sig_str (state e) = None.
Proof.
  intros H0 Hn. cbv zeta. unfold loop_body.
  pose proof (create_variant_signal K it st) as Hc. cbv zeta in Hc.
  destruct (df_fuzz_create_variant K it st) as [[ev1 [value|]] st1];
    cbn [fst snd] in Hc.
  - destruct Hc as [[Hc _]|[Hc1 Hc2]]; [discriminate|].
    pose proof (call_method_frame value vm (it_reply it) st1) as (_ & Hu & Hs).
    destruct (df_fuzz_call_method value vm (it_reply it) st1) as [[ev2 ret] st2].
    cbn [snd] in Hu, Hs.
    assert (H : df_unsupported_sig st2 = 0 /\ df_unsupported_sig_str st2 = None)
      by (split; congruence).
    destruct (df_exec_cmd_check cmd (it_cmd it)) as [ev3 execr].
    destruct (execr <? 0); [exact H|].
    destruct (execr >? 0); [exact H|].
    destruct (df_check_if_exited pid (it_proc it)) as [r|]; [|exact H].
    destruct (r <? 0); [exact H|].
    destruct (r =? 0); [exact H|].
    destruct (ret =? 2); [exact H|].
    destruct (ret >? 0); [exact H|].
    destruct (df_except_counter st2 =? MAX_EXCEPTIONS K); exact H.
  - destruct Hc as [[_ Hc]|[Hc1 Hc2]].
    + rewrite Hc, H0. cbn. split; reflexivity.
    + rewrite Hc1, H0. cbn. split; congruence.
Qed.

Lemma test_loop_signal script : forall st r x,
  df_unsupported_sig st = 0 -> df_unsupported_sig_str st = None ->
  let e := snd (test_loop K obj intf pid vm cmd logfile script st r x) in
  df_unsupported_sig (state e) = 0 /\ df_unsupported_sig_str (state e) = None.
Proof.
  induction script as [|it rest IH]; intros st r x H0 Hn; cbn [test_loop].
  - split; assumption.
  - pose proof (loop_body_signal it st H0 Hn) as Hb. cbv zeta in Hb.
    destruct (loop_body K obj intf pid vm cmd logfile it st)
      as [[code| |r' x'|r' x'] e]; cbn [snd] in *; try exact Hb.
    specialize (IH (state e) r' x' (proj1 Hb) (proj2 Hb)). cbv zeta in IH.
    destruct (test_loop K obj intf pid vm cmd logfile rest (state e) r' x')
      as [x1 e1]. exact IH.
Qed.

End Signal.

(** X14. The unsupported-signature signal never leaks out of a test: when
    flag and text are clear before df_fuzz_test_method, they are clear
    after it, whatever the script and however the test ends. *)
Theorem test_method_signal_cleared :
  forall K obj intf pid vm cmd logfile buf name script st,
    df_unsupported_sig st = 0 ->
    df_unsupported_sig_str st = None ->
    let st' := final_state
                 (df_fuzz_test_method K obj intf pid vm cmd logfile buf name
                                      script st) in
    df_unsupported_sig st' = 0 /\ df_unsupported_sig_str st' = None.
Proof.
  intros K obj intf pid vm cmd logfile buf name script st H0 Hn. cbv zeta.
  unfold final_state, df_fuzz_test_method.
  destruct (debug_signatures _ _ _) as [dbg ok].
  destruct (negb ok); [split; assumption|].
  pose proof (test_loop_signal K obj intf pid vm cmd logfile script st 0 0 H0 Hn)
    as H. cbv zeta in H.
  destruct (test_loop K obj intf pid vm cmd logfile script st 0 0)
    as [[code| |ret execr] e]; cbn [snd state] in *; try exact H.
  destruct (after_loop _ _ _ _ _ _ _ _ _) as [code ev]. exact H.
Qed.

Lemma test_method_signal_cleared_witness :
  df_unsupported_sig (catalog_of "SetAll" ["s"; "a{sv}"]) = 0
  /\ df_unsupported_sig_str (catalog_of "SetAll" ["s"; "a{sv}"]) = None
  /\ df_unsupported_sig_str
       (final_state (test_once "SetAll" ["s"; "a{sv}"]
          (iteration_of (Response "()") (cmd_status 0) alive))) = None.
Proof.
  split; [reflexivity|]. split; [reflexivity|].
  exact (proj2 (test_method_signal_cleared K0 "/org/example" "org.example.Iface"
                  4242 0 None true 0 "org.example"
                  [iteration_of (Response "()") (cmd_status 0) alive]
                  (catalog_of "SetAll" ["s"; "a{sv}"]) eq_refl eq_refl)).
Defined.

(** ** How the causes combine *)

(** X15. The verdict of the iteration that composed a call argument, by
    precedence: a health check that cannot be run gives -1 whatever the
    call returned; a failed health check gives 2 when the call found the
    void contract violated and 4 otherwise, and the probe is not asked;
    with a passed health check, a probe error gives -1 and an exited
    target gives 1, both even after a void violation; with the target
    alive, a skip-worthy reply (call result 2) gives 0 and a void
    violation gives 2. *)
Theorem verdict_precedence :
  forall K obj intf pid vm cmd logfile buf name pre it post st st1 ev1 v st2
         ev2 ret st3 ev3 execr,
    catalog_ok st ->
    run_through K obj intf pid vm cmd logfile pre st = Some st1 ->
    df_fuzz_create_variant K it st1 = (ev1, Some v, st2) ->
    df_fuzz_call_method v vm (it_reply it) st2 = (ev2, ret, st3) ->
    df_exec_cmd_check cmd (it_cmd it) = (ev3, execr) ->
    let r := df_fuzz_test_method K obj intf pid vm cmd logfile buf name
               (pre ++ it :: post) st in
    let probe := df_check_if_exited pid (it_proc it) in
    (execr < 0 -> verdict r = Returns (-1))
    /\ (0 < execr -> verdict r = Returns (if ret =? 1 then 2 else 4))
    /\ (execr = 0 -> probe = None -> verdict r = Aborts)
    /\ (execr = 0 -> probe = Some (-1) -> verdict r = Returns (-1))
    /\ (execr = 0 -> probe = Some 0 -> verdict r = Returns 1)
    /\ (execr = 0 -> probe = Some 1 -> ret = 2 -> verdict r = Returns 0)
    /\ (execr = 0 -> probe = Some 1 -> ret = 1 -> verdict r = Returns 2).
Proof.
  intros K obj intf pid vm cmd logfile buf name pre it post st st1 ev1 v st2
         ev2 ret st3 ev3 execr Hok Hthrough Hcv Hcall Hcmd. cbv zeta.
  pose proof (test_method_at K obj intf pid vm cmd logfile buf name pre it post
                st st1 Hok Hthrough) as T.
  cbv zeta in T.
  assert (Hcomposed :
            0 <= execr ->
            loop_body K obj intf pid vm cmd logfile it st1
            = _) by
    (intros Hx;
     exact (loop_body_composed K obj intf pid vm cmd logfile it st1 _ _ _ _ _
              _ _ _ Hcv Hcall Hcmd Hx)).
  cbv zeta in Hcomposed.
  pose proof (fun r x s =>
                after_loop_code obj intf cmd name
                  (if buf <? MINLEN K then MAX_BUF_LEN K else buf)
                  (negb (buf =? 0)) r x s) as A.
  cbv zeta in A.
  split; [|split; [|split; [|split; [|split; [|split]]]]].
  - intros Hneg. unfold loop_body in T. rewrite Hcv, Hcall, Hcmd in T.
    destruct (Z.ltb_spec execr 0); [|lia]. cbn [fst snd] in T. apply T.
  - intros Hgt. rewrite Hcomposed in T by lia.
    destruct (Z.gtb_spec execr 0); [|lia]. cbn [fst snd state] in T.
    destruct T as (-> & _). f_equal.
    destruct (Z.eqb_spec ret 1) as [->|Hn]; [apply A; reflexivity|].
    apply A; [exact Hn | lia].
  - intros -> Hp. rewrite Hcomposed, Hp in T by lia. exact T.
  - intros -> Hp. rewrite Hcomposed, Hp in T by lia. apply T.
  - intros -> Hp. rewrite Hcomposed, Hp in T by lia.
    cbn [Z.gtb Z.ltb Z.eqb Z.compare fst snd state] in T.
    destruct T as (-> & _). reflexivity.
  - intros -> Hp ->. rewrite Hcomposed, Hp in T by lia. apply T.
  - intros -> Hp ->. rewrite Hcomposed, Hp in T by lia.
    cbn [Z.gtb Z.ltb Z.eqb Z.compare Pos.eqb fst snd state] in T.
    destruct T as (-> & _). reflexivity.
Qed.

Lemma verdict_precedence_witness :
  catalog_ok (catalog_of "Ping" [])
  /\ verdict (df_fuzz_test_method K0 "/org/example" "org.example.Iface" 4242 1
                (Some "check") true 0 "org.example"
                [iteration_of (Response "(s)") (cmd_status 256) alive]
                (catalog_of "Ping" [])) = Returns 2.
Proof.
  assert (H : catalog_ok (catalog_of "Ping" []))
    by (split; [reflexivity | cbn; unfold INT_MAX; lia]).
  split; [exact H|].
  refine (proj1 (proj2
            (verdict_precedence K0 "/org/example" "org.example.Iface" 4242 1
               (Some "check") true 0 "org.example" []
               (iteration_of (Response "(s)") (cmd_status 256) alive) []
               (catalog_of "Ping" []) (catalog_of "Ping" [])
               [] (mkGVariant "()" (VTuple [])) (catalog_of "Ping" [])
               _ 1 (catalog_of "Ping" []) [] 1 H eq_refl eq_refl _ eq_refl)) _).
  - reflexivity.
  - lia.
Defined.

(** X16. A missing reply does not end the loop by itself. When the call
    returns -1 (NoReply or Timeout), the health check passes, the target
    is alive and the counter is not at the cap, the iteration is logged
    as a success and the loop goes on with the state unchanged; the test
    returns 1, after the "Success" record, only when df_rand_continue
    lets no further iteration start. *)
Theorem no_reply_continues :
  forall K obj intf pid vm cmd logfile buf name pre it st st1 ev1 v st2 ev2 st3
         ev3,
    catalog_ok st ->
    run_through K obj intf pid vm cmd logfile pre st = Some st1 ->
    df_fuzz_create_variant K it st1 = (ev1, Some v, st2) ->
    df_fuzz_call_method v vm (it_reply it) st2 = (ev2, -1, st3) ->
    df_exec_cmd_check cmd (it_cmd it) = (ev3, 0) ->
    df_check_if_exited pid (it_proc it) = Some 1 ->
    df_except_counter st3 <> MAX_EXCEPTIONS K ->
    st3 = st2
    /\ run_through K obj intf pid vm cmd logfile (pre ++ [it]) st = Some st2
    /\ In (FULL_LOG "Success\n" [])
          (events (snd (loop_body K obj intf pid vm cmd logfile it st1)))
    /\ verdict (df_fuzz_test_method K obj intf pid vm cmd logfile buf name
                  (pre ++ [it]) st) = Returns 1.
Proof.
  intros K obj intf pid vm cmd logfile buf name pre it st st1 ev1 v st2 ev2 st3
         ev3 Hok Hthrough Hcv Hcall Hcmd Hprobe Hcap.
  assert (Hst : st3 = st2).
  { pose proof (call_method_frame v vm (it_reply it) st2) as (Hl & Hu & Hs).
    pose proof (call_method_counter v vm (it_reply it) st2) as Hc.
    pose proof (call_method_ret v vm it st2) as Hr.
    rewrite Hcall in *. cbn [fst snd] in *.
    unfold df_fuzz_call_method in Hcall.
    destruct (it_reply it) as [[e|] m|fmt].
    - destruct (strcmp_eq e "org.freedesktop.DBus.Error.NoReply");
        [injection Hcall as _ <-; reflexivity|].
      destruct (strcmp_eq e "org.freedesktop.DBus.Error.Timeout");
        [injection Hcall as _ <-; reflexivity|].
      destruct (_ || _)%bool; [discriminate|].
      destruct (strstr m "Timeout"); discriminate.
    - destruct (strstr m "Timeout"); discriminate.
    - destruct (_ && _)%bool; discriminate. }
  subst st3.
  assert (Hbody : loop_body K obj intf pid vm cmd logfile it st1
                  = (BNext (-1) 0,
                     mk_effects
                       ((ev1 ++ ev2 ++ ev3)
                        ++ [FULL_LOG "%s;%s;" [AStr intf; AStr obj]]
                        ++ (if logfile then fst (df_fuzz_write_log st2) else [])
                        ++ [FULL_LOG "Success\n" []])
                       [df_except_counter st2] st2)).
  { rewrite (loop_body_composed K obj intf pid vm cmd logfile it st1 _ _ _ _ _
               _ _ _ Hcv Hcall Hcmd ltac:(lia)).
    cbv zeta. rewrite Hprobe.
    cbn [Z.gtb Z.ltb Z.eqb Z.compare].
    destruct (Z.eqb_spec (df_except_counter st2) (MAX_EXCEPTIONS K));
      [contradiction | reflexivity]. }
  split; [reflexivity|].
  assert (Hrun : forall p s, run_through K obj intf pid vm cmd logfile p s = Some st1 ->
                 run_through K obj intf pid vm cmd logfile (p ++ [it]) s = Some st2).
  { induction p as [|i p IH]; intros s Hs; cbn [app run_through] in *.
    - injection Hs as ->. rewrite Hbody. reflexivity.
    - destruct (loop_body K obj intf pid vm cmd logfile i s)
        as [[c| |r x|r x] e]; try discriminate. apply IH, Hs. }
  split; [apply Hrun, Hthrough|].
  split.
  { rewrite Hbody. cbn [snd events]. rewrite !in_app_iff.
    right; right; right. left; reflexivity. }
  unfold verdict, df_fuzz_test_method.
  pose proof (catalog_ok_debug st Hok) as Hdbg.
  destruct (debug_signatures _ _ _) as [dbg ok]. cbn [snd] in Hdbg. subst ok.
  cbn [negb].
  rewrite (test_loop_through K obj intf pid vm cmd logfile pre st 0 0 st1 it []
             Hthrough).
  cbn [test_loop]. rewrite Hbody. cbn [fst snd state events counter_values].
  match goal with
  | |- context [after_loop ?o ?i ?c ?n ?b ?f (-1) 0 ?s] =>
      pose proof (after_loop_code o i c n b f (-1) 0 s) as (_ & _ & _ & A1);
      destruct (after_loop o i c n b f (-1) 0 s) as [code ev]
  end.
  cbn [fst] in *. rewrite A1 by lia. reflexivity.
Qed.

Lemma no_reply_continues_witness :
  catalog_ok (catalog_of "Ping" [])
  /\ df_except_counter (catalog_of "Ping" []) <> MAX_EXCEPTIONS K0
  /\ verdict (ping_once 0 None no_reply_iteration) = Returns 1
  /\ verdict (df_fuzz_test_method K0 "/org/example" "org.example.Iface" 4242 0
                None true 0 "org.example"
                [no_reply_iteration;
                 iteration_of (Response "()") (cmd_status 0) alive]
                (catalog_of "Ping" [])) = Returns 0.
Proof.
  assert (H : catalog_ok (catalog_of "Ping" []))
    by (split; [reflexivity | cbn; unfold INT_MAX; lia]).
  assert (Hc : df_except_counter (catalog_of "Ping" []) <> MAX_EXCEPTIONS K0)
    by (cbn; lia).
  split; [exact H|]. split; [exact Hc|]. split; [|reflexivity].
  refine (proj2 (proj2 (proj2
            (no_reply_continues K0 "/org/example" "org.example.Iface" 4242 0
               None true 0 "org.example" [] no_reply_iteration
               (catalog_of "Ping" []) (catalog_of "Ping" [])
               [] (mkGVariant "()" (VTuple [])) (catalog_of "Ping" [])
               _ (catalog_of "Ping" []) [] H eq_refl eq_refl _ eq_refl eq_refl
               Hc)))).
  reflexivity.
Defined.

(** ** The invocation and the log record *)

(** X17. df_fuzz_call_method always makes the call first, and never
    touches the catalog or the unsupported signal. It counts an exception
    exactly for an ordinary remote exception (none of NoReply, Timeout,
    AccessDenied, AuthFailed, and no "Timeout" in the message): then it
    returns 0 and the counter goes up by one, as a [char]; for every
    other reply the module state is unchanged. A method that is not
    declared void never yields the result 1. *)
Theorem call_method_effects :
  forall (value : GVariant) (vm : Z) (reply : call_reply) (st : fuzz_state),
    let c := df_fuzz_call_method value vm reply st in
    hd_error (fst (fst c))
    = Some (g_dbus_proxy_call_sync (df_method_name (df_list st)) value)
    /\ df_list (snd c) = df_list st
    /\ df_unsupported_sig (snd c) = df_unsupported_sig st
    /\ df_unsupported_sig_str (snd c) = df_unsupported_sig_str st
    /\ (ordinary_exception reply ->
        snd (fst c) = 0
        /\ df_except_counter (snd c) = wrap_char (df_except_counter st + 1))
    /\ (~ ordinary_exception reply -> snd c = st)
    /\ (vm = 0 -> snd (fst c) <> 1).
Proof.
  intros value vm reply st. cbv zeta.
  pose proof (call_method_frame value vm reply st) as (F1 & F2 & F3).
  split; [|split; [exact F1|split; [exact F2|split; [exact F3|]]]].
  { unfold df_fuzz_call_method.
    destruct reply as [[e|] m|fmt].
    - destruct (strcmp_eq e "org.freedesktop.DBus.Error.NoReply"); [reflexivity|].
      destruct (strcmp_eq e "org.freedesktop.DBus.Error.Timeout"); [reflexivity|].
      destruct (_ || _)%bool; [reflexivity|].
      destruct (strstr m "Timeout"); reflexivity.
    - destruct (strstr m "Timeout"); reflexivity.
    - destruct (_ && _)%bool; reflexivity. }
  unfold df_fuzz_call_method, ordinary_exception.
  destruct reply as [[e|] m|fmt].
  - destruct (strcmp_eq e "org.freedesktop.DBus.Error.NoReply") eqn:E1.
    { apply strcmp_eq_true in E1. subst e. cbn [fst snd].
      split; [|split; [reflexivity | discriminate]].
      intros (e' & m' & H & _ & Hn & _). injection H as <- _. contradiction. }
    destruct (strcmp_eq e "org.freedesktop.DBus.Error.Timeout") eqn:E2.
    { apply strcmp_eq_true in E2. subst e. cbn [fst snd].
      split; [|split; [reflexivity | discriminate]].
      intros (e' & m' & H & _ & _ & Hn & _). injection H as <- _. contradiction. }
    destruct (strcmp_eq e "org.freedesktop.DBus.Error.AccessDenied") eqn:E3.
    { apply strcmp_eq_true in E3. subst e. cbn [orb fst snd].
      split; [|split; [reflexivity | discriminate]].
      intros (e' & m' & H & _ & _ & _ & Hn & _). injection H as <- _.
      contradiction. }
    destruct (strcmp_eq e "org.freedesktop.DBus.Error.AuthFailed") eqn:E4.
    { apply strcmp_eq_true in E4. subst e. cbn [orb fst snd].
      split; [|split; [reflexivity | discriminate]].
      intros (e' & m' & H & _ & _ & _ & _ & Hn). injection H as <- _.
      contradiction. }
    cbn [orb]. apply strcmp_eq_false in E1, E2, E3, E4.
    destruct (strstr m "Timeout") eqn:Et; cbn [fst snd].
    + split; [|split; [reflexivity | discriminate]].
      intros (e' & m' & H & Hm & _). injection H as _ <-. congruence.
    + split; [intros _; split; reflexivity|].
      split; [|discriminate].
      intros Hno. exfalso. apply Hno. exists (Some e), m.
      repeat split; try assumption; congruence.
  - destruct (strstr m "Timeout") eqn:Et; cbn [fst snd].
    + split; [|split; [reflexivity | discriminate]].
      intros (e' & m' & H & Hm & _). injection H as _ <-. congruence.
    + split; [intros _; split; reflexivity|].
      split; [|discriminate].
      intros Hno. exfalso. apply Hno. exists None, m.
      repeat split; try assumption; discriminate.
  - split; [intros (e' & m' & H & _); discriminate H|].
    split.
    + intros _. destruct (_ && _)%bool; reflexivity.
    + intros ->. cbn. discriminate.
Qed.

Lemma log_string_fields str : logged_fields (log_string str) = [].
Proof.
  unfold logged_fields, log_string. rewrite flat_map_app.
  destruct str as [s|]; [|reflexivity].
  cbn [flat_map app]. rewrite app_nil_r.
  induction (chars s) as [|c l IH]; [reflexivity|]. cbn. exact IH.
Qed.

Lemma write_log_value_fields c v ev :
  write_log_value c v = Some ev -> logged_fields ev = [].
Proof.
  destruct c as [[|] [|] [|] [|] [|] [|] [|] [|]]; cbn [write_log_value];
    intros H; try discriminate H; injection H as <-;
    try reflexivity; apply log_string_fields.
Qed.

(** X18. The log record keeps the call order. For a catalog whose slots
    all carry a type code df_fuzz_write_log knows, the function returns 0
    and the fields it writes with "%s;" are the method name followed by
    the signature of every argument, in list order. *)
Theorem write_log_fields :
  forall (st : fuzz_state),
    forallb loggable (nodes (df_list st)) = true ->
    snd (df_fuzz_write_log st) = 0
    /\ logged_fields (fst (df_fuzz_write_log st))
       = name_arg (df_method_name (df_list st))
         :: map (fun s => AStr (sig s)) (nodes (df_list st)).
Proof.
  intros st H. unfold df_fuzz_write_log.
  assert (Hl : snd (write_log_loop (nodes (df_list st))) = 0
               /\ logged_fields (fst (write_log_loop (nodes (df_list st))))
                  = map (fun s => AStr (sig s)) (nodes (df_list st))).
  { induction (nodes (df_list st)) as [|x l IH]; [split; reflexivity|].
    cbn [forallb] in H. apply andb_prop in H as [Hx Hl].
    specialize (IH Hl). unfold loggable in Hx. cbn [write_log_loop map].
    destruct (sig x) as [|c [|c' r]] eqn:Es; try discriminate.
    change (wrap_int (strlen (String c ""))) with 1.
    cbn [Z.leb Z.eqb Z.compare Pos.eqb].
    destruct (write_log_value c (var x)) as [ev|] eqn:Ev; [|discriminate].
    destruct (write_log_loop l) as [rest r0]. cbn [fst snd] in *.
    destruct IH as [-> IH]. split; [reflexivity|].
    unfold logged_fields in *. rewrite !flat_map_app.
    fold (logged_fields ev). rewrite (write_log_value_fields _ _ _ Ev), IH.
    reflexivity. }
  destruct (write_log_loop _) as [ev r]. cbn [fst snd] in *.
  destruct Hl as [-> Hl]. split; [reflexivity|].
  unfold logged_fields in *. cbn [flat_map app]. rewrite Hl. reflexivity.
Qed.

Lemma write_log_fields_witness :
  forallb loggable
    (nodes (df_list (final_state
       (test_once "SetName" ["s"; "i"]
          (iteration_of (Response "()") (cmd_status 0) alive))))) = true
  /\ logged_fields
       (fst (df_fuzz_write_log (final_state
          (test_once "SetName" ["s"; "i"]
             (iteration_of (Response "()") (cmd_status 0) alive)))))
     = [AStr "SetName"; AStr "s"; AStr "i"].
Proof.
  assert (H : forallb loggable
                (nodes (df_list (final_state
                   (test_once "SetName" ["s"; "i"]
                      (iteration_of (Response "()") (cmd_status 0) alive)))))
              = true) by reflexivity.
  split; [exact H|].
  rewrite (proj2 (write_log_fields _ H)). reflexivity.
Defined.

(** ** Errors during generation, and verdicts that cannot occur *)

Lemma list_variants_loop_error name rand x after ev b : forall done i,
  all_generate rand b i = true ->
  (exists c, sig x = String c EmptyString
             /\ generate_value c (sig x) (rand (i + List.length b)%nat)
                = SlotError ev) ->
  let r := list_variants_loop name rand done (b ++ x :: after) i in
  vr_ret r = -1 /\ vr_events r = ev /\ vr_unsupported r = None
  /\ exists b', vr_nodes r = done ++ b' ++ x :: after
                /\ map sig b' = map sig b /\ Forall typed_value b'.
Proof.
  induction b as [|s b IH]; intros done i Hgen (c & Hc & Hx); cbv zeta.
  - cbn [app list_variants_loop List.length] in *.
    rewrite Nat.add_0_r in Hx. rewrite Hc in *.
    change (wrap_int (strlen (String c ""))) with 1.
    cbn [Z.leb Z.eqb Z.compare Pos.eqb]. rewrite Hx.
    cbn. repeat split. exists []. repeat split. constructor.
  - cbn [all_generate] in Hgen. cbn [app list_variants_loop].
    destruct (sig s) as [|c0 [|c' r]] eqn:Es; try discriminate.
    change (wrap_int (strlen (String c0 ""))) with 1.
    cbn [Z.leb Z.eqb Z.compare Pos.eqb].
    destruct (generate_value c0 (String c0 "") (rand i)) as [e|[v|]] eqn:Eg;
      try discriminate.
    destruct (IH (done ++ [{| sig := String c0 ""; var := Some v |}]) (S i) Hgen)
      as (H1 & H2 & H3 & b' & H4 & H5 & H6).
    { exists c. split; [exact Hc|]. cbn [List.length] in Hx.
      replace (S i + List.length b)%nat with (i + S (List.length b))%nat by lia.
      exact Hx. }
    split; [exact H1|]. split; [exact H2|]. split; [exact H3|].
    exists ({| sig := String c0 ""; var := Some v |} :: b').
    rewrite H4, <- app_assoc. cbn [app map sig]. rewrite H5, Es.
    repeat split. constructor; [|exact H6].
    exists v. split; [reflexivity|]. cbn.
    apply (generate_value_typed _ _ _ _ Eg).
Qed.

(** X19. An error during generation releases nothing. When the slots in
    front of a slot are generated and that slot's generator call fails or
    its type code is unknown, df_fuzz_create_list_variants returns -1
    with the diagnostic of that slot, sets no signal, leaves the failing
    slot and the slots behind it as they were, and leaves in the slots in
    front of it the values just generated. *)
Theorem create_list_variants_error :
  forall (rand : nat -> rand_draws) (st : fuzz_state) before x after c ev,
    nodes (df_list st) = before ++ x :: after ->
    all_generate rand before 0 = true ->
    sig x = String c EmptyString ->
    generate_value c (sig x) (rand (List.length before)) = SlotError ev ->
    let g := df_fuzz_create_list_variants rand st in
    snd (fst g) = -1
    /\ fst (fst g) = ev
    /\ df_unsupported_sig_str (snd g) = df_unsupported_sig_str st
    /\ exists before',
         nodes (df_list (snd g)) = before' ++ x :: after
         /\ map sig before' = map sig before
         /\ Forall typed_value before'.
Proof.
  intros rand st before x after c ev Hnodes Hgen Hc Hx. cbv zeta.
  unfold df_fuzz_create_list_variants. rewrite Hnodes.
  destruct (list_variants_loop_error (df_method_name (df_list st)) rand x after
              ev before [] 0%nat Hgen)
    as (H1 & H2 & H3 & b' & H4 & H5 & H6).
  { exists c. split; [exact Hc | exact Hx]. }
  destruct (list_variants_loop _ _ _ _ _) as [e r ns u].
  cbn [vr_ret vr_events vr_nodes vr_unsupported fst snd] in *. subst.
  cbn. repeat split. exists b'. repeat split; assumption.
Qed.

Lemma create_list_variants_error_witness :
  let g := df_fuzz_create_list_variants (it_rand iteration_string_fails)
             (catalog_of "Send" ["i"; "s"; "u"]) in
  snd (fst g) = -1
  /\ fst (fst g) = [df_debug "In df_rand_string()\n" []]
  /\ df_unsupported_sig_str (snd g) = None
  /\ exists before',
       nodes (df_list (snd g))
       = before' ++ [mk_sig "s" None; mk_sig "u" None]
       /\ map sig before' = ["i"]
       /\ Forall typed_value before'.
Proof.
  exact (create_list_variants_error (it_rand iteration_string_fails)
           (catalog_of "Send" ["i"; "s"; "u"])
           [mk_sig "i" None] (mk_sig "s" None) [mk_sig "u" None]
           "s"%char [df_debug "In df_rand_string()\n" []]
           eq_refl eq_refl eq_refl eq_refl).
Defined.

(** The cause behind a verdict 1, 2 or 4. *)
Lemma test_method_cause K obj intf pid vm cmd logfile buf name script st code :
  verdict (df_fuzz_test_method K obj intf pid vm cmd logfile buf name script st)
  = Returns code ->
  (code = 1 -> exists it, In it script /\ crash_detected pid it)
  /\ (code = 2 -> exists it, In it script /\ void_violation vm it)
  /\ (code = 4 -> exists it, In it script /\ health_check_failed cmd it).
Proof.
  unfold verdict, df_fuzz_test_method.
  destruct (debug_signatures _ _ _) as [dbg ok].
  destruct (negb ok); [discriminate|].
  pose proof (test_loop_exits K obj intf pid vm cmd logfile script st 0 0) as Hl.
  destruct (test_loop K obj intf pid vm cmd logfile script st 0 0)
    as [[c| |ret execr] e]; cbn [fst] in *.
  - intros H; injection H as <-.
    destruct Hl as [->| ->]; repeat split; discriminate.
  - discriminate.
  - set (b := if buf <? MINLEN K then MAX_BUF_LEN K else buf).
    pose proof (after_loop_code obj intf cmd name b (negb (buf =? 0)) ret execr
                  (state e)) as (A0 & A2 & A4 & A1).
    destruct (after_loop obj intf cmd name b (negb (buf =? 0)) ret execr
                (state e)) as [c ev]. cbn [fst] in *.
    intros H; injection H as <-.
    destruct Hl as [[-> ->]|(it & Hin & Hx & Hh & Hv & Hr)].
    + rewrite A0 by auto. repeat split; discriminate.
    + destruct (Z.eq_dec ret 1) as [->|Hn1].
      { rewrite A2 by reflexivity. repeat split; try discriminate.
        intros _. exists it. auto. }
      destruct (Z.eq_dec execr 0) as [->|Hx0].
      * destruct (Hr eq_refl) as [->|[->|[-> Hc]]]; [|contradiction|].
        -- rewrite A0 by auto. repeat split; discriminate.
        -- rewrite A1 by (try reflexivity; lia).
           repeat split; try discriminate. intros _. exists it. auto.
      * rewrite A4 by lia. repeat split; try discriminate.
        intros _. exists it. split; [exact Hin | apply Hh; lia].
Qed.

(** X20. Verdicts that cannot occur. Without a health-check command the
    test never returns 4; for a method not declared void it never returns
    2; and when in every iteration the probe finds the target alive and
    the reply is neither NoReply nor Timeout, it never returns 1. *)
Theorem test_method_impossible_verdicts :
  forall K obj intf pid vm cmd logfile buf name script st code,
    verdict (df_fuzz_test_method K obj intf pid vm cmd logfile buf name
                                 script st) = Returns code ->
    (cmd = None -> code <> 4)
    /\ (vm = 0 -> code <> 2)
    /\ ((forall it, In it script ->
            df_check_if_exited pid (it_proc it) = Some 1 /\ ~ no_reply it) ->
        code <> 1).
Proof.
  intros K obj intf pid vm cmd logfile buf name script st code H.
  destruct (test_method_cause _ _ _ _ _ _ _ _ _ _ _ _ H) as (H1 & H2 & H4).
  split; [|split].
  - intros -> ->. destruct (H4 eq_refl) as (it & _ & Hh).
    unfold health_check_failed in Hh. cbn in Hh. lia.
  - intros -> ->. destruct (H2 eq_refl) as (it & _ & Hv & _). contradiction.
  - intros Hall ->. destruct (H1 eq_refl) as (it & Hin & [Hc|Hc]);
      destruct (Hall it Hin) as [Hp Hn]; [congruence | contradiction].
Qed.

Lemma test_method_impossible_verdicts_witness :
  verdict (ping_once 0 None (iteration_of (Response "(s)") (cmd_status 0) alive))
  = Returns 0
  /\ (0 <> 2) /\ (0 <> 4).
Proof.
  assert (H : verdict (ping_once 0 None
                (iteration_of (Response "(s)") (cmd_status 0) alive))
              = Returns 0) by reflexivity.
  destruct (test_method_impossible_verdicts K0 "/org/example"
              "org.example.Iface" 4242 0 None true 0 "org.example"
              [iteration_of (Response "(s)") (cmd_status 0) alive]
              (catalog_of "Ping" []) 0 H) as (T4 & T2 & _).
  split; [exact H|]. split; [exact (T2 eq_refl) | exact (T4 eq_refl)].
Defined.
